(** * Call_Log: the trailer parser of [app.py] and [call_logs.py]

    A shallow embedding of the two Python modules of the repository:

    - [app.py]       the FastAPI application; its [extract_logs],
                     [parse_log_line], [process_logs], [save_to_json] and
                     [process_file], and the helpers of its web page;
    - [call_logs.py] the stand-alone batch script; its [extract_logs],
                     [parse_log_line], [process_logs], [save_to_json] and
                     [process_all_files_in_directory].

    Python values are an inductive type [pyval]; a [str] is the list of its
    code points; a [dict] is an association list in insertion order; code that
    can raise lives in the exception monad [res], and [try]/[except] is
    [try_except].

    A call to [print] is part of the code it stands in.  The standard
    output is taken to encode as UTF-8 and to be strict about errors, as
    Python sets it up by default: [print] raises [UnicodeEncodeError] for a
    text with a surrogate, which a file name of [os.listdir] and a string
    of [json.load] can hold, and for no other text. *)

From Stdlib Require Import ZArith NArith List Bool Lia String Ascii.
From Stdlib Require Import Floats.SpecFloat.
Import ListNotations.

Open Scope Z_scope.

(* ================================================================== *)
(** * Python strings *)
(* ================================================================== *)

(** A character is a Unicode code point, a [str] the list of its
    characters. *)
Definition char := N.
Definition pystr := list char.

(** An ASCII literal of the source as a [pystr]. *)
Definition lit (s : string) : pystr :=
  List.map N_of_ascii (list_ascii_of_string s).

(** [a == b] on two strings. *)
Fixpoint str_eqb (a b : pystr) : bool :=
  match a, b with
  | [], [] => true
  | x :: a', y :: b' => (x =? y)%N && str_eqb a' b'
  | _, _ => false
  end.

(** [len(x)] as a Python integer. *)
Definition len {A} (l : list A) : Z := Z.of_nat (List.length l).

(** [str.isspace] on one character: the white space that [str.strip()]
    removes. *)
Definition is_space (c : char) : bool :=
  (((0x09 <=? c) && (c <=? 0x0D)) || ((0x1C <=? c) && (c <=? 0x20))
   || (c =? 0x85) || (c =? 0xA0) || (c =? 0x1680)
   || ((0x2000 <=? c) && (c <=? 0x200A))
   || (c =? 0x2028) || (c =? 0x2029) || (c =? 0x202F) || (c =? 0x205F)
   || (c =? 0x3000))%N.

Fixpoint drop_while (p : char -> bool) (s : pystr) : pystr :=
  match s with
  | [] => []
  | c :: s' => if p c then drop_while p s' else s
  end.

(** Both ends of [s] without the characters that satisfy [p]. *)
Definition strip_with (p : char -> bool) (s : pystr) : pystr :=
  rev (drop_while p (rev (drop_while p s))).

(** [s.strip()] *)
Definition strip (s : pystr) : pystr := strip_with is_space s.

(** [s.split(sep, maxsplit)] for a separator of one character; a negative
    [maxsplit] (Python's default, -1) puts no bound on the number of
    splits. *)
Fixpoint str_split (sep : char) (maxsplit : Z) (s : pystr) : list pystr :=
  match s with
  | [] => [[]]
  | c :: s' =>
      if (c =? sep)%N && negb (maxsplit =? 0)
      then [] :: str_split sep (maxsplit - 1) s'
      else match str_split sep maxsplit s' with
           | seg :: segs => (c :: seg) :: segs
           | [] => [[c]]
           end
  end.

(** [c in s] for a single character [c]. *)
Definition str_contains (c : char) (s : pystr) : bool :=
  existsb (N.eqb c) s.

Definition pipe : char := 0x7C%N.
Definition colon : char := 0x3A%N.

(* ================================================================== *)
(** * Exceptions *)
(* ================================================================== *)

(** The exceptions the modelled code can meet; all of them are subclasses of
    [Exception], so [except Exception] catches each of them. *)
Inductive exn : Type :=
| IndexError | KeyError | ValueError | AttributeError | TypeError
| OSError | JSONDecodeError | UnicodeEncodeError.

Inductive res (A : Type) : Type :=
| Ok (a : A)
| Raise (e : exn).
Arguments Ok {A} a.
Arguments Raise {A} e.

Definition bind {A B} (c : res A) (k : A -> res B) : res B :=
  match c with
  | Ok a => k a
  | Raise e => Raise e
  end.

Notation "x <- c ;; k" := (bind c (fun x => k))
  (at level 61, c at next level, right associativity).

(** [try: c  except Exception: h] *)
Definition try_except {A} (c : res A) (h : exn -> res A) : res A :=
  match c with
  | Ok a => Ok a
  | Raise e => h e
  end.

(** A [for] loop whose body updates the loop state [s] and may raise. *)
Fixpoint for_each {S A} (body : S -> A -> res S) (l : list A) (s : S) : res S :=
  match l with
  | [] => Ok s
  | x :: l' => s' <- body s x ;; for_each body l' s'
  end.

(* ================================================================== *)
(** * Standard output *)
(* ================================================================== *)

(** A surrogate code point, U+D800 .. U+DFFF.  A [str] can hold one: the
    names that [os.listdir] gives for file names that are not UTF-8, and the
    strings that [json.load] reads from an escape such as [\udc80]. *)
Definition is_surrogate (c : char) : bool :=
  ((0xD800 <=? c) && (c <=? 0xDFFF))%N.

(** The text has an encoding in UTF-8: it holds no surrogate. *)
Definition encodable (text : pystr) : bool :=
  negb (existsb is_surrogate text).

(** [print(text)].  The standard output encodes as UTF-8 and is strict
    about errors, Python's default: the call raises [UnicodeEncodeError]
    for a text that has no encoding, and writes the text otherwise.
    ([traceback.print_exc()] writes to the standard error, which escapes
    what it cannot encode; it never raises and is left out.) *)
Definition print (text : pystr) : res unit :=
  if encodable text then Ok tt else Raise UnicodeEncodeError.

(** [print(f"...{e}")] for a caught exception [e], with [text] for what is
    printed before it.  The text of the exceptions met here quotes the
    strings it mentions with [repr], which escapes surrogates, so it is
    [text] that decides whether the call raises. *)
Definition print_error (text : pystr) (e : exn) : res unit := print text.

(* ================================================================== *)
(** * [int(s)] *)
(* ================================================================== *)

(** The white space that [int] skips around the literal: [str.isspace]
    without the four separators U+001C .. U+001F. *)
Definition int_space (c : char) : bool :=
  is_space c && negb ((0x1C <=? c) && (c <=? 0x1F))%N.

(** First code points of the blocks of ten Unicode decimal digits
    (category Nd; Unicode 14, the table of CPython 3.11). *)
Definition decimal_blocks : list N :=
  [0x30; 0x660; 0x6F0; 0x7C0; 0x966; 0x9E6; 0xA66; 0xAE6; 0xB66; 0xBE6;
   0xC66; 0xCE6; 0xD66; 0xDE6; 0xE50; 0xED0; 0xF20; 0x1040; 0x1090; 0x17E0;
   0x1810; 0x1946; 0x19D0; 0x1A80; 0x1A90; 0x1B50; 0x1BB0; 0x1C40; 0x1C50;
   0xA620; 0xA8D0; 0xA900; 0xA9D0; 0xA9F0; 0xAA50; 0xABF0; 0xFF10; 0x104A0;
   0x10D30; 0x11066; 0x110F0; 0x11136; 0x111D0; 0x112F0; 0x11450; 0x114D0;
   0x11650; 0x116C0; 0x11730; 0x118E0; 0x11950; 0x11C50; 0x11D50; 0x11DA0;
   0x16A60; 0x16AC0; 0x16B50; 0x1D7CE; 0x1D7D8; 0x1D7E2; 0x1D7EC; 0x1D7F6;
   0x1E140; 0x1E2F0; 0x1E950; 0x1FBF0]%N.

(** The value of a decimal digit, or [None] for any other character. *)
Definition to_decimal (c : char) : option Z :=
  match find (fun b => (b <=? c) && (c <? b + 10))%N decimal_blocks with
  | Some b => Some (Z.of_N (c - b))
  | None => None
  end.

Definition underscore : char := 0x5F%N.

(** The digits of a literal, most significant first.  An underscore is only
    allowed between two digits; [prev] tells whether the previous character
    was a digit. *)
Fixpoint int_digits (prev : bool) (s : pystr) : option (list Z) :=
  match s with
  | [] => if prev then Some [] else None
  | c :: s' =>
      match to_decimal c with
      | Some d => option_map (cons d) (int_digits true s')
      | None =>
          if (c =? underscore)%N && prev then int_digits false s' else None
      end
  end.

(** [sys.get_int_max_str_digits()], CPython's default. *)
Definition int_max_str_digits : Z := 4300.

(** [int(s)] in base ten: optional white space, an optional sign, digits
    with single underscores between them; [ValueError] otherwise, and for
    more than [int_max_str_digits] digits. *)
Definition py_int (s : pystr) : res Z :=
  let s := strip_with int_space s in
  let '(neg, body) :=
    match s with
    | c :: s' => if (c =? 0x2D)%N then (true, s')
                 else if (c =? 0x2B)%N then (false, s')
                 else (false, s)
    | [] => (false, s)
    end in
  match int_digits false body with
  | None => Raise ValueError
  | Some ds =>
      if int_max_str_digits <? len ds then Raise ValueError
      else let v := fold_left (fun acc d => 10 * acc + d) ds 0 in
           Ok (if neg then - v else v)
  end.

(** The decimal digits of [n >= 0], most significant first; [fuel] bounds
    their number. *)
Fixpoint digits_of (fuel : nat) (n : Z) : list Z :=
  match fuel with
  | O => []
  | S f => if n <? 10 then [n] else digits_of f (n / 10) ++ [n mod 10]
  end.

(** [str(z)] for an int: [ValueError] for more than [int_max_str_digits]
    digits. *)
Definition str_of_int (z : Z) : res pystr :=
  let ds := digits_of (S (Z.to_nat (Z.log2 (Z.abs z)))) (Z.abs z) in
  if int_max_str_digits <? len ds then Raise ValueError
  else Ok ((if z <? 0 then [0x2D%N] else [])
           ++ List.map (fun d => (0x30 + Z.to_N d)%N) ds).

(** [str(n)] for a length or a count [n]: it is below [2 ^ 63], far from
    the limit of [str]. *)
Definition str_of_len (n : Z) : pystr :=
  List.map (fun d => (0x30 + Z.to_N d)%N)
           (digits_of (S (Z.to_nat (Z.log2 n))) n).

(* ================================================================== *)
(** * Python values *)
(* ================================================================== *)

(** The values that flow through the two modules: what [json.load] can
    return, and the entries that [process_logs] builds.  A [dict] has [str]
    keys and keeps its insertion order. *)
#[warnings="-register-all"] Inductive pyval : Type :=
| PyNone
| PyBool (b : bool)
| PyInt (z : Z)
| PyFloat (f : spec_float)
| PyStr (s : pystr)
| PyList (l : list pyval)
| PyDict (d : list (pystr * pyval)).

Definition dict := list (pystr * pyval).

(** Truth value of an object, as [if x:] and [not x] take it. *)
Definition truthy (v : pyval) : bool :=
  match v with
  | PyNone => false
  | PyBool b => b
  | PyInt z => negb (z =? 0)
  | PyFloat (S754_zero _) => false
  | PyFloat _ => true
  | PyStr s => match s with [] => false | _ => true end
  | PyList l => match l with [] => false | _ => true end
  | PyDict d => match d with [] => false | _ => true end
  end.

(** Truth value of a list: it is not empty. *)
Definition nonempty {A} (l : list A) : bool :=
  match l with [] => false | _ => true end.

(** [x is None] *)
Definition is_none (v : pyval) : bool :=
  match v with PyNone => true | _ => false end.

(** [d.get(k)] on a dict: [None] when the key is missing. *)
Fixpoint dict_lookup (k : pystr) (d : dict) : option pyval :=
  match d with
  | [] => None
  | (k', v) :: d' => if str_eqb k k' then Some v else dict_lookup k d'
  end.

(** [d[k]] *)
Definition dict_getitem (d : dict) (k : pystr) : res pyval :=
  match dict_lookup k d with
  | Some v => Ok v
  | None => Raise KeyError
  end.

(** [d[k] = v]: an existing key keeps its place, a new key goes last. *)
Fixpoint dict_set (k : pystr) (v : pyval) (d : dict) : dict :=
  match d with
  | [] => [(k, v)]
  | (k', v') :: d' =>
      if str_eqb k k' then (k', v) :: d' else (k', v') :: dict_set k v d'
  end.

(** [x.get(k)]: only a dict has the method. *)
Definition py_get (x : pyval) (k : pystr) : res pyval :=
  match x with
  | PyDict d => Ok (match dict_lookup k d with Some v => v | None => PyNone end)
  | _ => Raise AttributeError
  end.

(** [l[i]] with Python's negative indices. *)
Definition list_getitem {A} (l : list A) (i : Z) : res A :=
  let j := if i <? 0 then i + len l else i in
  if (j <? 0) || (len l <=? j) then Raise IndexError
  else match nth_error l (Z.to_nat j) with
       | Some x => Ok x
       | None => Raise IndexError
       end.

(** A slice bound brought into [0 .. len]. *)
Definition slice_bound (n i : Z) : Z :=
  if i <? 0 then Z.max 0 (i + n) else Z.min i n.

(** [l[start:stop]] *)
Definition list_slice {A} (l : list A) (start stop : Z) : list A :=
  let a := slice_bound (len l) start in
  let b := slice_bound (len l) stop in
  firstn (Z.to_nat (b - a)) (skipn (Z.to_nat a) l).

(** [l[start:]] *)
Definition list_from {A} (l : list A) (start : Z) : list A :=
  list_slice l start (len l).

(** A number of JSON as an exact value: an integer or a float. *)
Definition as_number (v : pyval) : option (Z + spec_float) :=
  match v with
  | PyBool b => Some (inl (if b then 1 else 0))
  | PyInt z => Some (inl z)
  | PyFloat f => Some (inr f)
  | _ => None
  end.

(** An integer and a float are equal when they denote the same number. *)
Definition int_float_eqb (z : Z) (f : spec_float) : bool :=
  match f with
  | S754_zero _ => z =? 0
  | S754_finite s m e =>
      (Bool.eqb s (z <? 0)) &&
      (if 0 <=? e then Z.abs z =? Z.pos m * 2 ^ e
       else Z.abs z * 2 ^ (- e) =? Z.pos m)
  | _ => false
  end.

Definition number_eqb (a b : Z + spec_float) : bool :=
  match a, b with
  | inl x, inl y => x =? y
  | inl x, inr f | inr f, inl x => int_float_eqb x f
  | inr f, inr g => SFeqb f g
  end.

(** [a == b] on the values above. *)
Fixpoint py_eq (a b : pyval) : bool :=
  match a, b with
  | PyNone, PyNone => true
  | PyStr s, PyStr t => str_eqb s t
  | PyList l, PyList m =>
      (fix all2 (l : list pyval) (m : list pyval) : bool :=
         match l, m with
         | [], [] => true
         | x :: l', y :: m' => py_eq x y && all2 l' m'
         | _, _ => false
         end) l m
  | PyDict d, PyDict e =>
      (Nat.eqb (List.length d) (List.length e)) &&
      (fix sub (d : list (pystr * pyval)) : bool :=
         match d with
         | [] => true
         | (k, v) :: d' =>
             match dict_lookup k e with
             | Some w => py_eq v w
             | None => false
             end && sub d'
         end) d
  | _, _ =>
      match as_number a, as_number b with
      | Some x, Some y => number_eqb x y
      | _, _ => false
      end
  end.

(** Some string of the value, a key of a dict among them, holds a
    surrogate. *)
Fixpoint has_surrogate (v : pyval) : bool :=
  match v with
  | PyStr s => existsb is_surrogate s
  | PyList l => existsb has_surrogate l
  | PyDict d =>
      existsb (fun kv => match kv with
                         | (k, x) => existsb is_surrogate k || has_surrogate x
                         end) d
  | _ => false
  end.

(** [print(f"...{v}")], with [text] for what is printed before [v].  For a
    string the text printed goes on with the string itself.  For an int
    [str] can raise; the text of any other value holds no surrogate, since
    [str] of a list or a dict quotes the strings in it with [repr]. *)
Definition print_value (text : pystr) (v : pyval) : res unit :=
  match v with
  | PyStr s => print (text ++ s)
  | PyInt z => _ <- str_of_int z ;; print text
  | _ => print text
  end.

(* ================================================================== *)
(** * The field parser *)
(* ================================================================== *)

(** [key, val = xs]: unpacking a list of exactly two items. *)
Definition unpack2 {A} (xs : list A) : res (A * A) :=
  match xs with
  | [a; b] => Ok (a, b)
  | _ => Raise ValueError
  end.

(** The body of the loop [for field in fields] of [parse_log_line]. *)
Definition parse_field (parsed : dict) (field : pystr) : res dict :=
  if str_contains colon field then
    kv <- unpack2 (str_split colon 1 field) ;;
    Ok (dict_set (fst kv) (PyStr (snd kv)) parsed)
  else Ok parsed.

(** [parse_log_line(line)]; [app.py] and [call_logs.py] define the same
    function, statement for statement. *)
Definition parse_log_line (line : pystr) : res pyval :=
  try_except
    (let parts := str_split pipe (-1) line in
     if len parts <? 2 then Ok PyNone
     else
       let fields := list_from parts 2 in
       parsed <- for_each parse_field fields [] ;;
       Ok (PyDict parsed))
    (fun e =>
       _ <- print_error
              (lit "[ERROR] Failed to parse line: " ++ line ++ lit " -- ") e ;;
       Ok PyNone).

(* ================================================================== *)
(** * The record store on disk *)
(* ================================================================== *)

(** What the store file holds: nothing (the file does not exist), a JSON
    document, given as the value [json.load] returns for it, or text that
    [json.load] rejects (an empty or cut-off file among others). *)
Inductive file_state : Type :=
| Missing
| Json (v : pyval)
| Garbage.

(** What the operating system does to the three file operations of
    [save_to_json], chosen by the environment: opening the file for reading
    fails, opening it for writing fails, or the write by [json.dump] fails
    after the file was opened and truncated (a full disk, a lost device).
    A write that fails because of the data is not a fault: [dump_json]
    decides it from the data. *)
Record faults : Type := {
  open_read_fails : bool;
  open_write_fails : bool;
  dump_fails : bool
}.

Definition no_faults : faults :=
  {| open_read_fails := false; open_write_fails := false; dump_fails := false |}.

(** [open(f, 'r')] followed by [json.load], when the file exists. *)
Definition load_json (io : faults) (disk : file_state) : res pyval :=
  if open_read_fails io then Raise OSError
  else match disk with
       | Json v => Ok v
       | Garbage => Raise JSONDecodeError
       | Missing => Raise OSError
       end.

(** [os.path.exists(f)] *)
Definition path_exists (disk : file_state) : bool :=
  match disk with Missing => false | _ => true end.

(** [open(f, 'w')] followed by [json.dump(db, f, ensure_ascii=...)]: the
    file is truncated when it is opened, so a failing dump leaves a cut-off
    document.  With [ensure_ascii=False], as [app.py] has it for its UTF-8
    file, the dump writes the strings as they are and raises
    [UnicodeEncodeError] at a surrogate; with the default, as in
    [call_logs.py], every character that is not ASCII is written as an
    escape. *)
Definition dump_json (ensure_ascii : bool) (io : faults) (disk : file_state)
    (db : pyval) : file_state * res unit :=
  if open_write_fails io then (disk, Raise OSError)
  else if dump_fails io then (Garbage, Raise OSError)
  else if negb ensure_ascii && has_surrogate db
       then (Garbage, Raise UnicodeEncodeError)
  else (Json db, Ok tt).

(** The items a [for] loop over [x] visits. *)
Definition py_iter (x : pyval) : res (list pyval) :=
  match x with
  | PyList l => Ok l
  | PyDict d => Ok (List.map (fun kv => PyStr (fst kv)) d)
  | PyStr s => Ok (List.map (fun c => PyStr [c]) s)
  | _ => Raise TypeError
  end.

(** [len(x)] for a stored value. *)
Definition py_len (x : pyval) : res Z :=
  match x with
  | PyList l => Ok (len l)
  | PyDict d => Ok (len d)
  | PyStr s => Ok (len s)
  | _ => Raise TypeError
  end.

(** [db.append(x)]: only a list has the method. *)
Definition py_append (db x : pyval) : res pyval :=
  match db with
  | PyList l => Ok (PyList (l ++ [x]))
  | _ => Raise AttributeError
  end.

Definition sentinel : pystr := lit "Telsa64".
Definition k_FileName : pystr := lit "FileName".
Definition k_Info : pystr := lit "Info".
Definition k_Info_line : pystr := lit "Info_line".
Definition k_Number : pystr := lit "Number".
Definition k_CallWindow : pystr := lit "CallWindow".
Definition k_Date : pystr := lit "Date".
Definition k_RawLine : pystr := lit "RawLine".

(** [x[k] = v]: item assignment, which [None] does not support. *)
Definition py_setitem (x : pyval) (k : pystr) (v : pyval) : res pyval :=
  match x with
  | PyDict d => Ok (PyDict (dict_set k v d))
  | _ => Raise TypeError
  end.

(** Code that reads or writes the store file and can raise: the state of the
    file goes in and out. *)
Definition fs (A : Type) : Type := file_state -> file_state * res A.

Definition fs_bind {A B} (c : fs A) (k : A -> fs B) : fs B :=
  fun disk =>
    match c disk with
    | (disk', Ok a) => k a disk'
    | (disk', Raise e) => (disk', Raise e)
    end.

Definition fs_lift {A} (r : res A) : fs A := fun disk => (disk, r).

Definition fs_try {A} (c : fs A) (h : exn -> fs A) : fs A :=
  fun disk =>
    match c disk with
    | (disk', Ok a) => (disk', Ok a)
    | (disk', Raise e) => h e disk'
    end.

Notation "x <~ c ;; k" := (fs_bind c (fun x => k))
  (at level 61, c at next level, right associativity).

(* ================================================================== *)
(** * The line decoder *)
(* ================================================================== *)

(** A byte is a number below 256.  A continuation byte of UTF-8. *)
Definition is_cont (b : N) : bool := ((0x80 <=? b) && (b <=? 0xBF))%N.

(** The second byte that may follow the lead byte [b0] of a sequence of
    three bytes: E0 asks for A0 .. BF (no overlong form), ED for 80 .. 9F
    (no surrogate). *)
Definition second_of_three (b0 b1 : N) : bool :=
  (((if b0 =? 0xE0 then 0xA0 else 0x80) <=? b1) &&
   (b1 <=? (if b0 =? 0xED then 0x9F else 0xBF)))%N.

(** The second byte that may follow the lead byte [b0] of a sequence of
    four bytes: F0 asks for 90 .. BF, F4 for 80 .. 8F (at most U+10FFFF). *)
Definition second_of_four (b0 b1 : N) : bool :=
  (((if b0 =? 0xF0 then 0x90 else 0x80) <=? b1) &&
   (b1 <=? (if b0 =? 0xF4 then 0x8F else 0xBF)))%N.

(** [data.decode('utf-8', errors='ignore')]: a well-formed sequence gives
    its code point; the bytes of an ill-formed one are dropped.  Dropping
    the first byte and going on at the next one drops them all: the bytes
    that were accepted after a lead byte are continuation bytes, and no
    sequence starts at a continuation byte. *)
Fixpoint utf8_decode_ignore (data : list N) : pystr :=
  match data with
  | [] => []
  | b0 :: r0 =>
      if (b0 <? 0x80)%N then b0 :: utf8_decode_ignore r0
      else if ((0xC2 <=? b0) && (b0 <=? 0xDF))%N then
        match r0 with
        | b1 :: r1 =>
            if is_cont b1
            then ((b0 - 0xC0) * 64 + (b1 - 0x80))%N :: utf8_decode_ignore r1
            else utf8_decode_ignore r0
        | _ => utf8_decode_ignore r0
        end
      else if ((0xE0 <=? b0) && (b0 <=? 0xEF))%N then
        match r0 with
        | b1 :: b2 :: r2 =>
            if second_of_three b0 b1 && is_cont b2
            then ((b0 - 0xE0) * 4096 + (b1 - 0x80) * 64 + (b2 - 0x80))%N
                 :: utf8_decode_ignore r2
            else utf8_decode_ignore r0
        | _ => utf8_decode_ignore r0
        end
      else if ((0xF0 <=? b0) && (b0 <=? 0xF4))%N then
        match r0 with
        | b1 :: b2 :: b3 :: r3 =>
            if second_of_four b0 b1 && is_cont b2 && is_cont b3
            then ((b0 - 0xF0) * 262144 + (b1 - 0x80) * 4096
                  + (b2 - 0x80) * 64 + (b3 - 0x80))%N
                 :: utf8_decode_ignore r3
            else utf8_decode_ignore r0
        | _ => utf8_decode_ignore r0
        end
      else utf8_decode_ignore r0
  end.

(** The characters at which [str.splitlines] ends a line. *)
Definition is_linebreak (c : char) : bool :=
  (((0x0A <=? c) && (c <=? 0x0D)) || ((0x1C <=? c) && (c <=? 0x1E))
   || (c =? 0x85) || (c =? 0x2028) || (c =? 0x2029))%N.

(** [s.splitlines()]: the lines of [s] without their ends; a carriage return
    followed by a line feed ends one line; no empty line after the last
    line end. *)
Fixpoint splitlines (s : pystr) : list pystr :=
  match s with
  | [] => []
  | c :: s' =>
      if is_linebreak c then
        [] :: match s' with
              | c' :: s'' =>
                  if (c =? 0x0D)%N && (c' =? 0x0A)%N then splitlines s''
                  else splitlines s'
              | [] => []
              end
      else match splitlines s' with
           | line :: rest => (c :: line) :: rest
           | [] => [[c]]
           end
  end.

(* ================================================================== *)
(** * app.py *)
(* ================================================================== *)

Module App.

(** [extract_logs(file_path)], given what [open(file_path, 'rb')] and
    [f.read()] yield: the bytes of the file, or an exception. *)
Definition extract_logs (file_path : pystr) (read : res (list N))
  : res (list pystr) :=
  try_except
    (data <- read ;;
     let text := utf8_decode_ignore data in
     Ok (splitlines text))
    (fun e =>
       _ <- print_error
              (lit "[ERROR] Failed to read or decode " ++ file_path
               ++ lit ": ") e ;;
       Ok []).

(** The value of ["Number"] when the window has no usable Number line:
    the six letters U+0646 U+0627 U+0645 U+0634 U+062E U+0635. *)
Definition unknown_marker : pystr :=
  [0x646; 0x627; 0x645; 0x634; 0x62E; 0x635]%N.

(** The body of [for line in selected_lines]; [continue] returns the entry
    as it is. *)
Definition process_line (db_entry : dict) (line : pystr) : res dict :=
  let line := strip line in
  let parts := str_split pipe (-1) line in
  if len parts <? 2 then Ok db_entry
  else
    p1 <- list_getitem parts 1 ;;
    let line_type := strip p1 in
    parsed <- parse_log_line line ;;
    if negb (truthy parsed) then Ok db_entry
    else if str_eqb line_type (lit "Info") then
      let db_entry := dict_set k_Info parsed db_entry in
      Ok (dict_set k_Info_line (PyStr line) db_entry)
    else if str_eqb line_type (lit "Number") then
      Ok (dict_set k_Number parsed db_entry)
    else if str_eqb line_type (lit "CallWindow") then
      Ok (dict_set k_CallWindow parsed db_entry)
    else Ok db_entry.

(** [db_entry = { ... }], line 82. *)
Definition new_entry (file_name : pystr) : dict :=
  [(k_FileName, PyStr file_name); (k_Info, PyNone); (k_Info_line, PyNone);
   (k_Number, PyNone); (k_CallWindow, PyNone)].

(** Lines 82-104 of [process_logs]: the entry built from the selected
    lines. *)
Definition assemble (file_name : pystr) (selected_lines : list pystr)
  : res pyval :=
  db_entry <- for_each process_line selected_lines (new_entry file_name) ;;
  number <- dict_getitem db_entry k_Number ;;
  let db_entry :=
    if is_none number
    then dict_set k_Number (PyDict [(k_Number, PyStr unknown_marker)]) db_entry
    else db_entry in
  Ok (PyDict db_entry).

(** Lines 72-77: the count line, or [None] when the [try] block raised and
    the handler printed its message. *)
Definition read_count (lines : list pystr) (file_name : pystr)
  : res (option (Z * Z)) :=
  try_except
    (let count_line_index := len lines - 2 in
     l <- list_getitem lines count_line_index ;;
     num_lines_to_read <- py_int (strip l) ;;
     Ok (Some (count_line_index, num_lines_to_read)))
    (fun e =>
       _ <- print_error
              (lit "[ERROR] Cannot read integer before Telsa64 in "
               ++ file_name ++ lit ": ") e ;;
       Ok None).

(** [process_logs(lines, file_name)] *)
Definition process_logs (lines : list pystr) (file_name : pystr) : res pyval :=
  if negb (nonempty lines) || (len lines <? 2)
  then Ok PyNone
  else
    last <- list_getitem lines (-1) ;;
    if negb (str_eqb (strip last) sentinel) then
      _ <- print (lit "[INFO] File '" ++ file_name
                  ++ lit "' is not Telsa64. Skipping.") ;;
      Ok PyNone
    else
      count <- read_count lines file_name ;;
      match count with
      | None => Ok PyNone
      | Some (count_line_index, num_lines_to_read) =>
          let start_index := Z.max 0 (count_line_index - num_lines_to_read) in
          let selected_lines := list_slice lines start_index count_line_index in
          assemble file_name selected_lines
      end.

(** [any(e.get("FileName") == db_entry.get("FileName") for e in db)] over
    the items of [db]. *)
Fixpoint any_same_file (db_entry : pyval) (items : list pyval) : res bool :=
  match items with
  | [] => Ok false
  | e :: items' =>
      mine <- py_get e k_FileName ;;
      new <- py_get db_entry k_FileName ;;
      if py_eq mine new then Ok true else any_same_file db_entry items'
  end.

(** The [try] block of [save_to_json], lines 108-118. *)
Definition save_body (io : faults) (db_entry : pyval) : fs pyval :=
  db <~ (fun disk =>
           if path_exists disk then (disk, load_json io disk)
           else (disk, Ok (PyList []))) ;;
  dup <~ fs_lift (items <- py_iter db ;; any_same_file db_entry items) ;;
  if negb dup then
    db' <~ fs_lift (py_append db db_entry) ;;
    _ <~ (fun disk => dump_json false io disk db') ;;
    _ <~ fs_lift (name <- py_get db_entry k_FileName ;;
                  print_value (lit "[INFO] Saved entry for ") name) ;;
    fs_lift (Ok PyNone)
  else fs_lift (Ok PyNone).

(** [save_to_json(db_entry)]: the whole body sits in
    [try ... except Exception]; the handler prints the error, and the
    function returns [None] either way. *)
Definition save_to_json (io : faults) (db_entry : pyval) : fs pyval :=
  fs_try (save_body io db_entry)
    (fun e =>
       _ <~ fs_lift (print_error
                       (lit "[ERROR] Failed to save JSON database: ") e) ;;
       fs_lift (Ok PyNone)).

(** [process_file(file_path)], given the lines that [extract_logs] returns
    for the file and the base name of its path. *)
Definition process_file (io : faults) (lines : list pystr) (base_name : pystr)
  : fs pyval :=
  db_entry <~ fs_lift (process_logs lines base_name) ;;
  if truthy db_entry then
    _ <~ save_to_json io db_entry ;;
    fs_lift (Ok PyNone)
  else fs_lift (Ok PyNone).

End App.

(* ================================================================== *)
(** * call_logs.py *)
(* ================================================================== *)

Module CallLogs.

(** [extract_logs(file_path)], given what [open(file_path, 'rb')] and
    [f.read()] yield.  The number of lines is printed inside the [try]. *)
Definition extract_logs (file_path : pystr) (read : res (list N))
  : res (list pystr) :=
  try_except
    (data <- read ;;
     let text := utf8_decode_ignore data in
     let lines := splitlines text in
     _ <- print (lit "[DEBUG] Total lines extracted from " ++ file_path
                 ++ lit ": " ++ str_of_len (len lines)) ;;
     Ok lines)
    (fun e =>
       _ <- print_error (lit "[ERROR] Failed to read or decode file: ") e ;;
       Ok []).

(** The value of ["Number"] when the window has no usable Number line. *)
Definition unknown_marker : pystr := lit "null".

(** The body of [for line in selected_lines]. *)
Definition process_line (db_entry : dict) (line : pystr) : res dict :=
  let line := strip line in
  let parts := str_split pipe (-1) line in
  if len parts <? 2 then Ok db_entry
  else
    p1 <- list_getitem parts 1 ;;
    let line_type := strip p1 in
    parsed_data <- parse_log_line line ;;
    if negb (truthy parsed_data) then Ok db_entry
    else if str_eqb line_type (lit "Info") then
      p0 <- list_getitem parts 0 ;;
      parsed_data <- py_setitem parsed_data k_Date (PyStr p0) ;;
      parsed_data <- py_setitem parsed_data k_RawLine (PyStr line) ;;
      Ok (dict_set k_Info parsed_data db_entry)
    else if str_eqb line_type (lit "Number") then
      let db_entry := dict_set k_Number parsed_data db_entry in
      _ <- print_value (lit "[DEBUG] Parsed Number line: ") parsed_data ;;
      Ok db_entry
    else if str_eqb line_type (lit "CallWindow") then
      let db_entry := dict_set k_CallWindow parsed_data db_entry in
      _ <- print_value (lit "[DEBUG] Parsed CallWindow line: ") parsed_data ;;
      Ok db_entry
    else Ok db_entry.

(** [db_entry = { ... }], lines 76-81. *)
Definition new_entry (file_name : pystr) : dict :=
  [(k_FileName, PyStr file_name); (k_Info, PyNone); (k_Number, PyNone);
   (k_CallWindow, PyNone)].

(** Lines 75-108 of [process_logs]: the entry built from the selected
    lines. *)
Definition assemble (file_name : pystr) (selected_lines : list pystr)
  : res pyval :=
  db_entry <- for_each process_line selected_lines (new_entry file_name) ;;
  number <- dict_getitem db_entry k_Number ;;
  db_entry <-
    (if is_none number then
       let db_entry :=
         dict_set k_Number (PyDict [(k_Number, PyStr unknown_marker)])
                  db_entry in
       _ <- print
              (lit "[DEBUG] Number line not found. Defaulting to 'Wirelees'.") ;;
       Ok db_entry
     else Ok db_entry) ;;
  Ok (PyDict db_entry).

(** Lines 60-65: the count line, or [None] when the [try] block raised and
    the handler printed its message. *)
Definition read_count (lines : list pystr) (file_name : pystr)
  : res (option (Z * Z)) :=
  try_except
    (let count_line_index := len lines - 2 in
     l <- list_getitem lines count_line_index ;;
     num_lines_to_read <- py_int (strip l) ;;
     Ok (Some (count_line_index, num_lines_to_read)))
    (fun e =>
       _ <- print_error
              (lit "[ERROR] Failed to read integer line before Telsa64 in "
               ++ file_name ++ lit ": ") e ;;
       Ok None).

(** [process_logs(lines, file_name)]; none of its calls to [print] is
    inside a [try]. *)
Definition process_logs (lines : list pystr) (file_name : pystr) : res pyval :=
  if negb (nonempty lines) then
    _ <- print (lit "[ERROR] No lines to process in file: " ++ file_name) ;;
    Ok PyNone
  else
    last <- list_getitem lines (-1) ;;
    let last_line := strip last in
    if negb (str_eqb last_line sentinel) then
      _ <- print (lit "[INFO] File '" ++ file_name
                  ++ lit "' is not Telsa64. Skipping.") ;;
      Ok PyNone
    else
      _ <- print (lit "[INFO] Telsa64 detected in file: " ++ file_name) ;;
      count <- read_count lines file_name ;;
      match count with
      | None => Ok PyNone
      | Some (count_line_index, num_lines_to_read) =>
          let start_index := count_line_index - num_lines_to_read in
          if start_index <? 0 then
            _ <- print (lit "[ERROR] Not enough lines to read in file '"
                        ++ file_name ++ lit "'.") ;;
            Ok PyNone
          else
            let selected_lines :=
              list_slice lines start_index count_line_index in
            _ <- print (lit "[INFO] Extracted "
                        ++ str_of_len (len selected_lines)
                        ++ lit " lines for processing in " ++ file_name
                        ++ lit ".") ;;
            db_entry <- assemble file_name selected_lines ;;
            _ <- print (lit "[INFO] Database entry created for file: "
                        ++ file_name) ;;
            Ok db_entry
      end.

(** The [try] block of [save_to_json], lines 118-127: the entry is appended
    without a look at the entries already stored. *)
Definition save_body (io : faults) (db_entry : pyval) : fs pyval :=
  db <~ (fun disk =>
           if path_exists disk then (disk, load_json io disk)
           else (disk, Ok (PyList []))) ;;
  db' <~ fs_lift (py_append db db_entry) ;;
  _ <~ (fun disk => dump_json true io disk db') ;;
  _ <~ fs_lift (n <- py_len db' ;;
                print (lit "[INFO] Entry saved to database.json. "
                       ++ lit "Total entries now: " ++ str_of_len n)) ;;
  fs_lift (Ok PyNone).

(** [save_to_json(db_entry, json_file)], with the default [json_file], as
    every call has it: the body sits in [try ... except Exception]; the
    handler prints the error, and the function returns [None] either
    way. *)
Definition save_to_json (io : faults) (db_entry : pyval) : fs pyval :=
  fs_try (save_body io db_entry)
    (fun e =>
       _ <~ fs_lift (print_error
                       (lit "[ERROR] Failed to save JSON database: ") e) ;;
       fs_lift (Ok PyNone)).

End CallLogs.

(* ================================================================== *)
(** * Vocabulary of the statements *)
(* ================================================================== *)

(** [sep.join(segs)] *)
Fixpoint join (sep : char) (segs : list pystr) : pystr :=
  match segs with
  | [] => []
  | [s] => s
  | s :: rest => s ++ sep :: join sep rest
  end.

(** [seg] is a field [key:value]: its first colon separates [k] from [v],
    and [v] may hold further colons. *)
Definition field_of (seg k v : pystr) : Prop :=
  seg = k ++ colon :: v /\ ~ In colon k.

(** [s] cut at its first [sep], when it has one. *)
Fixpoint cut_at (sep : char) (s : pystr) : option (pystr * pystr) :=
  match s with
  | [] => None
  | c :: s' =>
      if (c =? sep)%N then Some ([], s')
      else match cut_at sep s' with
           | Some (k, v) => Some (c :: k, v)
           | None => None
           end
  end.

(** The dict that the loop of [parse_log_line] builds from [fields],
    starting at [parsed]. *)
Definition parse_fields (fields : list pystr) (parsed : dict) : dict :=
  fold_left
    (fun d field =>
       match cut_at colon field with
       | Some (k, v) => dict_set k (PyStr v) d
       | None => d
       end) fields parsed.

(** The value of the last field of [fields] whose key is [k]. *)
Fixpoint last_field (k : pystr) (fields : list pystr) : option pystr :=
  match fields with
  | [] => None
  | f :: fs =>
      match last_field k fs with
      | Some v => Some v
      | None =>
          match cut_at colon f with
          | Some (k', v) => if str_eqb k k' then Some v else None
          | None => None
          end
      end
  end.

(** The record type of a window line: the second of its pipe segments,
    trimmed, when the trimmed line has two segments or more. *)
Definition line_type (line : pystr) : option pystr :=
  match str_split pipe (-1) (strip line) with
  | _ :: p1 :: _ => Some (strip p1)
  | _ => None
  end.

(** The FieldMap of a window line: the fields of its trimmed text. *)
Definition line_fields (line : pystr) : dict :=
  parse_fields (skipn 2 (str_split pipe (-1) (strip line))) [].

(** The first pipe segment of the trimmed line (its date). *)
Definition line_date (line : pystr) : pystr :=
  match str_split pipe (-1) (strip line) with
  | p0 :: _ => p0
  | [] => []
  end.

Definition is_dict (v : pyval) : bool :=
  match v with PyDict _ => true | _ => false end.

(** The keys of a dict, in order. *)
Definition keys (d : dict) : list pystr := List.map fst d.

(** The entries of a stored list that carry the file name [name]. *)
Definition entries_named (name : pystr) (items : list pyval) : list pyval :=
  filter (fun e => match e with
                   | PyDict d =>
                       match dict_lookup k_FileName d with
                       | Some (PyStr s) => str_eqb s name
                       | _ => false
                       end
                   | _ => false
                   end) items.

(** The three record types; the entry key each of them fills has the same
    name. *)
Definition record_types : list pystr :=
  [lit "Info"; lit "Number"; lit "CallWindow"].

(** The line has record type [t] and at least one field. *)
Definition feeds (t line : pystr) : bool :=
  match line_type line with
  | Some t' => str_eqb t' t && nonempty (line_fields line)
  | None => false
  end.

(** The last line of the window that has record type [t] and at least one
    field. *)
Fixpoint last_fed (t : pystr) (window : list pystr) : option pystr :=
  match window with
  | [] => None
  | l :: w =>
      match last_fed t w with
      | Some x => Some x
      | None => if feeds t l then Some l else None
      end
  end.

(** An entry of [app.py] by its five values. *)
Definition app_entry (name info info_line number call_window : pyval) : dict :=
  [(k_FileName, name); (k_Info, info); (k_Info_line, info_line);
   (k_Number, number); (k_CallWindow, call_window)].

(** An entry of [call_logs.py] by its four values. *)
Definition cl_entry (name info number call_window : pyval) : dict :=
  [(k_FileName, name); (k_Info, info); (k_Number, number);
   (k_CallWindow, call_window)].

(** What [call_logs.py] stores for an Info line: its fields, then its date
    and its trimmed text under ["Date"] and ["RawLine"]. *)
Definition cl_info (line : pystr) : pyval :=
  PyDict (dict_set k_RawLine (PyStr (strip line))
            (dict_set k_Date (PyStr (line_date line)) (line_fields line))).

(** The value of a key after the loop over [window]: the FieldMap of the
    last line that feeds [t], or the value [before] the loop. *)
Definition fed (t : pystr) (window : list pystr) (before : pyval) : pyval :=
  match last_fed t window with
  | Some l => PyDict (line_fields l)
  | None => before
  end.

(** The entry that [app.py] assembles from a window. *)
Definition app_record (file_name : pystr) (window : list pystr) : dict :=
  app_entry (PyStr file_name)
    (fed (lit "Info") window PyNone)
    (match last_fed (lit "Info") window with
     | Some l => PyStr (strip l)
     | None => PyNone
     end)
    (fed (lit "Number") window
       (PyDict [(k_Number, PyStr App.unknown_marker)]))
    (fed (lit "CallWindow") window PyNone).

(** The entry that [call_logs.py] assembles from a window. *)
Definition cl_record (file_name : pystr) (window : list pystr) : dict :=
  cl_entry (PyStr file_name)
    (match last_fed (lit "Info") window with
     | Some l => cl_info l
     | None => PyNone
     end)
    (fed (lit "Number") window
       (PyDict [(k_Number, PyStr CallLogs.unknown_marker)]))
    (fed (lit "CallWindow") window PyNone).

(* ================================================================== *)
(** * Vocabulary of the line decoder *)
(* ================================================================== *)

(** The well-formed sequence at the head of [data], if there is one: its
    code point and the bytes after it. *)
Definition utf8_first (data : list N) : option (char * list N) :=
  match data with
  | [] => None
  | b0 :: r0 =>
      if (b0 <? 0x80)%N then Some (b0, r0)
      else if ((0xC2 <=? b0) && (b0 <=? 0xDF))%N then
        match r0 with
        | b1 :: r1 =>
            if is_cont b1
            then Some (((b0 - 0xC0) * 64 + (b1 - 0x80))%N, r1)
            else None
        | _ => None
        end
      else if ((0xE0 <=? b0) && (b0 <=? 0xEF))%N then
        match r0 with
        | b1 :: b2 :: r2 =>
            if second_of_three b0 b1 && is_cont b2
            then Some (((b0 - 0xE0) * 4096 + (b1 - 0x80) * 64
                        + (b2 - 0x80))%N, r2)
            else None
        | _ => None
        end
      else if ((0xF0 <=? b0) && (b0 <=? 0xF4))%N then
        match r0 with
        | b1 :: b2 :: b3 :: r3 =>
            if second_of_four b0 b1 && is_cont b2 && is_cont b3
            then Some (((b0 - 0xF0) * 262144 + (b1 - 0x80) * 4096
                        + (b2 - 0x80) * 64 + (b3 - 0x80))%N, r3)
            else None
        | _ => None
        end
      else None
  end.

(** A Unicode scalar value: a code point up to U+10FFFF that is no
    surrogate. *)
Definition is_scalar (c : char) : bool :=
  ((c <? 0xD800) || ((0xDFFF <? c) && (c <=? 0x10FFFF)))%N.

(** The UTF-8 bytes of one character. *)
Definition utf8_encode_char (c : char) : list N :=
  (if c <? 0x80 then [c]
   else if c <? 0x800 then [0xC0 + c / 64; 0x80 + c mod 64]
   else if c <? 0x10000 then
     [0xE0 + c / 4096; 0x80 + (c / 64) mod 64; 0x80 + c mod 64]
   else
     [0xF0 + c / 262144; 0x80 + (c / 4096) mod 64; 0x80 + (c / 64) mod 64;
      0x80 + c mod 64])%N.

(** [s.encode('utf-8')] *)
Definition utf8_encode (s : pystr) : list N := flat_map utf8_encode_char s.

(** A text whose every line ends in a line feed. *)
Definition unlines (lines : list pystr) : pystr :=
  flat_map (fun l => l ++ [0x0A%N]) lines.

(** A line of text: scalar values, none of which ends a line. *)
Definition plain_line (l : pystr) : Prop :=
  Forall (fun c => is_scalar c = true /\ is_linebreak c = false) l.

(** Splits on what a hypothesis tests, one test after the other. *)
Ltac break_tests E :=
  repeat match type of E with
         | context [if ?b then _ else _] => destruct b
         | context [match ?c with _ => _ end] => destruct c
         end.

(** Linear arithmetic with division and remainder by constants. *)
Ltac div_lia := zify; Z.to_euclidean_division_equations; lia.

(** Settles the comparisons of a goal one by one, closing the branch that
    contradicts the hypotheses. *)
Ltac settle_tests :=
  repeat match goal with
         | |- context [(?a =? ?b)%N] =>
             destruct (N.eqb_spec a b); try (exfalso; div_lia)
         | |- context [(?a <? ?b)%N] =>
             destruct (N.ltb_spec a b); try (exfalso; div_lia)
         | |- context [(?a <=? ?b)%N] =>
             destruct (N.leb_spec a b); try (exfalso; div_lia)
         end.

(* ================================================================== *)
(** * The web page helpers of app.py *)
(* ================================================================== *)

(** The digit characters that are no decimal digits: superscripts,
    subscripts, circled and other digits (Unicode 14), as ranges. *)
Definition other_digits : list (N * N) :=
  [(0xB2, 0xB3); (0xB9, 0xB9); (0x1369, 0x1371); (0x19DA, 0x19DA);
   (0x2070, 0x2070); (0x2074, 0x2079); (0x2080, 0x2089); (0x2460, 0x2468);
   (0x2474, 0x247C); (0x2488, 0x2490); (0x24EA, 0x24EA); (0x24F5, 0x24FD);
   (0x24FF, 0x24FF); (0x2776, 0x277E); (0x2780, 0x2788); (0x278A, 0x2792);
   (0x10A40, 0x10A43); (0x10E60, 0x10E68); (0x11052, 0x1105A);
   (0x1F100, 0x1F10A)]%N.

Definition is_other_digit (c : char) : bool :=
  existsb (fun r => (fst r <=? c) && (c <=? snd r))%N other_digits.

(** [c.isdigit()] for one character. *)
Definition is_digit (c : char) : bool :=
  match to_decimal c with
  | Some _ => true
  | None => is_other_digit c
  end.

(** [persian_digits], line 183: U+06F0 .. U+06F9. *)
Definition persian_digits : pystr :=
  [0x6F0; 0x6F1; 0x6F2; 0x6F3; 0x6F4; 0x6F5; 0x6F6; 0x6F7; 0x6F8; 0x6F9]%N.

(** [persian_digits[int(c)] if c.isdigit() else c] *)
Definition persian_char (c : char) : res char :=
  if is_digit c then
    i <- py_int [c] ;;
    list_getitem persian_digits i
  else Ok c.

(** The items of a generator, one after the other; the first exception
    ends it. *)
Fixpoint map_res {A B} (f : A -> res B) (l : list A) : res (list B) :=
  match l with
  | [] => Ok []
  | x :: l' => y <- f x ;; ys <- map_res f l' ;; Ok (y :: ys)
  end.

(** [to_persian_numbers(s)], given the text [str(s)]. *)
Definition to_persian_numbers (text : pystr) : res pystr :=
  map_res persian_char text.

(** The Persian digit for a decimal digit of any script; any other
    character as it is. *)
Definition persian_of (c : char) : char :=
  match to_decimal c with
  | Some d => (0x6F0 + Z.to_N d)%N
  | None => c
  end.

Definition space : char := 0x20%N.
Definition slash : char := 0x2F%N.
Definition newline : pystr := [0x0A%N].
Definition k_Call_Type : pystr := lit "Call_Type".

(** [a, b, c = xs]: unpacking exactly three items. *)
Definition unpack3 {A} (xs : list A) : res (A * A * A) :=
  match xs with
  | [a; b; c] => Ok (a, b, c)
  | _ => Raise ValueError
  end.

(** [x.split(sep)]: only a string has the method. *)
Definition py_split (x : pyval) (sep : char) : res (list pystr) :=
  match x with
  | PyStr s => Ok (str_split sep (-1) s)
  | _ => Raise AttributeError
  end.

(** [x.get(k, default)]: only a dict has the method. *)
Definition py_get_default (x : pyval) (k : pystr) (default : pyval)
  : res pyval :=
  match x with
  | PyDict d =>
      Ok (match dict_lookup k d with Some v => v | None => default end)
  | _ => Raise AttributeError
  end.

(** [mapping], lines 175-179 of [app.py]: the Persian names of the call
    types. *)
Definition call_type_names : list (pystr * pystr) :=
  [(lit "voice_call",
    [0x62A; 0x645; 0x627; 0x633; 0x20; 0x635; 0x648; 0x62A; 0x6CC]%N);
   (lit "null", [0x646; 0x627; 0x645; 0x634; 0x62E; 0x635]%N);
   (lit "video_call",
    [0x62A; 0x645; 0x627; 0x633; 0x20; 0x648; 0x6CC; 0x62F; 0x6CC; 0x648;
     0x6CC; 0x6CC]%N)].

(** [mapping.get(k, k)] *)
Definition call_type_name (k : pystr) : pystr :=
  match find (fun kv => str_eqb (fst kv) k) call_type_names with
  | Some kv => snd kv
  | None => k
  end.

(** The text of the cell without a file, line 201: the nine characters
    U+0628 U+062F U+0648 U+0646 U+0020 U+0641 U+0627 U+06CC U+0644. *)
Definition no_file_text : pystr :=
  [0x628; 0x62F; 0x648; 0x646; 0x20; 0x641; 0x627; 0x6CC; 0x644]%N.

(** The table row of [parse_entry], lines 194-203, from the six texts it
    is filled with. *)
Definition row_html (index_text number_text call_type date time audio : pystr)
  : pystr :=
  newline ++ lit "    <tr>" ++ newline
  ++ lit "        <td>" ++ index_text ++ lit "</td>" ++ newline
  ++ lit "        <td>" ++ number_text ++ lit "</td>" ++ newline
  ++ lit "        <td>" ++ call_type ++ lit "</td>" ++ newline
  ++ lit "        <td>" ++ date ++ lit "</td>" ++ newline
  ++ lit "        <td>" ++ time ++ lit "</td>" ++ newline
  ++ lit "        <td>" ++ audio ++ lit "</td>" ++ newline
  ++ lit "    </tr>" ++ newline ++ lit "    ".

(** [<audio controls src="..."></audio>] *)
Definition audio_tag (audio_path : pystr) : pystr :=
  lit "<audio controls src=" ++ [0x22%N] ++ audio_path ++ [0x22%N]
  ++ lit "></audio>".

Section WebPage.

(** [s.lower()], Python's lower-casing of a string, taken as it is. *)
Variable lower : pystr -> pystr.

(** [jdatetime.fromgregorian(year=y, month=m, day=d, hour=h, minute=mi,
    second=s)] with the two texts that [strftime("%Y/%m/%d")] and
    [strftime("%H:%M:%S")] give for it, or the exception the calendar
    library raises: the library, taken as it is. *)
Variable fromgregorian : Z -> Z -> Z -> Z -> Z -> Z -> res (pystr * pystr).

(** [str(x)] for a float, a list or a dict, taken as it is. *)
Variable str_other : pyval -> res pystr.

(** [str(x)] *)
Definition py_str (x : pyval) : res pystr :=
  match x with
  | PyStr s => Ok s
  | PyInt z => str_of_int z
  | PyNone => Ok (lit "None")
  | PyBool true => Ok (lit "True")
  | PyBool false => Ok (lit "False")
  | _ => str_other x
  end.

(** [x.lower()]: only a string has the method. *)
Definition py_lower (x : pyval) : res pystr :=
  match x with
  | PyStr s => Ok (lower s)
  | _ => Raise AttributeError
  end.

(** [y, m, d = map(int, text.split(sep))]: three integers.  [map] is lazy,
    but whatever goes wrong here, a text that is no integer or a number of
    items other than three, is a [ValueError]. *)
Definition three_ints (text : pystr) (sep : char) : res (Z * Z * Z) :=
  ints <- map_res py_int (str_split sep (-1) text) ;;
  unpack3 ints.

(** [convert_info_line_to_shamsi(line)]; the handler prints the line. *)
Definition convert_info_line_to_shamsi (line : pyval) : res (pystr * pystr) :=
  if negb (truthy line) then Ok ([], [])
  else
    try_except
      (parts <- py_split line pipe ;;
       head <- list_getitem parts 0 ;;
       date_time <- unpack2 (str_split space (-1) head) ;;
       ymd <- three_ints (fst date_time) slash ;;
       hms <- three_ints (snd date_time) colon ;;
       fromgregorian (fst (fst ymd)) (snd (fst ymd)) (snd ymd)
                     (fst (fst hms)) (snd (fst hms)) (snd hms))
      (fun e =>
         text <- py_str line ;;
         _ <- print_error
                (lit "[ERROR] Failed to convert date: " ++ text ++ lit " -- ")
                e ;;
         Ok ([], [])).

(** [get_call_type_farsi(callwindow)] *)
Definition get_call_type_farsi (callwindow : pyval) : res pystr :=
  if negb (truthy callwindow) then Ok []
  else
    v <- py_get_default callwindow k_Call_Type (PyStr []) ;;
    call_type <- py_lower v ;;
    Ok (call_type_name call_type).

(** [to_persian_numbers(s)] for any object [s]. *)
Definition to_persian_numbers_of (s : pyval) : res pystr :=
  text <- py_str s ;;
  to_persian_numbers text.

(** [parse_entry(entry, index)] *)
Definition parse_entry (entry index : pyval) : res pystr :=
  number <- py_get_default entry k_Number (PyDict []) ;;
  number_value <- py_get_default number k_Number (PyStr App.unknown_marker) ;;
  info_line <- py_get entry k_Info_line ;;
  date_time <- convert_info_line_to_shamsi info_line ;;
  callwindow <- py_get entry k_CallWindow ;;
  call_type_farsi <- get_call_type_farsi callwindow ;;
  file_name <- py_get_default entry k_FileName (PyStr []) ;;
  audio_path <- (if truthy file_name
                 then name <- py_str file_name ;; Ok (lit "/files/" ++ name)
                 else Ok []) ;;
  index_text <- to_persian_numbers_of index ;;
  number_text <- to_persian_numbers_of number_value ;;
  Ok (row_html index_text number_text call_type_farsi
        (fst date_time) (snd date_time)
        (if nonempty audio_path then audio_tag audio_path else no_file_text)).

(** The loop of [index], lines 216-218: the rows of the stored entries,
    numbered from [idx]. *)
Fixpoint rows_from (idx : Z) (entries : list pyval) (rows_html : pystr)
  : res pystr :=
  match entries with
  | [] => Ok rows_html
  | entry :: entries' =>
      row <- parse_entry entry (PyInt idx) ;;
      rows_from (idx + 1) entries' (rows_html ++ row)
  end.

(** The text of the page before and after its rows, lines 220-379. *)
Variable page_head page_tail : pystr.

(** [index()]: the page, given the state of the store file.  Nothing here
    is inside a [try]. *)
Definition index (io : faults) (disk : file_state) : res pystr :=
  data <- (if path_exists disk then load_json io disk else Ok (PyList [])) ;;
  entries <- py_iter data ;;
  rows_html <- rows_from 1 entries [] ;;
  Ok (page_head ++ rows_html ++ page_tail).

End WebPage.

(** [current_dir], line 136 of [call_logs.py]. *)
Definition current_dir : pystr := lit "files".

(** [os.path.join(dir, name)] for a name that [os.listdir] gave, which
    holds no separator; the separator is the slash of POSIX. *)
Definition os_path_join (dir name : pystr) : pystr :=
  dir ++ 0x2F%N :: name.

(** [s.endswith(suffix)] *)
Definition ends_with (s suffix : pystr) : bool :=
  (List.length suffix <=? List.length s)%nat &&
  str_eqb (skipn (List.length s - List.length suffix) s) suffix.

Section Directory.

(** [s.lower()], Python's lower-casing of a string, taken as it is. *)
Variable lower : pystr -> pystr.

(** [file_name.lower().endswith(('.mp3', '.wav'))] *)
Definition is_audio_name (file_name : pystr) : bool :=
  ends_with (lower file_name) (lit ".mp3")
  || ends_with (lower file_name) (lit ".wav").

(** The loop of [process_all_files_in_directory], lines 140-148 of
    [call_logs.py], over the names that [os.listdir] gave; with each name
    come what reading that file yields and what the file system does to
    the store while its entry is saved.  The name is printed outside any
    [try]. *)
Fixpoint process_files (files : list (pystr * res (list N) * faults))
    (files_processed : Z) : fs Z :=
  match files with
  | [] => fs_lift (Ok files_processed)
  | (file_name, read, io) :: rest =>
      if is_audio_name file_name then
        _ <~ fs_lift (print (lit "[INFO] Processing file: " ++ file_name)) ;;
        let file_path := os_path_join current_dir file_name in
        lines <~ fs_lift (CallLogs.extract_logs file_path read) ;;
        db_entry <~ fs_lift (CallLogs.process_logs lines file_name) ;;
        if truthy db_entry then
          _ <~ CallLogs.save_to_json io db_entry ;;
          process_files rest (files_processed + 1)
        else process_files rest files_processed
      else process_files rest files_processed
  end.

(** [process_all_files_in_directory()], given what [os.listdir] yields:
    the names, or an exception, which nothing catches. *)
Definition process_all_files_in_directory
    (listing : res (list (pystr * res (list N) * faults))) : fs pyval :=
  _ <~ fs_lift (print (lit "[INFO] Scanning directory: " ++ current_dir)) ;;
  files <~ fs_lift listing ;;
  files_processed <~ process_files files 0 ;;
  _ <~ fs_lift (print (lit "[INFO] Processing complete. "
                       ++ lit "Total files processed: "
                       ++ str_of_len files_processed)) ;;
  fs_lift (Ok PyNone).


End Directory.

(** The number that [parse_entry] shows for an entry, line 187 of
    [app.py]: [entry.get("Number", {}).get("Number", marker)]. *)
Definition number_value (entry : pyval) : res pyval :=
  number <- py_get_default entry k_Number (PyDict []) ;;
  py_get_default number k_Number (PyStr App.unknown_marker).

(** Every character of [s] that [str.isdigit] accepts is one that [int]
    accepts. *)
Definition all_decimal (s : pystr) : bool :=
  forallb (fun c => negb (is_digit c)
                    || match to_decimal c with Some _ => true | None => false end)
          s.

(** The number shown for the entry is a string whose digits are all
    decimal. *)
Definition number_prints (entry : pyval) : bool :=
  match number_value entry with
  | Ok (PyStr s) => all_decimal s
  | _ => false
  end.

(** What [process_file] of [app.py] hands to [save_to_json]: a truthy
    result of [process_logs]. *)
Definition stored_by_app (entry : pyval) : Prop :=
  exists lines file_name,
    App.process_logs lines file_name = Ok entry /\ truthy entry = true.

(** What the store file of [app.py] can be: missing, cut off, or a list of
    entries that [process_file] saved, without a surrogate in any string
    and no two with one file name. *)
Definition store_ok (disk : file_state) : Prop :=
  match disk with
  | Json db =>
      exists items,
        db = PyList items /\ Forall stored_by_app items /\
        has_surrogate db = false /\
        forall name, (List.length (entries_named name items) <= 1)%nat
  | _ => True
  end.

(** A run of [app.py]: [process_file] called for one file after the other,
    each with the lines read from it, its base name, and what the file
    system does during the call; the store file is what the calls share. *)
Definition app_runs (calls : list (faults * list pystr * pystr))
    (disk : file_state) : file_state :=
  fold_left
    (fun d call =>
       match call with
       | (io, lines, base_name) =>
           fst (App.process_file io lines base_name d)
       end) calls disk.

(* ================================================================== *)
(** * Strings and lists *)
(* ================================================================== *)

Lemma str_eqb_eq (a b : pystr) : str_eqb a b = true <-> a = b.
Proof.
  revert b; induction a as [|x a IH]; intros [|y b]; simpl;
    try (split; [discriminate | discriminate]); [tauto |].
  rewrite andb_true_iff, N.eqb_eq, IH.
  split; [intros [-> ->]; reflexivity | intros H; inversion H; auto].
Qed.

Lemma str_eqb_refl (a : pystr) : str_eqb a a = true.
Proof. apply str_eqb_eq; reflexivity. Qed.

Lemma str_eqb_neq (a b : pystr) : str_eqb a b = false <-> a <> b.
Proof.
  rewrite <- str_eqb_eq. destruct (str_eqb a b); split; congruence.
Qed.

Lemma str_contains_In (c : char) (s : pystr) :
  str_contains c s = true <-> In c s.
Proof.
  unfold str_contains. rewrite existsb_exists. split.
  - intros (x & Hin & Heq). apply N.eqb_eq in Heq. now subst.
  - intros Hin. exists c. split; [assumption | apply N.eqb_refl].
Qed.

Lemma str_contains_not_In (c : char) (s : pystr) :
  str_contains c s = false <-> ~ In c s.
Proof.
  rewrite <- str_contains_In. destruct (str_contains c s); split; congruence.
Qed.

Lemma str_split_not_nil (sep : char) (s : pystr) (m : Z) :
  str_split sep m s <> [].
Proof.
  revert m; induction s as [|c s IH]; intros m; simpl; [discriminate |].
  destruct ((c =? sep)%N && negb (m =? 0)); [discriminate |].
  destruct (str_split sep m s); discriminate.
Qed.

(** Splitting loses nothing: joining the segments gives the string back. *)
Lemma str_split_join (sep : char) (s : pystr) (m : Z) :
  join sep (str_split sep m s) = s.
Proof.
  revert m; induction s as [|c s IH]; intros m; simpl; [reflexivity |].
  destruct ((c =? sep)%N && negb (m =? 0)) eqn:E.
  - apply andb_true_iff in E as [E _]. apply N.eqb_eq in E. subst c.
    specialize (IH (m - 1)).
    destruct (str_split sep (m - 1) s) eqn:Es.
    + now apply str_split_not_nil in Es.
    + simpl. now rewrite <- IH.
  - specialize (IH m).
    destruct (str_split sep m s) as [|seg segs] eqn:Es.
    + now apply str_split_not_nil in Es.
    + rewrite <- IH. destruct segs; reflexivity.
Qed.

(** With no bound on the splits, no segment holds the separator. *)
Lemma str_split_no_sep (sep : char) (s : pystr) (m : Z) :
  m < 0 -> Forall (fun seg => ~ In sep seg) (str_split sep m s).
Proof.
  revert m; induction s as [|c s IH]; intros m Hm; simpl.
  - constructor; [intros [] | constructor].
  - replace (m =? 0) with false by (symmetry; apply Z.eqb_neq; lia).
    rewrite andb_true_r.
    destruct (c =? sep)%N eqn:E.
    + constructor; [intros [] | apply IH; lia].
    + specialize (IH m Hm).
      destruct (str_split sep m s) as [|seg segs].
      * constructor; [|constructor]. intros [H|[]].
        apply N.eqb_neq in E. congruence.
      * inversion IH; subst. constructor; [|assumption].
        intros [H|H]; [apply N.eqb_neq in E; congruence | contradiction].
Qed.

Lemma str_split_no_sep_single (sep : char) (s : pystr) (m : Z) :
  ~ In sep s -> str_split sep m s = [s].
Proof.
  revert m; induction s as [|c s IH]; intros m H; simpl; [reflexivity |].
  destruct (c =? sep)%N eqn:E.
  - apply N.eqb_eq in E. subst. exfalso. apply H. now left.
  - simpl. rewrite IH; [reflexivity |]. intros Hin. apply H. now right.
Qed.

Lemma str_split_zero (sep : char) (s : pystr) : str_split sep 0 s = [s].
Proof.
  induction s as [|c s IH]; simpl; [reflexivity |].
  rewrite andb_false_r, IH. reflexivity.
Qed.

Lemma str_split_sep_two (sep : char) (s : pystr) (m : Z) :
  m <> 0 -> In sep s -> (2 <= List.length (str_split sep m s))%nat.
Proof.
  revert m; induction s as [|c s IH]; intros m Hm Hin; [destruct Hin |].
  simpl. replace (m =? 0) with false by (symmetry; now apply Z.eqb_neq).
  rewrite andb_true_r.
  destruct (c =? sep)%N eqn:E.
  - simpl. pose proof (str_split_not_nil sep s (m - 1)).
    destruct (str_split sep (m - 1) s); [congruence | simpl; lia].
  - destruct Hin as [->|Hin]; [rewrite N.eqb_refl in E; discriminate |].
    specialize (IH m Hm Hin).
    destruct (str_split sep m s); simpl in *; lia.
Qed.

(** A line has fewer than two segments exactly when it holds no
    separator. *)
Lemma str_split_short (sep : char) (s : pystr) :
  (List.length (str_split sep (-1) s) < 2)%nat <-> ~ In sep s.
Proof.
  split.
  - intros Hlen Hin.
    pose proof (str_split_sep_two sep s (-1) ltac:(lia) Hin). lia.
  - intros H. rewrite str_split_no_sep_single by assumption. simpl. lia.
Qed.

Lemma cut_at_Some (sep : char) (s k v : pystr) :
  cut_at sep s = Some (k, v) <-> s = k ++ sep :: v /\ ~ In sep k.
Proof.
  revert k; induction s as [|c s IH]; intros k; simpl.
  - split; [discriminate |]. intros [H _]. destruct k; discriminate.
  - destruct (c =? sep)%N eqn:E.
    + apply N.eqb_eq in E. subst c. split.
      * intros H. inversion H; subst. split; [reflexivity | intros []].
      * intros [H Hk]. destruct k as [|x k]; simpl in H.
        -- inversion H; reflexivity.
        -- inversion H; subst. exfalso. apply Hk. now left.
    + apply N.eqb_neq in E. split.
      * destruct (cut_at sep s) as [[k' v']|] eqn:Ec; [|discriminate].
        intros H. inversion H; subst.
        destruct (proj1 (IH k') eq_refl) as [-> Hk]. split; [reflexivity |].
        intros [H1|H1]; [congruence | contradiction].
      * intros [H Hk]. destruct k as [|x k]; simpl in H.
        -- inversion H. congruence.
        -- inversion H; subst.
           rewrite (proj2 (IH k)); [reflexivity |].
           split; [reflexivity |]. intros Hin. apply Hk. now right.
Qed.

Lemma cut_at_None (sep : char) (s : pystr) :
  cut_at sep s = None <-> ~ In sep s.
Proof.
  induction s as [|c s IH]; simpl; [tauto |].
  destruct (c =? sep)%N eqn:E.
  - apply N.eqb_eq in E. split; [discriminate |]. intros H. exfalso. apply H. now left.
  - apply N.eqb_neq in E. destruct (cut_at sep s) as [[k v]|].
    + split; [discriminate |]. intros H. exfalso.
      assert (Hs : ~ In sep s) by (intros Hin; apply H; now right).
      apply IH in Hs. discriminate.
    + split; [|reflexivity]. intros _ [H|H]; [congruence |].
      now apply (proj1 IH).
Qed.

(** [s.split(sep, 1)] cuts [s] at its first separator. *)
Lemma str_split_once (sep : char) (s : pystr) :
  str_split sep 1 s =
  match cut_at sep s with
  | Some (k, v) => [k; v]
  | None => [s]
  end.
Proof.
  induction s as [|c s IH]; simpl; [reflexivity |].
  destruct (c =? sep)%N; simpl.
  - now rewrite str_split_zero.
  - rewrite IH. destruct (cut_at sep s) as [[k v]|]; reflexivity.
Qed.

Lemma len_app {A} (a b : list A) : len (a ++ b) = len a + len b.
Proof. unfold len. rewrite length_app. lia. Qed.

Lemma len_nonneg {A} (l : list A) : 0 <= len l.
Proof. unfold len. lia. Qed.

Lemma list_getitem_nth {A} (l : list A) (i : Z) (x : A) :
  0 <= i -> nth_error l (Z.to_nat i) = Some x -> list_getitem l i = Ok x.
Proof.
  intros Hi Hn. unfold list_getitem.
  assert (Hlt : (Z.to_nat i < List.length l)%nat)
    by (apply nth_error_Some; congruence).
  assert (E1 : (i <? 0) = false) by (apply Z.ltb_ge; lia).
  assert (E2 : (len l <=? i) = false) by (apply Z.leb_gt; unfold len; lia).
  cbv zeta. rewrite !E1, E2. cbn [orb]. now rewrite Hn.
Qed.

(** [l[-1]] is the last item. *)
Lemma list_getitem_last {A} (pre : list A) (x : A) :
  list_getitem (pre ++ [x]) (-1) = Ok x.
Proof.
  unfold list_getitem. change (-1 <? 0) with true. cbv iota zeta.
  rewrite len_app. change (len [x]) with 1.
  pose proof (len_nonneg pre).
  assert (E1 : (-1 + (len pre + 1) <? 0) = false) by (apply Z.ltb_ge; lia).
  assert (E2 : (len pre + 1 <=? -1 + (len pre + 1)) = false)
    by (apply Z.leb_gt; lia).
  rewrite E1, E2. cbn [orb].
  replace (Z.to_nat (-1 + (len pre + 1))) with (List.length pre + 0)%nat
    by (unfold len; lia).
  now rewrite nth_error_app2, Nat.add_comm, Nat.add_sub by lia.
Qed.

(** [l[len(l) - 2]] is the item before the last. *)
Lemma list_getitem_count {A} (pre : list A) (c x : A) :
  list_getitem (pre ++ [c; x]) (len (pre ++ [c; x]) - 2) = Ok c.
Proof.
  rewrite len_app. change (len [c; x]) with 2.
  pose proof (len_nonneg pre).
  apply list_getitem_nth; [lia |].
  replace (Z.to_nat (len pre + 2 - 2)) with (List.length pre + 0)%nat
    by (unfold len; lia).
  now rewrite nth_error_app2, Nat.add_comm, Nat.add_sub by lia.
Qed.

(** A slice that stops where [suf] starts only sees [pre]. *)
Lemma list_slice_prefix {A} (pre suf : list A) (start : Z) :
  0 <= start ->
  list_slice (pre ++ suf) start (len pre) = skipn (Z.to_nat start) pre.
Proof.
  intros Hs. unfold list_slice, slice_bound. rewrite len_app.
  pose proof (len_nonneg pre). pose proof (len_nonneg suf).
  replace (start <? 0) with false by (symmetry; apply Z.ltb_ge; lia).
  replace (len pre <? 0) with false by (symmetry; apply Z.ltb_ge; lia).
  replace (Z.min (len pre) (len pre + len suf)) with (len pre) by lia.
  destruct (Z.le_gt_cases start (len pre)) as [Hle|Hgt].
  - replace (Z.min start (len pre + len suf)) with start by lia.
    rewrite skipn_app.
    rewrite firstn_app.
    replace (Z.to_nat (len pre - start) - List.length (skipn (Z.to_nat start) pre))%nat
      with 0%nat by (rewrite length_skipn; unfold len in *; lia).
    simpl. rewrite app_nil_r. apply firstn_all2.
    rewrite length_skipn. unfold len in *. lia.
  - replace (Z.to_nat (len pre - Z.min start (len pre + len suf))) with 0%nat by lia.
    simpl. symmetry. apply skipn_all2. unfold len in *. lia.
Qed.


(** [l[2:]] drops the first two items. *)
Lemma list_from_skipn {A} (l : list A) (n : nat) :
  list_from l (Z.of_nat n) = skipn n l.
Proof.
  unfold list_from.
  pose proof (list_slice_prefix l [] (Z.of_nat n) ltac:(lia)) as H.
  rewrite app_nil_r in H. rewrite H. now rewrite Nat2Z.id.
Qed.

(* ================================================================== *)
(** * Dicts *)
(* ================================================================== *)

Lemma dict_lookup_set_same (k : pystr) (v : pyval) (d : dict) :
  dict_lookup k (dict_set k v d) = Some v.
Proof.
  induction d as [|[k' v'] d IH]; simpl.
  - now rewrite str_eqb_refl.
  - destruct (str_eqb k k') eqn:E; simpl; rewrite E; [reflexivity | exact IH].
Qed.

Lemma dict_lookup_set_other (k k' : pystr) (v : pyval) (d : dict) :
  k <> k' -> dict_lookup k (dict_set k' v d) = dict_lookup k d.
Proof.
  intros Hne. induction d as [|[k0 v0] d IH]; simpl.
  - now rewrite (proj2 (str_eqb_neq k k')).
  - destruct (str_eqb k' k0) eqn:E; simpl.
    + apply str_eqb_eq in E. subst k0.
      now rewrite (proj2 (str_eqb_neq k k')).
    + destruct (str_eqb k k0); [reflexivity | exact IH].
Qed.

Lemma dict_set_not_nil (k : pystr) (v : pyval) (d : dict) :
  dict_set k v d <> [].
Proof.
  destruct d as [|[k' v'] d]; simpl; [discriminate |].
  destruct (str_eqb k k'); discriminate.
Qed.

(** The keys of a dict built by assignments are pairwise different. *)
Lemma dict_set_NoDup (k : pystr) (v : pyval) (d : dict) :
  NoDup (keys d) -> NoDup (keys (dict_set k v d)).
Proof.
  unfold keys. induction d as [|[k' v'] d IH]; simpl; intros Hnd.
  - constructor; [intros [] | constructor].
  - inversion Hnd as [|? ? Hnin Hnd']; subst.
    destruct (str_eqb k k') eqn:E; simpl; [constructor; assumption |].
    constructor; [|now apply IH].
    intros Hin. apply Hnin.
    clear - Hin E. induction d as [|[k0 v0] d IH]; simpl in *.
    + destruct Hin as [H|[]]. subst. now rewrite str_eqb_refl in E.
    + destruct (str_eqb k k0) eqn:E0; simpl in *; [exact Hin |].
      destruct Hin as [H|H]; [now left | right; now apply IH].
Qed.

(* ================================================================== *)
(** * Loops *)
(* ================================================================== *)

(** A loop whose body never raises is a fold. *)
Lemma for_each_pure {S A} (body : S -> A -> res S) (f : S -> A -> S)
    (l : list A) (s : S) :
  (forall s x, body s x = Ok (f s x)) ->
  for_each body l s = Ok (fold_left f l s).
Proof.
  intros H. revert s. induction l as [|x l IH]; intros s; simpl;
    [reflexivity |].
  rewrite H. simpl. apply IH.
Qed.

(* ================================================================== *)
(** * The field parser never raises *)
(* ================================================================== *)

Lemma parse_field_pure (parsed : dict) (field : pystr) :
  parse_field parsed field =
  Ok (match cut_at colon field with
      | Some (k, v) => dict_set k (PyStr v) parsed
      | None => parsed
      end).
Proof.
  unfold parse_field. rewrite str_split_once.
  destruct (str_contains colon field) eqn:E.
  - apply str_contains_In in E.
    destruct (cut_at colon field) as [[k v]|] eqn:Ec; [reflexivity |].
    apply cut_at_None in Ec. contradiction.
  - apply str_contains_not_In, cut_at_None in E. now rewrite E.
Qed.

Lemma parse_fields_loop (fields : list pystr) (parsed : dict) :
  for_each parse_field fields parsed = Ok (parse_fields fields parsed).
Proof.
  unfold parse_fields.
  apply (for_each_pure parse_field
           (fun d field => match cut_at colon field with
                           | Some (k, v) => dict_set k (PyStr v) d
                           | None => d
                           end)).
  intros d f. apply parse_field_pure.
Qed.

(** What [parse_log_line] returns, with the monad taken away. *)
Lemma parse_log_line_eq (line : pystr) :
  parse_log_line line =
  Ok (let parts := str_split pipe (-1) line in
      if (List.length parts <? 2)%nat then PyNone
      else PyDict (parse_fields (skipn 2 parts) [])).
Proof.
  unfold parse_log_line. cbv zeta.
  set (parts := str_split pipe (-1) line).
  assert (E : (len parts <? 2) = (List.length parts <? 2)%nat).
  { unfold len. destruct (Nat.ltb_spec (List.length parts) 2);
      [apply Z.ltb_lt | apply Z.ltb_ge]; lia. }
  rewrite E. destruct (List.length parts <? 2)%nat; [reflexivity |].
  change 2 with (Z.of_nat 2). rewrite list_from_skipn, parse_fields_loop.
  reflexivity.
Qed.

Lemma parse_fields_lookup (fields : list pystr) (parsed : dict) (k : pystr) :
  dict_lookup k (parse_fields fields parsed) =
  match last_field k fields with
  | Some v => Some (PyStr v)
  | None => dict_lookup k parsed
  end.
Proof.
  revert parsed. induction fields as [|f fs IH]; intros parsed;
    [reflexivity |].
  unfold parse_fields in *. simpl. rewrite IH.
  destruct (last_field k fs); [reflexivity |].
  destruct (cut_at colon f) as [[k' v]|]; [|reflexivity].
  destruct (str_eqb k k') eqn:E.
  - apply str_eqb_eq in E. subst. apply dict_lookup_set_same.
  - apply str_eqb_neq in E. now apply dict_lookup_set_other.
Qed.

Lemma parse_fields_NoDup (fields : list pystr) (parsed : dict) :
  NoDup (keys parsed) -> NoDup (keys (parse_fields fields parsed)).
Proof.
  revert parsed. induction fields as [|f fs IH]; intros parsed H;
    [exact H |].
  unfold parse_fields in *. simpl. apply IH.
  destruct (cut_at colon f) as [[k v]|]; [now apply dict_set_NoDup | exact H].
Qed.

Lemma last_field_None (k : pystr) (fields : list pystr) :
  last_field k fields = None <->
  (forall seg v, In seg fields -> ~ field_of seg k v).
Proof.
  induction fields as [|f fs IH]; simpl.
  - split; [intros _ seg v [] | reflexivity].
  - split.
    + intros H seg v [<-|Hin] Hf.
      * destruct (last_field k fs); [discriminate |].
        apply cut_at_Some in Hf. rewrite Hf, str_eqb_refl in H. discriminate.
      * destruct (last_field k fs); [discriminate |].
        now apply (proj1 IH eq_refl seg v).
    + intros H.
      rewrite (proj2 IH) by (intros seg v Hin; apply H; now right).
      destruct (cut_at colon f) as [[k' v]|] eqn:Ec; [|reflexivity].
      destruct (str_eqb k k') eqn:E; [|reflexivity].
      apply str_eqb_eq in E. subst k'. apply cut_at_Some in Ec.
      exfalso. apply (H f v); [now left | exact Ec].
Qed.

(** [last_field] in words: some segment is the field [k:v], and no later
    segment is a field with key [k]. *)
Lemma last_field_Some (k v : pystr) (fields : list pystr) :
  last_field k fields = Some v <->
  exists pre seg post,
    fields = pre ++ seg :: post /\ field_of seg k v /\
    (forall seg' v', In seg' post -> ~ field_of seg' k v').
Proof.
  induction fields as [|f fs IH]; simpl.
  - split; [discriminate |]. intros (pre & seg & post & H & _).
    destruct pre; discriminate.
  - split.
    + destruct (last_field k fs) as [v0|] eqn:El.
      * intros H. inversion H; subst v0.
        destruct (proj1 IH eq_refl) as (pre & seg & post & -> & Hf & Hp).
        exists (f :: pre), seg, post. auto.
      * destruct (cut_at colon f) as [[k' v1]|] eqn:Ec; [|discriminate].
        destruct (str_eqb k k') eqn:E; [|discriminate].
        intros H. inversion H; subst v1. apply str_eqb_eq in E. subst k'.
        exists [], f, fs. split; [reflexivity |]. split.
        -- now apply cut_at_Some.
        -- intros seg' v' Hin. now apply (proj1 (last_field_None k fs) El).
    + intros (pre & seg & post & Heq & Hf & Hp).
      destruct pre as [|x pre]; simpl in Heq; inversion Heq; subst.
      * rewrite (proj2 (last_field_None k post)) by exact Hp.
        apply cut_at_Some in Hf. now rewrite Hf, str_eqb_refl.
      * rewrite (proj2 IH); [reflexivity |].
        exists pre, seg, post. auto.
Qed.

(* ================================================================== *)
(** * The loop over the window *)
(* ================================================================== *)

Lemma len_two_or_more {A} (a b : A) (l : list A) :
  (len (a :: b :: l) <? 2) = false.
Proof. apply Z.ltb_ge. unfold len. simpl. lia. Qed.

(** A window line with two segments or more parses to its FieldMap, never
    to [None]. *)
Lemma line_fields_parse (line t : pystr) :
  line_type line = Some t ->
  parse_log_line (strip line) = Ok (PyDict (line_fields line)).
Proof.
  unfold line_type, line_fields. rewrite parse_log_line_eq. cbv zeta.
  destruct (str_split pipe (-1) (strip line)) as [|p0 [|p1 rest]];
    [discriminate | discriminate | reflexivity].
Qed.

Lemma feeds_exclusive (t t' line : pystr) :
  feeds t line = true -> feeds t' line = true -> t = t'.
Proof.
  unfold feeds. destruct (line_type line) as [x|]; [|discriminate].
  intros H1 H2.
  apply andb_true_iff in H1 as [H1 _]. apply andb_true_iff in H2 as [H2 _].
  apply str_eqb_eq in H1, H2. congruence.
Qed.

Lemma feeds_other (t t' line : pystr) :
  t <> t' -> feeds t line = true -> feeds t' line = false.
Proof.
  intros Hne H. destruct (feeds t' line) eqn:E; [|reflexivity].
  exfalso. apply Hne. exact (feeds_exclusive _ _ _ H E).
Qed.

Lemma app_process_line_entry (a b c d f : pyval) (line : pystr) :
  App.process_line (app_entry a b c d f) line =
  Ok (if feeds (lit "Info") line
      then app_entry a (PyDict (line_fields line)) (PyStr (strip line)) d f
      else if feeds (lit "Number") line
      then app_entry a b c (PyDict (line_fields line)) f
      else if feeds (lit "CallWindow") line
      then app_entry a b c d (PyDict (line_fields line))
      else app_entry a b c d f).
Proof.
  unfold App.process_line, feeds. cbv zeta.
  destruct (line_type line) as [t|] eqn:Et.
  - rewrite (line_fields_parse line t Et).
    unfold line_type in Et.
    destruct (str_split pipe (-1) (strip line)) as [|p0 [|p1 rest]];
      [discriminate | discriminate |].
    injection Et as <-. rewrite len_two_or_more.
    rewrite (list_getitem_nth (p0 :: p1 :: rest) 1 p1) by (lia || reflexivity).
    cbn [bind truthy].
    destruct (line_fields line) as [|kv fields]; cbn [nonempty negb].
    + now rewrite !andb_false_r.
    + rewrite !andb_true_r.
      destruct (str_eqb (strip p1) (lit "Info")); [reflexivity |].
      destruct (str_eqb (strip p1) (lit "Number")); [reflexivity |].
      destruct (str_eqb (strip p1) (lit "CallWindow")); reflexivity.
  - unfold line_type in Et.
    pose proof (str_split_not_nil pipe (strip line) (-1)) as Hnn.
    destruct (str_split pipe (-1) (strip line)) as [|p0 [|p1 rest]];
      [congruence | reflexivity | discriminate].
Qed.

Lemma cl_process_line_entry (a b d f : pyval) (line : pystr) :
  CallLogs.process_line (cl_entry a b d f) line =
  Ok (if feeds (lit "Info") line
      then cl_entry a (cl_info line) d f
      else if feeds (lit "Number") line
      then cl_entry a b (PyDict (line_fields line)) f
      else if feeds (lit "CallWindow") line
      then cl_entry a b d (PyDict (line_fields line))
      else cl_entry a b d f).
Proof.
  unfold CallLogs.process_line, feeds, cl_info, line_date. cbv zeta.
  destruct (line_type line) as [t|] eqn:Et.
  - rewrite (line_fields_parse line t Et).
    unfold line_type in Et.
    destruct (str_split pipe (-1) (strip line)) as [|p0 [|p1 rest]];
      [discriminate | discriminate |].
    injection Et as <-. rewrite len_two_or_more.
    rewrite (list_getitem_nth (p0 :: p1 :: rest) 1 p1) by (lia || reflexivity).
    rewrite (list_getitem_nth (p0 :: p1 :: rest) 0 p0) by (lia || reflexivity).
    cbn [bind truthy py_setitem].
    destruct (line_fields line) as [|kv fields]; cbn [nonempty negb].
    + now rewrite !andb_false_r.
    + rewrite !andb_true_r.
      destruct (str_eqb (strip p1) (lit "Info")); [reflexivity |].
      destruct (str_eqb (strip p1) (lit "Number")); [reflexivity |].
      destruct (str_eqb (strip p1) (lit "CallWindow")); reflexivity.
  - unfold line_type in Et.
    pose proof (str_split_not_nil pipe (strip line) (-1)) as Hnn.
    destruct (str_split pipe (-1) (strip line)) as [|p0 [|p1 rest]];
      [congruence | reflexivity | discriminate].
Qed.

Lemma Info_not_Number : lit "Info" <> lit "Number".
Proof. intros H. vm_compute in H. discriminate H. Qed.

Lemma Info_not_CallWindow : lit "Info" <> lit "CallWindow".
Proof. intros H. vm_compute in H. discriminate H. Qed.

Lemma Number_not_CallWindow : lit "Number" <> lit "CallWindow".
Proof. intros H. vm_compute in H. discriminate H. Qed.

(** The loop of [app.py] in closed form: every key ends with the FieldMap of
    the last line that feeds it, or keeps the value it had. *)
Lemma app_loop (a : pyval) (w : list pystr) :
  forall b c d f,
    for_each App.process_line w (app_entry a b c d f) =
    Ok (app_entry a
          (fed (lit "Info") w b)
          (match last_fed (lit "Info") w with
           | Some l => PyStr (strip l)
           | None => c
           end)
          (fed (lit "Number") w d)
          (fed (lit "CallWindow") w f)).
Proof.
  induction w as [|l w IH]; intros b c d f; [reflexivity |].
  cbn [for_each]. rewrite app_process_line_entry. cbn [bind].
  unfold fed in *. cbn [last_fed].
  destruct (feeds (lit "Info") l) eqn:E1.
  - rewrite (feeds_other _ _ l Info_not_Number E1),
            (feeds_other _ _ l Info_not_CallWindow E1).
    rewrite IH.
    destruct (last_fed (lit "Info") w), (last_fed (lit "Number") w),
             (last_fed (lit "CallWindow") w); reflexivity.
  - destruct (feeds (lit "Number") l) eqn:E2.
    + rewrite (feeds_other _ _ l Number_not_CallWindow E2). rewrite IH.
      destruct (last_fed (lit "Info") w), (last_fed (lit "Number") w),
               (last_fed (lit "CallWindow") w); reflexivity.
    + destruct (feeds (lit "CallWindow") l) eqn:E3; rewrite IH;
        destruct (last_fed (lit "Info") w), (last_fed (lit "Number") w),
                 (last_fed (lit "CallWindow") w); reflexivity.
Qed.

(** The loop of [call_logs.py] in closed form. *)
Lemma cl_loop (a : pyval) (w : list pystr) :
  forall b d f,
    for_each CallLogs.process_line w (cl_entry a b d f) =
    Ok (cl_entry a
          (match last_fed (lit "Info") w with
           | Some l => cl_info l
           | None => b
           end)
          (fed (lit "Number") w d)
          (fed (lit "CallWindow") w f)).
Proof.
  induction w as [|l w IH]; intros b d f; [reflexivity |].
  cbn [for_each]. rewrite cl_process_line_entry. cbn [bind].
  unfold fed in *. cbn [last_fed].
  destruct (feeds (lit "Info") l) eqn:E1.
  - rewrite (feeds_other _ _ l Info_not_Number E1),
            (feeds_other _ _ l Info_not_CallWindow E1).
    rewrite IH.
    destruct (last_fed (lit "Info") w), (last_fed (lit "Number") w),
             (last_fed (lit "CallWindow") w); reflexivity.
  - destruct (feeds (lit "Number") l) eqn:E2.
    + rewrite (feeds_other _ _ l Number_not_CallWindow E2). rewrite IH.
      destruct (last_fed (lit "Info") w), (last_fed (lit "Number") w),
               (last_fed (lit "CallWindow") w); reflexivity.
    + destruct (feeds (lit "CallWindow") l) eqn:E3; rewrite IH;
        destruct (last_fed (lit "Info") w), (last_fed (lit "Number") w),
                 (last_fed (lit "CallWindow") w); reflexivity.
Qed.

(** [assemble] never raises, and its entry is [app_record]. *)
Lemma app_assemble_eq (file_name : pystr) (w : list pystr) :
  App.assemble file_name w = Ok (PyDict (app_record file_name w)).
Proof.
  unfold App.assemble.
  change (App.new_entry file_name)
    with (app_entry (PyStr file_name) PyNone PyNone PyNone PyNone).
  rewrite app_loop. cbn [bind]. unfold app_record, fed.
  destruct (last_fed (lit "Number") w); reflexivity.
Qed.

Lemma cl_assemble_eq (file_name : pystr) (w : list pystr) :
  CallLogs.assemble file_name w = Ok (PyDict (cl_record file_name w)).
Proof.
  unfold CallLogs.assemble.
  change (CallLogs.new_entry file_name)
    with (cl_entry (PyStr file_name) PyNone PyNone PyNone).
  rewrite cl_loop. cbn [bind]. unfold cl_record, fed.
  destruct (last_fed (lit "Number") w); reflexivity.
Qed.

Lemma last_fed_None (t : pystr) (w : list pystr) :
  last_fed t w = None <-> (forall l, In l w -> feeds t l = false).
Proof.
  induction w as [|x w IH]; simpl.
  - split; [intros _ l [] | reflexivity].
  - split.
    + intros H l [<-|Hin].
      * destruct (last_fed t w); [discriminate |].
        destruct (feeds t x); [discriminate | reflexivity].
      * destruct (last_fed t w); [discriminate |]. now apply IH.
    + intros H. rewrite (proj2 IH) by (intros l Hin; apply H; now right).
      now rewrite (H x (or_introl eq_refl)).
Qed.

Lemma last_fed_In (t l : pystr) (w : list pystr) :
  last_fed t w = Some l -> In l w /\ feeds t l = true.
Proof.
  induction w as [|x w IH]; simpl; [discriminate |].
  destruct (last_fed t w) as [y|].
  - intros H. inversion H; subst y. destruct (IH eq_refl). auto.
  - destruct (feeds t x) eqn:E; [|discriminate].
    intros H. inversion H; subst. auto.
Qed.

(** Last wins: a line that feeds [t], followed by lines that do not, is the
    one [last_fed] finds, whatever comes before it. *)
Lemma last_fed_split (t l : pystr) (w1 w2 : list pystr) :
  feeds t l = true ->
  (forall l', In l' w2 -> feeds t l' = false) ->
  last_fed t (w1 ++ l :: w2) = Some l.
Proof.
  intros Hl Hw2. induction w1 as [|x w1 IH]; simpl.
  - rewrite (proj2 (last_fed_None t w2) Hw2). now rewrite Hl.
  - now rewrite IH.
Qed.

(* ================================================================== *)
(** * [process_logs] *)
(* ================================================================== *)

Lemma list_slice_In {A} (l : list A) (start stop : Z) (x : A) :
  In x (list_slice l start stop) -> In x l.
Proof.
  unfold list_slice. intros H.
  set (a := Z.to_nat (slice_bound (len l) start)) in *.
  set (n := Z.to_nat (slice_bound (len l) stop - slice_bound (len l) start)) in *.
  rewrite <- (firstn_skipn a l). apply in_or_app. right.
  rewrite <- (firstn_skipn n (skipn a l)). apply in_or_app. now left.
Qed.

(** A list of two items or more ends in a count line and a last line. *)
Lemma two_or_more_split {A} (l : list A) :
  (2 <= List.length l)%nat -> exists pre c x, l = pre ++ [c; x].
Proof.
  intros H.
  destruct (exists_last (l := l)) as (l1 & x & ->);
    [destruct l; [simpl in H; lia | discriminate] |].
  rewrite length_app in H. simpl in H.
  destruct (exists_last (l := l1)) as (pre & c & ->);
    [destruct l1; [simpl in H; lia | discriminate] |].
  exists pre, c, x. now rewrite <- app_assoc.
Qed.

Lemma nonempty_app {A} (pre : list A) (x : A) : nonempty (pre ++ [x]) = true.
Proof. destruct pre; reflexivity. Qed.

(** ** Standard output *)

Lemma encodable_app (a b : pystr) :
  encodable (a ++ b) = encodable a && encodable b.
Proof.
  unfold encodable. rewrite existsb_app. apply negb_orb.
Qed.

Lemma encodable_lit (s : string) : encodable (lit s) = true.
Proof.
  unfold encodable, lit. apply negb_true_iff.
  induction (list_ascii_of_string s) as [|a l IH]; [reflexivity |].
  cbn [List.map existsb]. rewrite IH, orb_false_r.
  unfold is_surrogate. apply andb_false_iff. left. apply N.leb_gt.
  pose proof (N_ascii_bounded a). lia.
Qed.

Lemma print_ok (text : pystr) : encodable text = true -> print text = Ok tt.
Proof. unfold print. now intros ->. Qed.

Lemma print_raises (text : pystr) :
  encodable text = false -> print text = Raise UnicodeEncodeError.
Proof. unfold print. now intros ->. Qed.

(** A message with literal text around a name is printed when the name
    is. *)
Lemma print_around (a b : string) (name : pystr) :
  print (lit a ++ name ++ lit b) = print name.
Proof.
  unfold print. now rewrite !encodable_app, !encodable_lit, andb_true_r.
Qed.

Lemma print_after (a : string) (name : pystr) :
  print (lit a ++ name) = print name.
Proof.
  unfold print. now rewrite encodable_app, encodable_lit.
Qed.

Lemma print_lit (a : string) : print (lit a) = Ok tt.
Proof. apply print_ok, encodable_lit. Qed.

Lemma digits_of_le (fuel : nat) (n : Z) :
  Forall (fun d => d <= 9) (digits_of fuel n).
Proof.
  revert n. induction fuel as [|f IH]; intros n; cbn [digits_of];
    [constructor |].
  destruct (Z.ltb_spec n 10).
  - repeat constructor. lia.
  - apply Forall_app. split; [apply IH |].
    repeat constructor. pose proof (Z.mod_pos_bound n 10). lia.
Qed.

(** The digits of a number are printed. *)
Lemma encodable_str_of_len (n : Z) : encodable (str_of_len n) = true.
Proof.
  unfold encodable, str_of_len. apply negb_true_iff.
  induction (digits_of_le (S (Z.to_nat (Z.log2 n))) n) as [|d ds Hd _ IH];
    [reflexivity |].
  cbn [List.map existsb]. rewrite IH, orb_false_r.
  unfold is_surrogate. apply andb_false_iff. left. apply N.leb_gt. lia.
Qed.

Lemma print_count (a b c : string) (n : Z) (name : pystr) :
  print (lit a ++ str_of_len n ++ lit b ++ name ++ lit c) = print name.
Proof.
  unfold print.
  now rewrite !encodable_app, !encodable_lit, encodable_str_of_len,
    andb_true_r.
Qed.

(** A part of an encodable text is encodable. *)
Lemma encodable_incl (a b : pystr) :
  incl a b -> encodable b = true -> encodable a = true.
Proof.
  unfold encodable. rewrite !negb_true_iff. intros Hi Hb.
  destruct (existsb is_surrogate a) eqn:E; [|reflexivity].
  apply existsb_exists in E. destruct E as (c & Hc & Hs).
  rewrite <- Hb. symmetry. apply existsb_exists. exists c.
  split; [now apply Hi | exact Hs].
Qed.

(** A computation followed by a print that goes through. *)
Lemma bind_print_ok {A} (c : res A) :
  (x <- c ;; _ <- Ok tt ;; Ok x) = c.
Proof. destruct c; reflexivity. Qed.

(** ** The trailer *)

Lemma app_read_count (pre : list pystr) (c x file_name : pystr) :
  App.read_count (pre ++ [c; x]) file_name =
  match py_int (strip c) with
  | Ok n => Ok (Some (len pre, n))
  | Raise _ => _ <- print file_name ;; Ok None
  end.
Proof.
  unfold App.read_count, print_error. cbv zeta.
  rewrite list_getitem_count. cbn [bind].
  rewrite len_app. change (len [c; x]) with 2.
  replace (len pre + 2 - 2) with (len pre) by lia.
  destruct (py_int (strip c)); cbn [bind try_except]; [reflexivity |].
  now rewrite print_around.
Qed.

Lemma cl_read_count (pre : list pystr) (c x file_name : pystr) :
  CallLogs.read_count (pre ++ [c; x]) file_name =
  match py_int (strip c) with
  | Ok n => Ok (Some (len pre, n))
  | Raise _ => _ <- print file_name ;; Ok None
  end.
Proof.
  unfold CallLogs.read_count, print_error. cbv zeta.
  rewrite list_getitem_count. cbn [bind].
  rewrite len_app. change (len [c; x]) with 2.
  replace (len pre + 2 - 2) with (len pre) by lia.
  destruct (py_int (strip c)); cbn [bind try_except]; [reflexivity |].
  now rewrite print_around.
Qed.

(** [process_logs] of [app.py] on a list of two lines or more: the name is
    printed when the last line is not the sentinel and when the count line
    is no integer, and nowhere else. *)
Lemma app_process_logs_run (pre : list pystr) (c x file_name : pystr) :
  App.process_logs (pre ++ [c; x]) file_name =
  if str_eqb (strip x) sentinel then
    match py_int (strip c) with
    | Ok n =>
        App.assemble file_name
          (list_slice (pre ++ [c; x]) (Z.max 0 (len pre - n)) (len pre))
    | Raise _ => _ <- print file_name ;; Ok PyNone
    end
  else _ <- print file_name ;; Ok PyNone.
Proof.
  unfold App.process_logs.
  replace (nonempty (pre ++ [c; x])) with true
    by (symmetry; change (pre ++ [c; x]) with (pre ++ [c] ++ [x]);
        rewrite app_assoc; apply nonempty_app).
  assert (E : (len (pre ++ [c; x]) <? 2) = false).
  { apply Z.ltb_ge. rewrite len_app. change (len [c; x]) with 2.
    pose proof (len_nonneg pre). lia. }
  rewrite E. cbn [negb orb].
  replace (list_getitem (pre ++ [c; x]) (-1)) with (Ok x : res pystr)
    by (symmetry; change (pre ++ [c; x]) with (pre ++ [c] ++ [x]);
        rewrite app_assoc; apply list_getitem_last).
  cbn [bind]. destruct (str_eqb (strip x) sentinel); cbn [negb].
  - rewrite app_read_count.
    destruct (py_int (strip c)); cbn [bind]; [reflexivity |].
    destruct (print file_name); reflexivity.
  - now rewrite print_around.
Qed.

(** The same for a name that is printed. *)
Lemma app_process_logs_eq (pre : list pystr) (c x file_name : pystr) :
  encodable file_name = true ->
  App.process_logs (pre ++ [c; x]) file_name =
  if str_eqb (strip x) sentinel then
    match py_int (strip c) with
    | Ok n =>
        App.assemble file_name
          (list_slice (pre ++ [c; x]) (Z.max 0 (len pre - n)) (len pre))
    | Raise _ => Ok PyNone
    end
  else Ok PyNone.
Proof.
  intros H. rewrite app_process_logs_run, (print_ok _ H). reflexivity.
Qed.

(** [process_logs] of [call_logs.py] on a list of two lines or more: the
    name is printed first on every path. *)
Lemma cl_process_logs_run (pre : list pystr) (c x file_name : pystr) :
  CallLogs.process_logs (pre ++ [c; x]) file_name =
  (_ <- print file_name ;;
   if str_eqb (strip x) sentinel then
     match py_int (strip c) with
     | Ok n =>
         if len pre - n <? 0 then Ok PyNone
         else CallLogs.assemble file_name
                (list_slice (pre ++ [c; x]) (len pre - n) (len pre))
     | Raise _ => Ok PyNone
     end
   else Ok PyNone).
Proof.
  unfold CallLogs.process_logs.
  replace (nonempty (pre ++ [c; x])) with true
    by (symmetry; change (pre ++ [c; x]) with (pre ++ [c] ++ [x]);
        rewrite app_assoc; apply nonempty_app).
  cbn [negb].
  replace (list_getitem (pre ++ [c; x]) (-1)) with (Ok x : res pystr)
    by (symmetry; change (pre ++ [c; x]) with (pre ++ [c] ++ [x]);
        rewrite app_assoc; apply list_getitem_last).
  cbn [bind]. cbv zeta.
  rewrite !print_around, !print_after.
  destruct (str_eqb (strip x) sentinel); cbn [negb]; [|reflexivity].
  rewrite cl_read_count.
  destruct (print file_name) as [[]|e] eqn:Ep; cbn [bind]; [|reflexivity].
  destruct (py_int (strip c)) as [n|e]; cbn [bind]; [|reflexivity].
  destruct (len pre - n <? 0); [reflexivity |].
  rewrite print_count, Ep. cbn [bind]. apply bind_print_ok.
Qed.

Lemma cl_process_logs_eq (pre : list pystr) (c x file_name : pystr) :
  encodable file_name = true ->
  CallLogs.process_logs (pre ++ [c; x]) file_name =
  if str_eqb (strip x) sentinel then
    match py_int (strip c) with
    | Ok n =>
        if len pre - n <? 0 then Ok PyNone
        else CallLogs.assemble file_name
               (list_slice (pre ++ [c; x]) (len pre - n) (len pre))
    | Raise _ => Ok PyNone
    end
  else Ok PyNone.
Proof.
  intros H. rewrite cl_process_logs_run, (print_ok _ H). reflexivity.
Qed.

(** The sentinel is no integer literal. *)
Lemma py_int_sentinel : py_int sentinel = Raise ValueError.
Proof. vm_compute. reflexivity. Qed.

(** [process_logs] of [call_logs.py] on a single line: the count line it
    reads at index -1 is that line, which is the sentinel and no integer. *)
Lemma cl_process_logs_single (x file_name : pystr) :
  CallLogs.process_logs [x] file_name = (_ <- print file_name ;; Ok PyNone).
Proof.
  unfold CallLogs.process_logs. cbn [nonempty negb].
  change (list_getitem [x] (-1)) with (Ok x : res pystr). cbn [bind]. cbv zeta.
  rewrite !print_around, !print_after.
  destruct (str_eqb (strip x) sentinel) eqn:E; [|reflexivity].
  apply str_eqb_eq in E. cbn [negb].
  unfold CallLogs.read_count, print_error. cbv zeta.
  change (list_getitem [x] (len [x] - 2)) with (Ok x : res pystr).
  cbn [bind]. rewrite E, py_int_sentinel. cbn [try_except].
  rewrite print_around.
  destruct (print file_name); reflexivity.
Qed.

Lemma app_process_logs_short (lines : list pystr) (file_name : pystr) :
  (List.length lines < 2)%nat -> App.process_logs lines file_name = Ok PyNone.
Proof.
  intros H. unfold App.process_logs.
  replace (len lines <? 2) with true
    by (symmetry; apply Z.ltb_lt; unfold len; lia).
  now rewrite orb_true_r.
Qed.

Lemma cl_process_logs_short_run (lines : list pystr) (file_name : pystr) :
  (List.length lines < 2)%nat ->
  CallLogs.process_logs lines file_name = (_ <- print file_name ;; Ok PyNone).
Proof.
  intros H. destruct lines as [|x [|y l]]; [| | simpl in H; lia].
  - unfold CallLogs.process_logs. cbn [nonempty negb].
    now rewrite print_after.
  - apply cl_process_logs_single.
Qed.

Lemma cl_process_logs_short (lines : list pystr) (file_name : pystr) :
  encodable file_name = true ->
  (List.length lines < 2)%nat ->
  CallLogs.process_logs lines file_name = Ok PyNone.
Proof.
  intros He H. rewrite (cl_process_logs_short_run _ _ H), (print_ok _ He).
  reflexivity.
Qed.

(* ================================================================== *)
(** * The properties of the specification *)
(* ================================================================== *)

(** The example line of the specification. *)
Example parse_log_line_example :
  parse_log_line
    (lit "2024/01/01 10:00:00|Info|Number:123|Call_Type:voice_call") =
  Ok (PyDict [(lit "Number", PyStr (lit "123"));
              (lit "Call_Type", PyStr (lit "voice_call"))]).
Proof. vm_compute. reflexivity. Qed.

(** C6.  The field parser splits the line on the pipe character (the
    segments joined by pipes are the line again, and no segment holds a
    pipe).  It returns [None] if and only if this gives fewer than two
    segments, which is when the line holds no pipe at all.  Otherwise it
    returns a dict whose entries come from the
    segments from index 2 on: key [k] has the value [v] exactly when some
    such segment is [k:v], cut at its first colon ([v] may hold more
    colons), and no later segment has the key [k]; a segment without a colon
    gives no entry.  The parser never raises. *)
Theorem C6_field_parser (line : pystr) :
  (join pipe (str_split pipe (-1) line) = line /\
   Forall (fun seg => ~ In pipe seg) (str_split pipe (-1) line)) /\
  (parse_log_line line = Ok PyNone <->
   (List.length (str_split pipe (-1) line) < 2)%nat) /\
  ((List.length (str_split pipe (-1) line) < 2)%nat <-> ~ In pipe line) /\
  ((2 <= List.length (str_split pipe (-1) line))%nat ->
   exists d,
     parse_log_line line = Ok (PyDict d) /\
     NoDup (keys d) /\
     forall k x,
       dict_lookup k d = Some x <->
       exists pre seg post v,
         skipn 2 (str_split pipe (-1) line) = pre ++ seg :: post /\
         field_of seg k v /\
         (forall seg' v', In seg' post -> ~ field_of seg' k v') /\
         x = PyStr v).
Proof.
  split; [split; [apply str_split_join | apply str_split_no_sep; lia] |].
  rewrite parse_log_line_eq. cbv zeta.
  destruct (Nat.ltb_spec (List.length (str_split pipe (-1) line)) 2) as [H|H].
  - split; [tauto |]. split; [apply str_split_short | intros H2; lia].
  - split; [split; [discriminate | lia] |]. split; [apply str_split_short |].
    intros _. eexists. split; [reflexivity |].
    split; [apply parse_fields_NoDup; constructor |].
    intros k x. rewrite parse_fields_lookup. simpl (dict_lookup k []).
    destruct (last_field k (skipn 2 (str_split pipe (-1) line))) as [v|] eqn:E.
    + apply last_field_Some in E as (pre & seg & post & Hs & Hf & Hp).
      split.
      * intros Hx. inversion Hx; subst x. exists pre, seg, post, v. auto.
      * intros (pre' & seg' & post' & v' & Hs' & Hf' & Hp' & ->).
        assert (Hl : last_field k (skipn 2 (str_split pipe (-1) line)) = Some v').
        { apply last_field_Some. exists pre', seg', post'. auto. }
        assert (Hl2 : last_field k (skipn 2 (str_split pipe (-1) line)) = Some v).
        { apply last_field_Some. exists pre, seg, post. auto. }
        congruence.
    + split; [discriminate |].
      intros (pre & seg & post & v & Hs & Hf & _ & _). exfalso.
      apply (proj1 (last_field_None k _) E seg v); [|exact Hf].
      rewrite Hs. apply in_or_app. right. now left.
Qed.

(** The example of the specification through C6: the line has four
    segments, and its dict gives ["123"] for ["Number"]. *)
Lemma C6_field_parser_witness :
  (2 <= List.length
          (str_split pipe (-1)
             (lit "2024/01/01 10:00:00|Info|Number:123|Call_Type:voice_call")))%nat
  /\ exists d,
       parse_log_line
         (lit "2024/01/01 10:00:00|Info|Number:123|Call_Type:voice_call") =
       Ok (PyDict d) /\
       dict_lookup (lit "Number") d = Some (PyStr (lit "123")).
Proof.
  assert (H : (2 <= List.length
                 (str_split pipe (-1)
                    (lit "2024/01/01 10:00:00|Info|Number:123|Call_Type:voice_call")))%nat)
    by (vm_compute; lia).
  split; [exact H |].
  destruct (C6_field_parser
              (lit "2024/01/01 10:00:00|Info|Number:123|Call_Type:voice_call"))
    as (_ & _ & _ & Hd).
  destruct (Hd H) as (d & Hp & _ & Hl).
  exists d. split; [exact Hp |].
  apply Hl.
  exists [], (lit "Number:123"), [lit "Call_Type:voice_call"], (lit "123").
  split; [vm_compute; reflexivity |].
  split; [split; [vm_compute; reflexivity |] |].
  - vm_compute. intros [H1|[H1|[H1|[H1|[H1|[H1|[]]]]]]]; discriminate H1.
  - split; [|reflexivity].
    intros seg' v' [<-|[]] [Heq _]. vm_compute in Heq. discriminate Heq.
Defined.




(** What [process_logs] can return: [None], the entry assembled from a
    slice of the lines, or, for a name that the standard output cannot
    encode, the exception of a [print]. *)
Lemma app_process_logs_cases (lines : list pystr) (file_name : pystr) :
  App.process_logs lines file_name = Ok PyNone \/
  (exists start stop,
     App.process_logs lines file_name =
     Ok (PyDict (app_record file_name (list_slice lines start stop)))) \/
  (encodable file_name = false /\
   App.process_logs lines file_name = Raise UnicodeEncodeError).
Proof.
  destruct (Nat.ltb_spec (List.length lines) 2) as [Hs|Hl].
  - left. now apply app_process_logs_short.
  - destruct (two_or_more_split _ Hl) as (pre & c & x & ->).
    rewrite app_process_logs_run.
    assert (Hp : (_ <- print file_name ;; Ok PyNone) = Ok PyNone \/
                 (encodable file_name = false /\
                  (_ <- print file_name ;; Ok PyNone) =
                  (Raise UnicodeEncodeError : res pyval))).
    { unfold print. destruct (encodable file_name); [now left | now right]. }
    destruct (str_eqb (strip x) sentinel); [|tauto].
    destruct (py_int (strip c)) as [n|]; [|tauto].
    right. left. eexists _, _. apply app_assemble_eq.
Qed.

(** [process_logs] of [call_logs.py] prints the name on every path. *)
Lemma cl_process_logs_unprintable (lines : list pystr) (file_name : pystr) :
  encodable file_name = false ->
  CallLogs.process_logs lines file_name = Raise UnicodeEncodeError.
Proof.
  intros He. destruct (Nat.ltb_spec (List.length lines) 2) as [Hs|Hl].
  - rewrite (cl_process_logs_short_run _ _ Hs), (print_raises _ He).
    reflexivity.
  - destruct (two_or_more_split _ Hl) as (pre & c & x & ->).
    rewrite cl_process_logs_run, (print_raises _ He). reflexivity.
Qed.

Lemma cl_process_logs_cases (lines : list pystr) (file_name : pystr) :
  CallLogs.process_logs lines file_name = Ok PyNone \/
  (exists start stop,
     CallLogs.process_logs lines file_name =
     Ok (PyDict (cl_record file_name (list_slice lines start stop)))) \/
  (encodable file_name = false /\
   CallLogs.process_logs lines file_name = Raise UnicodeEncodeError).
Proof.
  destruct (encodable file_name) eqn:He.
  - destruct (Nat.ltb_spec (List.length lines) 2) as [Hs|Hl].
    + left. now apply cl_process_logs_short.
    + destruct (two_or_more_split _ Hl) as (pre & c & x & ->).
      rewrite (cl_process_logs_eq _ _ _ _ He).
      destruct (str_eqb (strip x) sentinel); [|now left].
      destruct (py_int (strip c)) as [n|]; [|now left].
      destruct (len pre - n <? 0); [now left |].
      right. left. eexists _, _. apply cl_assemble_eq.
  - right. right. split; [reflexivity |].
    now apply cl_process_logs_unprintable.
Qed.




(** After the loop, ["Number"] holds a dict that is not empty. *)
Lemma fed_number_dict (w : list pystr) (marker : pystr) :
  exists d, fed (lit "Number") w (PyDict [(k_Number, PyStr marker)]) = PyDict d
            /\ d <> [].
Proof.
  unfold fed. destruct (last_fed (lit "Number") w) as [l|] eqn:E.
  - apply last_fed_In in E as [_ E]. unfold feeds in E.
    destruct (line_type l); [|discriminate].
    apply andb_true_iff in E as [_ E].
    exists (line_fields l). split; [reflexivity |].
    destruct (line_fields l); [discriminate E | discriminate].
  - eexists. split; [reflexivity | discriminate].
Qed.




Lemma feeds_wrong_type (t line : pystr) :
  line_type line <> Some t -> feeds t line = false.
Proof.
  unfold feeds. destruct (line_type line) as [t'|]; [|reflexivity].
  intros H. destruct (str_eqb t' t) eqn:E; [|reflexivity].
  apply str_eqb_eq in E. subst. congruence.
Qed.

(** C4.  When no line of the window has the record type ["Number"], the
    ["Number"] of the assembled entry is the dict with the single item that
    maps ["Number"] to the unknown marker (the six letters of [app.py], the
    word [null] of [call_logs.py]).  Every assembled entry has the key
    ["Number"] exactly once, and its value is a dict, never [None]. *)
Theorem C4_number_sentinel (file_name : pystr) (window : list pystr) :
  ((forall l, In l window -> line_type l <> Some (lit "Number")) ->
   (exists e,
      App.assemble file_name window = Ok (PyDict e) /\
      dict_lookup k_Number e =
      Some (PyDict [(k_Number, PyStr App.unknown_marker)])) /\
   (exists e,
      CallLogs.assemble file_name window = Ok (PyDict e) /\
      dict_lookup k_Number e =
      Some (PyDict [(k_Number, PyStr CallLogs.unknown_marker)]))) /\
  (exists e d,
     App.assemble file_name window = Ok (PyDict e) /\
     dict_lookup k_Number e = Some (PyDict d) /\
     List.length (filter (str_eqb k_Number) (keys e)) = 1%nat) /\
  (exists e d,
     CallLogs.assemble file_name window = Ok (PyDict e) /\
     dict_lookup k_Number e = Some (PyDict d) /\
     List.length (filter (str_eqb k_Number) (keys e)) = 1%nat).
Proof.
  rewrite app_assemble_eq, cl_assemble_eq.
  split; [|split].
  - intros H.
    assert (E : last_fed (lit "Number") window = None).
    { apply last_fed_None. intros l Hl. apply feeds_wrong_type. now apply H. }
    split; eexists; (split; [reflexivity |]);
      unfold app_record, cl_record, fed; rewrite E; reflexivity.
  - destruct (fed_number_dict window App.unknown_marker) as (d & Hd & _).
    exists (app_record file_name window), d.
    split; [reflexivity |]. unfold app_record. rewrite Hd.
    split; reflexivity.
  - destruct (fed_number_dict window CallLogs.unknown_marker) as (d & Hd & _).
    exists (cl_record file_name window), d.
    split; [reflexivity |]. unfold cl_record. rewrite Hd.
    split; reflexivity.
Qed.

(** C4 at a window with an Info line and no Number line. *)
Lemma C4_number_sentinel_witness :
  (forall l,
     In l [lit "2024/01/01 10:00:00|Info|Call_Type:voice_call"] ->
     line_type l <> Some (lit "Number")) /\
  exists e,
    App.assemble (lit "a.wav")
      [lit "2024/01/01 10:00:00|Info|Call_Type:voice_call"] = Ok (PyDict e) /\
    dict_lookup k_Number e =
    Some (PyDict [(k_Number, PyStr App.unknown_marker)]).
Proof.
  assert (H : forall l,
             In l [lit "2024/01/01 10:00:00|Info|Call_Type:voice_call"] ->
             line_type l <> Some (lit "Number")).
  { intros l [<-|[]] E. vm_compute in E. discriminate E. }
  split; [exact H |].
  destruct (C4_number_sentinel (lit "a.wav")
              [lit "2024/01/01 10:00:00|Info|Call_Type:voice_call"])
    as (Hs & _).
  exact (proj1 (Hs H)).
Defined.

Lemma app_entry_lookup (a b c d f : pyval) :
  dict_lookup (lit "Info") (app_entry a b c d f) = Some b /\
  dict_lookup (lit "Number") (app_entry a b c d f) = Some d /\
  dict_lookup (lit "CallWindow") (app_entry a b c d f) = Some f.
Proof. repeat split; reflexivity. Qed.

Lemma cl_entry_lookup (a b d f : pyval) :
  dict_lookup (lit "Info") (cl_entry a b d f) = Some b /\
  dict_lookup (lit "Number") (cl_entry a b d f) = Some d /\
  dict_lookup (lit "CallWindow") (cl_entry a b d f) = Some f.
Proof. repeat split; reflexivity. Qed.

Lemma feeds_true (t line : pystr) :
  feeds t line = true <->
  line_type line = Some t /\
  exists d, parse_log_line (strip line) = Ok (PyDict d) /\ d <> [].
Proof.
  unfold feeds. split.
  - destruct (line_type line) as [t'|] eqn:Et; [|discriminate].
    intros H. apply andb_true_iff in H as [H1 H2].
    apply str_eqb_eq in H1. subst t'. split; [reflexivity |].
    exists (line_fields line). split; [exact (line_fields_parse line t Et) |].
    destruct (line_fields line); [discriminate H2 | discriminate].
  - intros (Et & d & Hp & Hd). rewrite Et, str_eqb_refl.
    rewrite (line_fields_parse line t Et) in Hp. inversion Hp as [Hf].
    rewrite Hf. destruct d; [congruence | reflexivity].
Qed.

Lemma feeds_fields (t line : pystr) (d : dict) :
  line_type line = Some t ->
  parse_log_line (strip line) = Ok (PyDict d) ->
  line_fields line = d.
Proof.
  intros Et Hp. rewrite (line_fields_parse line t Et) in Hp.
  now inversion Hp.
Qed.

(** C9, as stated, fails when the last line of a record type has no field:
    of two Number lines, the second parses to the empty FieldMap and is
    skipped, and the entry keeps the FieldMap of the first one. *)
Lemma C9_last_line_without_fields :
  line_type (lit "d|Number|Number:1") = Some (lit "Number") /\
  line_type (lit "d|Number|x") = Some (lit "Number") /\
  parse_log_line (strip (lit "d|Number|x")) = Ok (PyDict []) /\
  App.assemble (lit "a.wav") [lit "d|Number|Number:1"; lit "d|Number|x"] =
  Ok (PyDict
        [(k_FileName, PyStr (lit "a.wav")); (k_Info, PyNone);
         (k_Info_line, PyNone);
         (k_Number, PyDict [(lit "Number", PyStr (lit "1"))]);
         (k_CallWindow, PyNone)]) /\
  CallLogs.assemble (lit "a.wav") [lit "d|Number|Number:1"; lit "d|Number|x"] =
  Ok (PyDict
        [(k_FileName, PyStr (lit "a.wav")); (k_Info, PyNone);
         (k_Number, PyDict [(lit "Number", PyStr (lit "1"))]);
         (k_CallWindow, PyNone)]).
Proof. repeat split; vm_compute; reflexivity. Qed.

(** C9, amended.  Among the lines of one record type ("Info", "Number" or
    "CallWindow") that have at least one field, the last one in window order
    wins: if line [l] has type [t] and the FieldMap [d], not empty, and every
    later line of type [t] has no field, the entry holds [d] under [t]
    whatever the earlier lines are.  In [app.py] an Info line also sets
    ["Info_line"] to its trimmed text; in [call_logs.py] the value of
    ["Info"] is [d] with ["Date"] and ["RawLine"] added. *)
Theorem C9_last_line_with_fields_wins
    (file_name : pystr) (w1 : list pystr) (l : pystr) (w2 : list pystr)
    (t : pystr) (d : dict) :
  In t record_types ->
  line_type l = Some t ->
  parse_log_line (strip l) = Ok (PyDict d) ->
  d <> [] ->
  (forall l', In l' w2 -> line_type l' = Some t ->
              parse_log_line (strip l') = Ok (PyDict [])) ->
  (exists e,
     App.assemble file_name (w1 ++ l :: w2) = Ok (PyDict e) /\
     dict_lookup t e = Some (PyDict d) /\
     (t = lit "Info" -> dict_lookup k_Info_line e = Some (PyStr (strip l)))) /\
  (exists e,
     CallLogs.assemble file_name (w1 ++ l :: w2) = Ok (PyDict e) /\
     dict_lookup t e =
     Some (if str_eqb t (lit "Info")
           then PyDict (dict_set k_RawLine (PyStr (strip l))
                          (dict_set k_Date (PyStr (line_date l)) d))
           else PyDict d)).
Proof.
  intros Ht Et Hp Hd Hw2.
  assert (Hl : feeds t l = true)
    by (apply feeds_true; split; [exact Et | exists d; auto]).
  assert (Hlater : forall l', In l' w2 -> feeds t l' = false).
  { intros l' Hin. destruct (feeds t l') eqn:E; [|reflexivity].
    apply feeds_true in E as (Et' & d' & Hp' & Hd').
    rewrite (Hw2 l' Hin Et') in Hp'. inversion Hp'. congruence. }
  pose proof (last_fed_split t l w1 w2 Hl Hlater) as Hlast.
  pose proof (feeds_fields t l d Et Hp) as Hf.
  rewrite app_assemble_eq, cl_assemble_eq.
  split; eexists; (split; [reflexivity |]);
    unfold app_record, cl_record, fed, cl_info;
    destruct Ht as [<-|[<-|[<-|[]]]]; rewrite Hlast, Hf;
    try (split; [reflexivity |]); try reflexivity;
    intros E; try reflexivity; vm_compute in E; discriminate E.
Qed.

(** C9 at a window of two Number lines with fields: the entry holds the
    FieldMap of the second. *)
Lemma C9_last_line_with_fields_wins_witness :
  In (lit "Number") record_types /\
  line_type (lit "d|Number|Number:2") = Some (lit "Number") /\
  parse_log_line (strip (lit "d|Number|Number:2")) =
    Ok (PyDict [(lit "Number", PyStr (lit "2"))]) /\
  exists e,
    App.assemble (lit "a.wav")
      ([lit "d|Number|Number:1"] ++ lit "d|Number|Number:2" :: []) =
    Ok (PyDict e) /\
    dict_lookup (lit "Number") e =
    Some (PyDict [(lit "Number", PyStr (lit "2"))]).
Proof.
  assert (H1 : In (lit "Number") record_types) by (right; left; reflexivity).
  assert (H2 : line_type (lit "d|Number|Number:2") = Some (lit "Number"))
    by (vm_compute; reflexivity).
  assert (H3 : parse_log_line (strip (lit "d|Number|Number:2")) =
               Ok (PyDict [(lit "Number", PyStr (lit "2"))]))
    by (vm_compute; reflexivity).
  split; [exact H1 |]. split; [exact H2 |]. split; [exact H3 |].
  destruct (C9_last_line_with_fields_wins (lit "a.wav")
              [lit "d|Number|Number:1"] (lit "d|Number|Number:2") []
              (lit "Number") [(lit "Number", PyStr (lit "2"))]
              H1 H2 H3 ltac:(discriminate) ltac:(intros l' []))
    as ((e & He & Hn & _) & _).
  exists e. split; assumption.
Defined.

(** C5, as stated, fails: an Info line of three segments without a
    [key:value] field parses to the empty FieldMap, and the assembler skips
    it; ["Info"] stays [None] and is not set to the empty FieldMap. *)
Lemma C5_line_without_fields_is_skipped :
  line_type (lit "2024/01/01 10:00:00|Info|voice") = Some (lit "Info") /\
  parse_log_line (strip (lit "2024/01/01 10:00:00|Info|voice")) =
    Ok (PyDict []) /\
  App.assemble (lit "a.wav") [lit "2024/01/01 10:00:00|Info|voice"] =
  Ok (PyDict
        [(k_FileName, PyStr (lit "a.wav")); (k_Info, PyNone);
         (k_Info_line, PyNone);
         (k_Number, PyDict [(k_Number, PyStr App.unknown_marker)]);
         (k_CallWindow, PyNone)]) /\
  CallLogs.assemble (lit "a.wav") [lit "2024/01/01 10:00:00|Info|voice"] =
  Ok (PyDict
        [(k_FileName, PyStr (lit "a.wav")); (k_Info, PyNone);
         (k_Number, PyDict [(k_Number, PyStr CallLogs.unknown_marker)]);
         (k_CallWindow, PyNone)]).
Proof. repeat split; vm_compute; reflexivity. Qed.

(** C5, amended.  The assembler skips a window line when the field parser
    yields [None] or the empty FieldMap (the test is [not parsed]): the
    entry is left as it was.  Hence no key of an assembled entry ever holds
    the empty FieldMap. *)
Theorem C5_line_without_fields_skipped (db_entry : dict) (line : pystr) :
  (parse_log_line (strip line) = Ok PyNone \/
   parse_log_line (strip line) = Ok (PyDict []) ->
   App.process_line db_entry line = Ok db_entry /\
   CallLogs.process_line db_entry line = Ok db_entry) /\
  (forall file_name window t,
     In t record_types ->
     (forall e, App.assemble file_name window = Ok (PyDict e) ->
                dict_lookup t e <> Some (PyDict [])) /\
     (forall e, CallLogs.assemble file_name window = Ok (PyDict e) ->
                dict_lookup t e <> Some (PyDict []))).
Proof.
  split.
  - intros H. unfold App.process_line, CallLogs.process_line. cbv zeta.
    destruct (line_type line) as [t|] eqn:Et.
    + pose proof (line_fields_parse line t Et) as Hp.
      assert (Hf : line_fields line = []).
      { destruct H as [H|H]; rewrite H in Hp; [discriminate |].
        now inversion Hp. }
      rewrite Hp, Hf. unfold line_type in Et.
      destruct (str_split pipe (-1) (strip line)) as [|p0 [|p1 rest]];
        [discriminate | discriminate |].
      rewrite len_two_or_more.
      rewrite (list_getitem_nth (p0 :: p1 :: rest) 1 p1) by (lia || reflexivity).
      split; reflexivity.
    + unfold line_type in Et.
      pose proof (str_split_not_nil pipe (strip line) (-1)) as Hnn.
      destruct (str_split pipe (-1) (strip line)) as [|p0 [|p1 rest]];
        [congruence | split; reflexivity | discriminate].
  - intros file_name window t Ht.
    rewrite app_assemble_eq, cl_assemble_eq.
    assert (Hfed : forall before, before <> PyDict [] ->
                                  fed t window before <> PyDict []).
    { intros before Hb. unfold fed.
      destruct (last_fed t window) as [l|] eqn:E; [|exact Hb].
      apply last_fed_In in E as [_ E].
      apply feeds_true in E as (Et & d & Hp & Hd).
      rewrite (feeds_fields t l d Et Hp). congruence. }
    split; intros e He; inversion He; subst e; intros Hq.
    + unfold app_record in Hq.
      destruct Ht as [<-|[<-|[<-|[]]]];
        (rewrite (proj1 (app_entry_lookup _ _ _ _ _)) in Hq
         || rewrite (proj1 (proj2 (app_entry_lookup _ _ _ _ _))) in Hq
         || rewrite (proj2 (proj2 (app_entry_lookup _ _ _ _ _))) in Hq);
        injection Hq as Hq; revert Hq; apply Hfed; discriminate.
    + unfold cl_record in Hq.
      destruct Ht as [<-|[<-|[<-|[]]]];
        (rewrite (proj1 (cl_entry_lookup _ _ _ _)) in Hq
         || rewrite (proj1 (proj2 (cl_entry_lookup _ _ _ _))) in Hq
         || rewrite (proj2 (proj2 (cl_entry_lookup _ _ _ _))) in Hq);
        injection Hq as Hq; revert Hq; try (apply Hfed; discriminate).
      destruct (last_fed (lit "Info") window); [|discriminate].
      unfold cl_info. intros Hq. injection Hq as Hq.
      exact (dict_set_not_nil _ _ _ Hq).
Qed.

(** C5 at the Info line without fields: the loop body returns the entry it
    was given. *)
Lemma C5_line_without_fields_skipped_witness :
  parse_log_line (strip (lit "2024/01/01 10:00:00|Info|voice")) =
    Ok (PyDict []) /\
  App.process_line (App.new_entry (lit "a.wav"))
    (lit "2024/01/01 10:00:00|Info|voice") =
  Ok (App.new_entry (lit "a.wav")).
Proof.
  assert (H : parse_log_line (strip (lit "2024/01/01 10:00:00|Info|voice")) =
              Ok (PyDict [])) by (vm_compute; reflexivity).
  split; [exact H |].
  exact (proj1 (proj1 (C5_line_without_fields_skipped
                         (App.new_entry (lit "a.wav"))
                         (lit "2024/01/01 10:00:00|Info|voice"))
                  (or_intror H))).
Defined.

(** C7, as stated, fails on [call_logs.py]: its entry has no ["Info_line"],
    and its ["Info"] holds ["Date"] and ["RawLine"] besides the one field
    parsed from the Info line. *)
Lemma C7_call_logs_entry_differs :
  parse_log_line (lit "2024/01/01 10:00:00|Info|Number:123") =
    Ok (PyDict [(lit "Number", PyStr (lit "123"))]) /\
  CallLogs.process_logs
    [lit "2024/01/01 10:00:00|Info|Number:123"; lit "1"; lit "Telsa64"]
    (lit "a.wav") =
  Ok (PyDict
        [(lit "FileName", PyStr (lit "a.wav"));
         (lit "Info",
          PyDict [(lit "Number", PyStr (lit "123"));
                  (lit "Date", PyStr (lit "2024/01/01 10:00:00"));
                  (lit "RawLine",
                   PyStr (lit "2024/01/01 10:00:00|Info|Number:123"))]);
         (lit "Number", PyDict [(lit "Number", PyStr (lit "null"))]);
         (lit "CallWindow", PyNone)]).
Proof. split; vm_compute; reflexivity. Qed.

(** C7, amended.  An entry that [process_logs] of [app.py] returns has
    exactly the keys FileName, Info, Info_line, Number and CallWindow, in
    this order: FileName is the file name; Info and Info_line are both
    [None], or Info is the FieldMap the field parser returns for one Info
    line of the input and Info_line is the trimmed text of that line; Number
    is a dict that is not empty; CallWindow is [None] or a dict.
    An entry that [process_logs] of [call_logs.py] returns has exactly the
    keys FileName, Info, Number and CallWindow: there is no Info_line, and
    Info, when it is not [None], is the FieldMap of an Info line with
    ["Date"] (the first segment) and ["RawLine"] (the trimmed line)
    assigned into it. *)
Theorem C7_entry_fields (lines : list pystr) (file_name : pystr) :
  (forall e,
     App.process_logs lines file_name = Ok (PyDict e) ->
     exists info info_line d call_window,
       e = [(k_FileName, PyStr file_name); (k_Info, info);
            (k_Info_line, info_line); (k_Number, PyDict d);
            (k_CallWindow, call_window)] /\
       ((info = PyNone /\ info_line = PyNone) \/
        (exists l fields,
           In l lines /\ line_type l = Some (lit "Info") /\
           parse_log_line (strip l) = Ok (PyDict fields) /\
           info = PyDict fields /\ info_line = PyStr (strip l))) /\
       d <> [] /\
       (call_window = PyNone \/ is_dict call_window = true)) /\
  (forall e,
     CallLogs.process_logs lines file_name = Ok (PyDict e) ->
     exists info d call_window,
       e = [(k_FileName, PyStr file_name); (k_Info, info);
            (k_Number, PyDict d); (k_CallWindow, call_window)] /\
       (info = PyNone \/
        (exists l fields,
           In l lines /\ line_type l = Some (lit "Info") /\
           parse_log_line (strip l) = Ok (PyDict fields) /\
           info = PyDict (dict_set k_RawLine (PyStr (strip l))
                            (dict_set k_Date (PyStr (line_date l)) fields)))) /\
       d <> [] /\
       (call_window = PyNone \/ is_dict call_window = true)).
Proof.
  split; intros e He.
  - destruct (app_process_logs_cases lines file_name)
      as [H|[(start & stop & H)|[_ H]]]; [congruence | | congruence].
    rewrite H in He. inversion He; subst e. clear He H.
    set (w := list_slice lines start stop).
    destruct (fed_number_dict w App.unknown_marker) as (d & Hd & Hne).
    unfold app_record, app_entry. rewrite Hd.
    eexists _, _, d, _. split; [reflexivity |].
    split; [|split; [exact Hne |]].
    + unfold fed. destruct (last_fed (lit "Info") w) as [l|] eqn:E;
        [right | left; auto].
      apply last_fed_In in E as [Hin E].
      apply feeds_true in E as (Et & fields & Hp & _).
      exists l, fields. split; [exact (list_slice_In _ _ _ _ Hin) |].
      split; [exact Et |]. split; [exact Hp |].
      now rewrite (feeds_fields _ l fields Et Hp).
    + unfold fed. destruct (last_fed (lit "CallWindow") w); auto.
  - destruct (cl_process_logs_cases lines file_name)
      as [H|[(start & stop & H)|[_ H]]]; [congruence | | congruence].
    rewrite H in He. inversion He; subst e. clear He H.
    set (w := list_slice lines start stop).
    destruct (fed_number_dict w CallLogs.unknown_marker) as (d & Hd & Hne).
    unfold cl_record, cl_entry. rewrite Hd.
    eexists _, d, _. split; [reflexivity |].
    split; [|split; [exact Hne |]].
    + destruct (last_fed (lit "Info") w) as [l|] eqn:E; [right | left; auto].
      apply last_fed_In in E as [Hin E].
      apply feeds_true in E as (Et & fields & Hp & _).
      exists l, fields. split; [exact (list_slice_In _ _ _ _ Hin) |].
      split; [exact Et |]. split; [exact Hp |].
      unfold cl_info. now rewrite (feeds_fields _ l fields Et Hp).
    + unfold fed. destruct (last_fed (lit "CallWindow") w); auto.
Qed.

(** C7 at a trailer of one Info line: the entry of [app.py]. *)
Lemma C7_entry_fields_witness :
  App.process_logs
    [lit "2024/01/01 10:00:00|Info|Number:123"; lit "1"; lit "Telsa64"]
    (lit "a.wav") =
  Ok (PyDict
        [(lit "FileName", PyStr (lit "a.wav"));
         (lit "Info", PyDict [(lit "Number", PyStr (lit "123"))]);
         (lit "Info_line", PyStr (lit "2024/01/01 10:00:00|Info|Number:123"));
         (lit "Number", PyDict [(lit "Number", PyStr App.unknown_marker)]);
         (lit "CallWindow", PyNone)]) /\
  exists info info_line d call_window,
    [(lit "FileName", PyStr (lit "a.wav"));
     (lit "Info", PyDict [(lit "Number", PyStr (lit "123"))]);
     (lit "Info_line", PyStr (lit "2024/01/01 10:00:00|Info|Number:123"));
     (lit "Number", PyDict [(lit "Number", PyStr App.unknown_marker)]);
     (lit "CallWindow", PyNone)] =
    [(k_FileName, PyStr (lit "a.wav")); (k_Info, info);
     (k_Info_line, info_line); (k_Number, PyDict d);
     (k_CallWindow, call_window)] /\ d <> [].
Proof.
  assert (H : App.process_logs
                [lit "2024/01/01 10:00:00|Info|Number:123"; lit "1";
                 lit "Telsa64"] (lit "a.wav") =
              Ok (PyDict
                    [(lit "FileName", PyStr (lit "a.wav"));
                     (lit "Info", PyDict [(lit "Number", PyStr (lit "123"))]);
                     (lit "Info_line",
                      PyStr (lit "2024/01/01 10:00:00|Info|Number:123"));
                     (lit "Number",
                      PyDict [(lit "Number", PyStr App.unknown_marker)]);
                     (lit "CallWindow", PyNone)]))
    by (vm_compute; reflexivity).
  split; [exact H |].
  destruct (proj1 (C7_entry_fields _ _) _ H)
    as (info & info_line & d & cw & He & _ & Hd & _).
  exists info, info_line, d, cw. split; assumption.
Defined.

(* ------------------------------------------------------------------ *)
(** ** The record store writer *)
(* ------------------------------------------------------------------ *)

(** Only a string equals a string. *)
Lemma py_eq_str (v : pyval) (s : pystr) :
  py_eq v (PyStr s) =
  match v with
  | PyStr t => str_eqb t s
  | _ => false
  end.
Proof. destruct v; reflexivity. Qed.

(** When a stored item carries the name of the new entry, the search for a
    duplicate says yes, or raises at an earlier item that is no dict; it
    never says no. *)
Lemma any_same_file_found (db_entry : pyval) (name : pystr)
    (items : list pyval) :
  py_get db_entry k_FileName = Ok (PyStr name) ->
  (exists item, In item items /\ py_get item k_FileName = Ok (PyStr name)) ->
  App.any_same_file db_entry items <> Ok false.
Proof.
  intros Hn (item & Hin & Hi).
  induction items as [|x items IH]; [destruct Hin |].
  cbn [App.any_same_file]. destruct Hin as [->|Hin].
  - rewrite Hi, Hn. cbn [bind]. rewrite py_eq_str, str_eqb_refl. discriminate.
  - destruct (py_get x k_FileName) as [v|]; cbn [bind]; [|discriminate].
    rewrite Hn. cbn [bind]. destruct (py_eq v (PyStr name)); [discriminate |].
    now apply IH.
Qed.

(** In a store of dicts none of which carries the name, the search says
    no. *)
Lemma any_same_file_fresh (db_entry : pyval) (name : pystr)
    (items : list pyval) :
  py_get db_entry k_FileName = Ok (PyStr name) ->
  Forall (fun item => is_dict item = true) items ->
  entries_named name items = [] ->
  App.any_same_file db_entry items = Ok false.
Proof.
  intros Hn Hd. induction Hd as [|x items Hx Hd IH]; intros He;
    [reflexivity |].
  cbn [App.any_same_file]. destruct x as [| | | | | |d]; try discriminate Hx.
  cbn [py_get bind]. rewrite Hn. cbn [bind]. rewrite py_eq_str.
  cbn [entries_named filter] in He.
  destruct (dict_lookup k_FileName d) as [[| | | |s| |]|];
    try (apply IH; exact He).
  destruct (str_eqb s name); [discriminate He | apply IH; exact He].
Qed.

(** The [try] block of [save_to_json] returns nothing but [None]. *)
Lemma app_save_body_value (io : faults) (db_entry : pyval)
    (disk disk' : file_state) (v : pyval) :
  App.save_body io db_entry disk = (disk', Ok v) -> v = PyNone.
Proof.
  unfold App.save_body, fs_bind, fs_lift, dump_json. intros E.
  break_tests E; inversion E; reflexivity.
Qed.


(** [save_to_json] of [app.py] returns [None] and leaves the store as its
    [try] block left it: the handler only prints. *)
Lemma app_save_returns (io : faults) (db_entry : pyval) (disk : file_state) :
  App.save_to_json io db_entry disk =
  (fst (App.save_body io db_entry disk), Ok PyNone).
Proof.
  unfold App.save_to_json, fs_try.
  destruct (App.save_body io db_entry disk) as [disk' [v|e]] eqn:E.
  - now rewrite (app_save_body_value _ _ _ _ _ E).
  - unfold fs_bind, fs_lift, print_error. now rewrite print_lit.
Qed.


(** The store after the [try] block of [app.py] on a store list that has
    no entry of the new name, and on a store that does not exist: what the
    write leaves. *)
Lemma app_save_body_fresh (io : faults) (db_entry : pyval) (name : pystr)
    (items : list pyval) :
  py_get db_entry k_FileName = Ok (PyStr name) ->
  Forall (fun item => is_dict item = true) items ->
  entries_named name items = [] ->
  fst (App.save_body io db_entry (Json (PyList items))) =
  if open_read_fails io then Json (PyList items)
  else fst (dump_json false io (Json (PyList items))
              (PyList (items ++ [db_entry]))).
Proof.
  intros Hn Hd He.
  unfold App.save_body, fs_bind, fs_lift, load_json. cbn [path_exists].
  destruct (open_read_fails io); [reflexivity |].
  cbn [py_iter bind].
  rewrite (any_same_file_fresh db_entry name items Hn Hd He).
  cbn [negb py_append].
  destruct (dump_json false io (Json (PyList items))
              (PyList (items ++ [db_entry]))) as [disk' [[]|e]];
    [|reflexivity].
  destruct (name0 <- py_get db_entry k_FileName ;;
            print_value (lit "[INFO] Saved entry for ") name0);
    reflexivity.
Qed.

Lemma app_save_body_first (io : faults) (db_entry : pyval) :
  fst (App.save_body io db_entry Missing) =
  fst (dump_json false io Missing (PyList [db_entry])).
Proof.
  unfold App.save_body, fs_bind, fs_lift. cbn [path_exists].
  cbn [py_iter bind App.any_same_file negb py_append app].
  destruct (dump_json false io Missing (PyList [db_entry]))
    as [disk' [[]|e]]; [|reflexivity].
  destruct (name0 <- py_get db_entry k_FileName ;;
            print_value (lit "[INFO] Saved entry for ") name0);
    reflexivity.
Qed.

(** The write of [app.py] with no failure of the file system. *)
Lemma dump_json_no_faults (disk : file_state) (db : pyval) :
  fst (dump_json false no_faults disk db) =
  if has_surrogate db then Garbage else Json db.
Proof.
  unfold dump_json.
  cbn [no_faults open_write_fails dump_fails negb andb].
  destruct (has_surrogate db); reflexivity.
Qed.

(** [save_to_json] of [app.py] on a store that already has an entry of the
    same name: the file is not touched, whatever the environment does. *)
Theorem app_save_duplicate_unchanged (io : faults) (db_entry : pyval)
    (name : pystr) (items : list pyval) :
  py_get db_entry k_FileName = Ok (PyStr name) ->
  (exists item, In item items /\ py_get item k_FileName = Ok (PyStr name)) ->
  App.save_to_json io db_entry (Json (PyList items)) =
  (Json (PyList items), Ok PyNone).
Proof.
  intros Hn Hex.
  pose proof (any_same_file_found db_entry name items Hn Hex) as Hne.
  rewrite app_save_returns. f_equal.
  unfold App.save_body, fs_bind, fs_lift, load_json. cbn [path_exists].
  destruct (open_read_fails io); [reflexivity |].
  cbn [py_iter bind].
  destruct (App.any_same_file db_entry items) as [[|]|]; try reflexivity.
  congruence.
Qed.

(** [save_to_json] of [app.py] with a name the store does not have, no
    surrogate in the store or the entry, and no failure of the file system:
    the entry goes to the end of the list. *)
Theorem app_save_fresh (db_entry : pyval) (name : pystr)
    (items : list pyval) :
  py_get db_entry k_FileName = Ok (PyStr name) ->
  Forall (fun item => is_dict item = true) items ->
  entries_named name items = [] ->
  has_surrogate (PyList (items ++ [db_entry])) = false ->
  App.save_to_json no_faults db_entry (Json (PyList items)) =
  (Json (PyList (items ++ [db_entry])), Ok PyNone).
Proof.
  intros Hn Hd He Hs.
  rewrite app_save_returns, (app_save_body_fresh _ _ name) by assumption.
  cbn [no_faults open_read_fails]. now rewrite dump_json_no_faults, Hs.
Qed.

(** With a surrogate in the store or in the entry the write fails, and the
    store is cut off. *)
Theorem app_save_fresh_surrogate (db_entry : pyval) (name : pystr)
    (items : list pyval) :
  py_get db_entry k_FileName = Ok (PyStr name) ->
  Forall (fun item => is_dict item = true) items ->
  entries_named name items = [] ->
  has_surrogate (PyList (items ++ [db_entry])) = true ->
  App.save_to_json no_faults db_entry (Json (PyList items)) =
  (Garbage, Ok PyNone).
Proof.
  intros Hn Hd He Hs.
  rewrite app_save_returns, (app_save_body_fresh _ _ name) by assumption.
  cbn [no_faults open_read_fails]. now rewrite dump_json_no_faults, Hs.
Qed.

(** Appending the same entry twice with [app.py]: the store gets it once. *)
Theorem app_save_twice (db_entry : pyval) (name : pystr)
    (items : list pyval) :
  py_get db_entry k_FileName = Ok (PyStr name) ->
  Forall (fun item => is_dict item = true) items ->
  entries_named name items = [] ->
  has_surrogate (PyList (items ++ [db_entry])) = false ->
  exists disk1,
    App.save_to_json no_faults db_entry (Json (PyList items)) =
    (disk1, Ok PyNone) /\
    App.save_to_json no_faults db_entry disk1 =
    (Json (PyList (items ++ [db_entry])), Ok PyNone) /\
    entries_named name (items ++ [db_entry]) = [db_entry].
Proof.
  intros Hn Hd He Hs. exists (Json (PyList (items ++ [db_entry]))).
  split; [now apply (app_save_fresh db_entry name) |].
  split.
  - apply (app_save_duplicate_unchanged _ _ name); [exact Hn |].
    exists db_entry. split; [apply in_or_app; right; now left | exact Hn].
  - unfold entries_named in *. rewrite filter_app, He. cbn [filter app].
    destruct db_entry as [| | | | | |d]; try discriminate Hn.
    cbn [py_get] in Hn.
    destruct (dict_lookup k_FileName d) as [v|]; [|discriminate Hn].
    inversion Hn; subst v. now rewrite str_eqb_refl.
Qed.

(** The entry that [process_logs] of [app.py] returns carries the file
    name. *)
Lemma app_entry_file_name (lines : list pystr) (file_name : pystr) (e : dict) :
  App.process_logs lines file_name = Ok (PyDict e) ->
  py_get (PyDict e) k_FileName = Ok (PyStr file_name) /\
  truthy (PyDict e) = true.
Proof.
  intros He.
  destruct (app_process_logs_cases lines file_name)
    as [H|[(start & stop & H)|[_ H]]]; [congruence | | congruence].
  rewrite H in He. inversion He. split; reflexivity.
Qed.

(** [process_file] of [app.py] for a file whose lines give an entry, on a
    store of entries of other names, with no surrogate in the store or the
    entry and no failure of the file system: the entry that [process_logs]
    built is what the store gets, at its end. *)
Theorem app_process_file_stores_entry (lines : list pystr)
    (file_name : pystr) (e : dict) (items : list pyval) :
  App.process_logs lines file_name = Ok (PyDict e) ->
  Forall (fun item => is_dict item = true) items ->
  entries_named file_name items = [] ->
  has_surrogate (PyList (items ++ [PyDict e])) = false ->
  App.process_file no_faults lines file_name (Json (PyList items)) =
  (Json (PyList (items ++ [PyDict e])), Ok PyNone).
Proof.
  intros He Hd Hn Hs.
  destruct (app_entry_file_name _ _ _ He) as [Hf Ht].
  unfold App.process_file, fs_bind, fs_lift. rewrite He, Ht.
  now rewrite (app_save_fresh (PyDict e) file_name items).
Qed.



(** C2 on [call_logs.py]: the store holds the entry of [a.wav]; appending
    the entry of [a.wav] again gives a store with two entries of that name,
    where [app.py] leaves the store as it is. *)
Theorem C2_call_logs_appends_duplicate :
  CallLogs.process_logs
    [lit "d|Number|Number:0912"; lit "1"; lit "Telsa64"] (lit "a.wav") =
  Ok (PyDict (cl_entry (PyStr (lit "a.wav")) PyNone
                (PyDict [(lit "Number", PyStr (lit "0912"))]) PyNone)) /\
  CallLogs.save_to_json no_faults
    (PyDict (cl_entry (PyStr (lit "a.wav")) PyNone
               (PyDict [(lit "Number", PyStr (lit "0912"))]) PyNone))
    (Json (PyList
             [PyDict (cl_entry (PyStr (lit "a.wav")) PyNone
                        (PyDict [(lit "Number", PyStr (lit "0912"))]) PyNone)])) =
  (Json (PyList
           [PyDict (cl_entry (PyStr (lit "a.wav")) PyNone
                      (PyDict [(lit "Number", PyStr (lit "0912"))]) PyNone);
            PyDict (cl_entry (PyStr (lit "a.wav")) PyNone
                      (PyDict [(lit "Number", PyStr (lit "0912"))]) PyNone)]),
   Ok PyNone) /\
  List.length
    (entries_named (lit "a.wav")
       [PyDict (cl_entry (PyStr (lit "a.wav")) PyNone
                  (PyDict [(lit "Number", PyStr (lit "0912"))]) PyNone);
        PyDict (cl_entry (PyStr (lit "a.wav")) PyNone
                  (PyDict [(lit "Number", PyStr (lit "0912"))]) PyNone)]) =
  2%nat /\
  App.save_to_json no_faults
    (PyDict (cl_entry (PyStr (lit "a.wav")) PyNone
               (PyDict [(lit "Number", PyStr (lit "0912"))]) PyNone))
    (Json (PyList
             [PyDict (cl_entry (PyStr (lit "a.wav")) PyNone
                        (PyDict [(lit "Number", PyStr (lit "0912"))]) PyNone)])) =
  (Json (PyList
           [PyDict (cl_entry (PyStr (lit "a.wav")) PyNone
                      (PyDict [(lit "Number", PyStr (lit "0912"))]) PyNone)]),
   Ok PyNone).
Proof. repeat split; vm_compute; reflexivity. Qed.




(* ================================================================== *)
(** * The line decoder *)
(* ================================================================== *)

(** One step of the decoder: the sequence at the head, or one byte
    dropped. *)
Lemma utf8_decode_step (b0 : N) (r0 : list N) :
  utf8_decode_ignore (b0 :: r0) =
  match utf8_first (b0 :: r0) with
  | Some (c, rest) => c :: utf8_decode_ignore rest
  | None => utf8_decode_ignore r0
  end.
Proof.
  cbn [utf8_decode_ignore utf8_first].
  destruct (b0 <? 0x80)%N; [reflexivity |].
  destruct ((0xC2 <=? b0) && (b0 <=? 0xDF))%N.
  { destruct r0 as [|b1 r1]; [reflexivity |].
    destruct (is_cont b1); reflexivity. }
  destruct ((0xE0 <=? b0) && (b0 <=? 0xEF))%N.
  { destruct r0 as [|b1 [|b2 r2]]; try reflexivity.
    destruct (second_of_three b0 b1 && is_cont b2); reflexivity. }
  destruct ((0xF0 <=? b0) && (b0 <=? 0xF4))%N; [|reflexivity].
  destruct r0 as [|b1 [|b2 [|b3 r3]]]; try reflexivity.
  destruct (second_of_four b0 b1 && is_cont b2 && is_cont b3); reflexivity.
Qed.

Lemma utf8_decode_first (data rest : list N) (c : char) :
  utf8_first data = Some (c, rest) ->
  utf8_decode_ignore data = c :: utf8_decode_ignore rest.
Proof.
  destruct data as [|b0 r0]; [discriminate |].
  intros H. now rewrite utf8_decode_step, H.
Qed.

(** The decoder accepts the encoding of a scalar value, and nothing else:
    what it takes from the head of the data are the UTF-8 bytes of the code
    point it gives. *)
Lemma utf8_first_sound (data rest : list N) (c : char) :
  utf8_first data = Some (c, rest) ->
  is_scalar c = true /\ data = utf8_encode_char c ++ rest.
Proof.
  unfold utf8_first, is_cont, second_of_three, second_of_four.
  destruct data as [|b0 r0]; [discriminate |].
  destruct (N.ltb_spec b0 0x80).
  { intros E. inversion E; subst. unfold is_scalar, utf8_encode_char.
    split; settle_tests; reflexivity. }
  destruct ((0xC2 <=? b0) && (b0 <=? 0xDF))%N eqn:E2.
  { apply andb_true_iff in E2 as [Ea Eb].
    apply N.leb_le in Ea, Eb.
    destruct r0 as [|b1 r1]; [discriminate |].
    destruct ((0x80 <=? b1) && (b1 <=? 0xBF))%N eqn:E1; [|discriminate].
    apply andb_true_iff in E1 as [Ec Ed]. apply N.leb_le in Ec, Ed.
    intros E. inversion E; subst. unfold is_scalar, utf8_encode_char.
    split; settle_tests; try reflexivity.
    cbn [app]. repeat f_equal; div_lia. }
  destruct ((0xE0 <=? b0) && (b0 <=? 0xEF))%N eqn:E3.
  { apply andb_true_iff in E3 as [Ea Eb].
    apply N.leb_le in Ea, Eb.
    destruct r0 as [|b1 [|b2 r2]]; try discriminate.
    destruct ((((if (b0 =? 0xE0)%N then 0xA0 else 0x80) <=? b1) &&
               (b1 <=? (if (b0 =? 0xED)%N then 0x9F else 0xBF)))%N &&
              ((0x80 <=? b2) && (b2 <=? 0xBF))%N) eqn:E1; [|discriminate].
    apply andb_true_iff in E1 as [E1 E1'].
    apply andb_true_iff in E1 as [Ec Ed], E1' as [Ee Ef].
    apply N.leb_le in Ec, Ed, Ee, Ef.
    intros E. inversion E; subst. clear E.
    destruct (N.eqb_spec b0 0xE0), (N.eqb_spec b0 0xED);
      unfold is_scalar, utf8_encode_char;
      (split; settle_tests; try reflexivity;
       cbn [app]; repeat f_equal; div_lia). }
  destruct ((0xF0 <=? b0) && (b0 <=? 0xF4))%N eqn:E4; [|discriminate].
  apply andb_true_iff in E4 as [Ea Eb].
  apply N.leb_le in Ea, Eb.
  destruct r0 as [|b1 [|b2 [|b3 r3]]]; try discriminate.
  destruct ((((if (b0 =? 0xF0)%N then 0x90 else 0x80) <=? b1) &&
             (b1 <=? (if (b0 =? 0xF4)%N then 0x8F else 0xBF)))%N &&
            ((0x80 <=? b2) && (b2 <=? 0xBF))%N &&
            ((0x80 <=? b3) && (b3 <=? 0xBF))%N) eqn:E1; [|discriminate].
  apply andb_true_iff in E1 as [E1 E1''].
  apply andb_true_iff in E1 as [E1 E1'].
  apply andb_true_iff in E1 as [Ec Ed], E1' as [Ee Ef], E1'' as [Eg Eh].
  apply N.leb_le in Ec, Ed, Ee, Ef, Eg, Eh.
  intros E. inversion E; subst. clear E.
  destruct (N.eqb_spec b0 0xF0), (N.eqb_spec b0 0xF4);
    unfold is_scalar, utf8_encode_char;
    (split; settle_tests; try reflexivity;
     cbn [app]; repeat f_equal; div_lia).
Qed.

(** The decoder takes the encoding of every scalar value. *)
Lemma utf8_first_encode (c : char) (rest : list N) :
  is_scalar c = true ->
  utf8_first (utf8_encode_char c ++ rest) = Some (c, rest).
Proof.
  unfold is_scalar. intros Hc.
  assert (Hs : (c < 0xD800 \/ 0xDFFF < c <= 0x10FFFF)%N).
  { apply orb_true_iff in Hc as [Hc|Hc]; [left; now apply N.ltb_lt |].
    apply andb_true_iff in Hc as [H1 H2].
    apply N.ltb_lt in H1. apply N.leb_le in H2. right. lia. }
  clear Hc.
  unfold utf8_encode_char.
  destruct (N.ltb_spec c 0x80).
  { cbn [app utf8_first]. settle_tests. reflexivity. }
  destruct (N.ltb_spec c 0x800).
  { cbn [app utf8_first]. unfold is_cont. settle_tests.
    cbn [andb]. repeat f_equal. div_lia. }
  destruct (N.ltb_spec c 0x10000).
  { cbn [app utf8_first]. unfold is_cont, second_of_three. settle_tests;
      cbn [andb]; repeat f_equal; div_lia. }
  cbn [app utf8_first]. unfold is_cont, second_of_four. settle_tests;
    cbn [andb]; repeat f_equal; div_lia.
Qed.

Lemma utf8_encode_char_not_nil (c : char) : utf8_encode_char c <> [].
Proof.
  unfold utf8_encode_char.
  destruct (c <? 0x80)%N; [discriminate |].
  destruct (c <? 0x800)%N; [discriminate |].
  destruct (c <? 0x10000)%N; discriminate.
Qed.

(** A byte below 0x80 after the data is never taken into a sequence that
    starts in the data. *)
Lemma utf8_first_ascii_after (a rest : list N) (b : N) :
  (b < 0x80)%N ->
  a <> [] ->
  utf8_first (a ++ b :: rest) =
  match utf8_first a with
  | Some (c, r) => Some (c, r ++ b :: rest)
  | None => None
  end.
Proof.
  intros Hb Ha.
  assert (Hc : is_cont b = false).
  { unfold is_cont. settle_tests; reflexivity. }
  assert (H3 : forall b0, second_of_three b0 b = false).
  { intros b0. unfold second_of_three. settle_tests; reflexivity. }
  assert (H4 : forall b0, second_of_four b0 b = false).
  { intros b0. unfold second_of_four. settle_tests; reflexivity. }
  destruct a as [|b0 r0]; [congruence |]. clear Ha.
  cbn [app utf8_first].
  destruct (b0 <? 0x80)%N; [reflexivity |].
  destruct ((0xC2 <=? b0) && (b0 <=? 0xDF))%N.
  { destruct r0 as [|b1 r1]; cbn [app]; [now rewrite Hc |].
    destruct (is_cont b1); reflexivity. }
  destruct ((0xE0 <=? b0) && (b0 <=? 0xEF))%N.
  { destruct r0 as [|b1 [|b2 r2]]; cbn [app].
    - destruct rest; [reflexivity |]. now rewrite H3.
    - now rewrite Hc, andb_false_r.
    - destruct (second_of_three b0 b1 && is_cont b2); reflexivity. }
  destruct ((0xF0 <=? b0) && (b0 <=? 0xF4))%N; [|reflexivity].
  destruct r0 as [|b1 [|b2 [|b3 r3]]]; cbn [app].
  - destruct rest as [|x [|y rest]]; try reflexivity. now rewrite H4.
  - destruct rest as [|x rest]; [reflexivity |].
    now rewrite Hc, andb_false_r.
  - now rewrite Hc, andb_false_r.
  - destruct (second_of_four b0 b1 && is_cont b2 && is_cont b3); reflexivity.
Qed.

(** A byte below 0x80 is a point where the decoder starts afresh: what
    comes before it and what comes after it are decoded apart, and the byte
    itself is kept. *)
Lemma utf8_decode_ascii_sync (a rest : list N) (b : N) :
  (b < 0x80)%N ->
  utf8_decode_ignore (a ++ b :: rest) =
  utf8_decode_ignore a ++ b :: utf8_decode_ignore rest.
Proof.
  intros Hb.
  remember (List.length a) as n eqn:Hn.
  assert (Hle : (List.length a <= n)%nat) by lia. clear Hn.
  revert a Hle. induction n as [|n IH]; intros a Hle.
  - destruct a; [|simpl in Hle; lia]. cbn [app utf8_decode_ignore].
    now rewrite (proj2 (N.ltb_lt b 0x80) Hb).
  - destruct a as [|b0 r0].
    + cbn [app utf8_decode_ignore].
      now rewrite (proj2 (N.ltb_lt b 0x80) Hb).
    + change ((b0 :: r0) ++ b :: rest) with (b0 :: (r0 ++ b :: rest)).
      rewrite (utf8_decode_step b0 (r0 ++ b :: rest)).
      change (b0 :: (r0 ++ b :: rest)) with ((b0 :: r0) ++ b :: rest).
      rewrite utf8_first_ascii_after by (assumption || discriminate).
      rewrite (utf8_decode_step b0 r0).
      destruct (utf8_first (b0 :: r0)) as [[c r]|] eqn:E.
      * apply utf8_first_sound in E as [_ E].
        assert (Hr : (List.length r <= n)%nat).
        { apply (f_equal (@List.length N)) in E.
          rewrite length_app in E. simpl in Hle, E.
          pose proof (utf8_encode_char_not_nil c).
          destruct (utf8_encode_char c); [congruence | simpl in E; lia]. }
        rewrite (IH r Hr). reflexivity.
      * apply IH. simpl in Hle. lia.
Qed.

(** Decoding after encoding gives the text back, whatever follows. *)
Lemma utf8_decode_encode_app (s : pystr) (data : list N) :
  Forall (fun c => is_scalar c = true) s ->
  utf8_decode_ignore (utf8_encode s ++ data) = s ++ utf8_decode_ignore data.
Proof.
  induction 1 as [|c s Hc Hs IH]; [reflexivity |].
  unfold utf8_encode in *. cbn [flat_map]. rewrite <- app_assoc.
  rewrite (utf8_decode_first _ _ c (utf8_first_encode c _ Hc)).
  now rewrite IH.
Qed.


Lemma splitlines_nil (s : pystr) : splitlines s = [] -> s = [].
Proof.
  destruct s as [|c s]; [reflexivity |]. cbn [splitlines].
  destruct (is_linebreak c); [discriminate |].
  destruct (splitlines s); discriminate.
Qed.

(** A line feed ends its line, whatever comes next. *)
Lemma splitlines_lf (rest : pystr) :
  splitlines (0x0A%N :: rest) = [] :: splitlines rest.
Proof. destruct rest; reflexivity. Qed.


(** A line without line-end characters, then a line feed: [splitlines]
    gives the line and goes on after the line feed. *)
Lemma splitlines_line (l rest : pystr) :
  Forall (fun c => is_linebreak c = false) l ->
  splitlines (l ++ 0x0A%N :: rest) = l :: splitlines rest.
Proof.
  induction 1 as [|c l Hc Hl IH]; [apply splitlines_lf |].
  cbn [app splitlines]. now rewrite Hc, IH.
Qed.

(** The text before a line feed and the text after it are split apart. *)
Lemma splitlines_at_lf (a b : pystr) :
  splitlines (a ++ 0x0A%N :: b) = splitlines (a ++ [0x0A%N]) ++ splitlines b.
Proof.
  remember (List.length a) as n eqn:Hn.
  assert (Hle : (List.length a <= n)%nat) by lia. clear Hn.
  revert a Hle. induction n as [|n IH]; intros a Hle.
  - destruct a; [|simpl in Hle; lia]. cbn [app]. now rewrite splitlines_lf.
  - destruct a as [|c a']; [cbn [app]; now rewrite splitlines_lf |].
    simpl in Hle. cbn [app splitlines].
    destruct (is_linebreak c) eqn:Ec.
    + destruct a' as [|c' a'']; cbn [app].
      * destruct ((c =? 0x0D)%N && (0x0A =? 0x0A)%N).
        -- reflexivity.
        -- now rewrite splitlines_lf.
      * simpl in Hle.
        destruct ((c =? 0x0D)%N && (c' =? 0x0A)%N).
        -- rewrite (IH a'') by lia. reflexivity.
        -- change (c' :: a'' ++ 0x0A%N :: b) with ((c' :: a'') ++ 0x0A%N :: b).
           rewrite (IH (c' :: a'')) by (simpl; lia). reflexivity.
    + rewrite (IH a') by lia.
      destruct (splitlines (a' ++ [0x0A%N])) as [|line rest] eqn:E.
      * apply splitlines_nil in E. destruct a'; discriminate.
      * reflexivity.
Qed.

(** Splitting a text whose lines each end in a line feed gives the lines. *)
Lemma splitlines_unlines (lines : list pystr) :
  Forall (Forall (fun c => is_linebreak c = false)) lines ->
  splitlines (unlines lines) = lines.
Proof.
  induction 1 as [|l lines Hl Hls IH]; [reflexivity |].
  unfold unlines in *. cbn [flat_map]. rewrite <- app_assoc. cbn [app].
  rewrite splitlines_line by assumption. now rewrite IH.
Qed.

Lemma plain_line_no_linebreak (l : pystr) :
  plain_line l -> Forall (fun c => is_linebreak c = false) l.
Proof. apply Forall_impl. intros c [_ H]. exact H. Qed.

Lemma plain_line_scalar (l : pystr) :
  plain_line l -> Forall (fun c => is_scalar c = true) l.
Proof. apply Forall_impl. intros c [H _]. exact H. Qed.

Lemma sentinel_plain : plain_line sentinel.
Proof. repeat constructor. Qed.

Lemma unlines_scalar (lines : list pystr) :
  Forall plain_line lines ->
  Forall (fun c => is_scalar c = true) (unlines lines).
Proof.
  induction 1 as [|l lines Hl Hls IH]; [constructor |].
  unfold unlines in *. cbn [flat_map]. rewrite <- app_assoc.
  apply Forall_app. split; [now apply plain_line_scalar |].
  constructor; [reflexivity | exact IH].
Qed.


(** X1.  Decoding the UTF-8 encoding of a text gives the text back: the
    decoder of [extract_logs] loses nothing of a well-formed file. *)
Theorem X1_utf8_decode_encode (s : pystr) :
  Forall (fun c => is_scalar c = true) s ->
  utf8_decode_ignore (utf8_encode s) = s.
Proof.
  intros H. pose proof (utf8_decode_encode_app s [] H) as E.
  now rewrite !app_nil_r in E.
Qed.

(** X1 at a text with characters of one, two, three and four bytes. *)
Lemma X1_utf8_decode_encode_witness :
  Forall (fun c => is_scalar c = true) [0x41; 0x646; 0x20AC; 0x1F600]%N /\
  utf8_decode_ignore (utf8_encode [0x41; 0x646; 0x20AC; 0x1F600]%N) =
  [0x41; 0x646; 0x20AC; 0x1F600]%N.
Proof.
  assert (H : Forall (fun c => is_scalar c = true)
                [0x41; 0x646; 0x20AC; 0x1F600]%N)
    by (repeat constructor).
  split; [exact H | exact (X1_utf8_decode_encode _ H)].
Defined.


Lemma app_extract_logs_run (file_path : pystr) (read : res (list N)) :
  App.extract_logs file_path read =
  match read with
  | Ok data => Ok (splitlines (utf8_decode_ignore data))
  | Raise _ => _ <- print file_path ;; Ok []
  end.
Proof.
  unfold App.extract_logs, print_error.
  destruct read as [data|e]; cbn [bind try_except]; [reflexivity |].
  now rewrite print_around.
Qed.

Lemma cl_extract_logs_run (file_path : pystr) (read : res (list N)) :
  CallLogs.extract_logs file_path read =
  match read with
  | Ok data =>
      Ok (if encodable file_path
          then splitlines (utf8_decode_ignore data) else [])
  | Raise _ => Ok []
  end.
Proof.
  unfold CallLogs.extract_logs, print_error.
  destruct read as [data|e]; cbn [bind try_except].
  - cbv zeta.
    replace (print (lit "[DEBUG] Total lines extracted from " ++ file_path
                    ++ lit ": "
                    ++ str_of_len
                         (len (splitlines (utf8_decode_ignore data)))))
      with (print file_path).
    + destruct (encodable file_path) eqn:E.
      * rewrite (print_ok _ E). reflexivity.
      * rewrite (print_raises _ E). cbn [bind try_except].
        now rewrite print_lit.
    + unfold print.
      now rewrite !encodable_app, !encodable_lit, encodable_str_of_len,
        andb_true_r.
  - now rewrite print_lit.
Qed.



(** X3.  A byte below 0x80 is never lost and never joined to its
    neighbours: the bytes before it and the bytes after it are decoded
    apart, whatever they are. *)
Theorem X3_utf8_decode_ascii_sync (a rest : list N) (b : N) :
  (b < 0x80)%N ->
  utf8_decode_ignore (a ++ b :: rest) =
  utf8_decode_ignore a ++ b :: utf8_decode_ignore rest.
Proof. apply utf8_decode_ascii_sync. Qed.

(** X3 at a pipe after the first two bytes of a sequence of three. *)
Lemma X3_utf8_decode_ascii_sync_witness :
  (0x7C < 0x80)%N /\
  utf8_decode_ignore ([0xE2; 0x82] ++ 0x7C :: [0xC3; 0xA9])%N =
  (utf8_decode_ignore [0xE2; 0x82] ++ 0x7C :: utf8_decode_ignore [0xC3; 0xA9])%N.
Proof.
  assert (H : (0x7C < 0x80)%N) by reflexivity.
  split; [exact H | exact (X3_utf8_decode_ascii_sync _ _ _ H)].
Defined.

(** X4.  [splitlines] undoes the writing of lines: for lines without
    line-end characters, each written with a line feed after it, it gives
    the lines back; and in any text a line feed separates what is before it
    from what is after it. *)
Theorem X4_splitlines_unlines (lines : list pystr) :
  Forall (Forall (fun c => is_linebreak c = false)) lines ->
  splitlines (unlines lines) = lines /\
  (forall before,
     splitlines (before ++ 0x0A%N :: unlines lines) =
     splitlines (before ++ [0x0A%N]) ++ lines).
Proof.
  intros H. split; [now apply splitlines_unlines |].
  intros before. now rewrite splitlines_at_lf, splitlines_unlines.
Qed.

(** X4 at two lines, the second of them empty. *)
Lemma X4_splitlines_unlines_witness :
  Forall (Forall (fun c => is_linebreak c = false)) [lit "3"; []] /\
  splitlines (unlines [lit "3"; []]) = [lit "3"; []].
Proof.
  assert (H : Forall (Forall (fun c => is_linebreak c = false)) [lit "3"; []])
    by (repeat constructor).
  split; [exact H | exact (proj1 (X4_splitlines_unlines _ H))].
Defined.

(** X5.  A trailer behind any bytes.  Let a file hold arbitrary bytes, a
    line feed, and then, each followed by a line feed, the lines of a
    window, a count line that parses to the number of those lines, and the
    sentinel.  Then [extract_logs] returns lines that end with the window,
    the count line and the sentinel, and [process_logs] assembles exactly
    the window: the bytes before the trailer have no effect on the entry.
    This holds in [app.py] for every path and file name, and in
    [call_logs.py], which prints them on the way, for a path and a name
    that the standard output can encode. *)
Theorem X5_trailer_behind_noise (noise : list N) (window : list pystr)
    (count file_path file_name : pystr) :
  Forall plain_line window ->
  plain_line count ->
  py_int (strip count) = Ok (len window) ->
  App.extract_logs file_path
    (Ok (noise ++ 0x0A%N :: utf8_encode (unlines (window ++ [count; sentinel])))) =
  Ok (splitlines (utf8_decode_ignore (noise ++ [0x0A%N]))
      ++ window ++ [count; sentinel]) /\
  App.process_logs
    (splitlines (utf8_decode_ignore (noise ++ [0x0A%N]))
     ++ window ++ [count; sentinel]) file_name =
  App.assemble file_name window /\
  (encodable file_path = true ->
   CallLogs.extract_logs file_path
     (Ok (noise ++ 0x0A%N
          :: utf8_encode (unlines (window ++ [count; sentinel])))) =
   Ok (splitlines (utf8_decode_ignore (noise ++ [0x0A%N]))
       ++ window ++ [count; sentinel])) /\
  (encodable file_name = true ->
   CallLogs.process_logs
     (splitlines (utf8_decode_ignore (noise ++ [0x0A%N]))
      ++ window ++ [count; sentinel]) file_name =
   CallLogs.assemble file_name window).
Proof.
  intros Hw Hc Hn.
  set (before := splitlines (utf8_decode_ignore (noise ++ [0x0A%N]))).
  assert (Hall : Forall plain_line (window ++ [count; sentinel])).
  { apply Forall_app. split; [exact Hw |].
    constructor; [exact Hc |]. constructor; [exact sentinel_plain | constructor]. }
  assert (Hlines : splitlines
                     (utf8_decode_ignore
                        (noise ++ 0x0A%N
                         :: utf8_encode (unlines (window ++ [count; sentinel]))))
                   = before ++ window ++ [count; sentinel]).
  { rewrite utf8_decode_ascii_sync by reflexivity.
    pose proof (utf8_decode_encode_app _ [] (unlines_scalar _ Hall)) as E.
    rewrite !app_nil_r in E. rewrite E.
    rewrite splitlines_at_lf, splitlines_unlines.
    + unfold before. rewrite utf8_decode_ascii_sync by reflexivity.
      reflexivity.
    + revert Hall. apply Forall_impl. apply plain_line_no_linebreak. }
  split; [rewrite app_extract_logs_run, Hlines; reflexivity |].
  assert (Hboth :
            App.process_logs (before ++ window ++ [count; sentinel]) file_name =
            App.assemble file_name window /\
            (encodable file_name = true ->
             CallLogs.process_logs (before ++ window ++ [count; sentinel])
               file_name =
             CallLogs.assemble file_name window));
    [|destruct Hboth as [Ha Hcl]; split; [exact Ha |];
      split; [|exact Hcl];
      intros Hp; rewrite cl_extract_logs_run, Hp, Hlines; reflexivity].
  - assert (Hs : str_eqb (strip sentinel) sentinel = true)
      by (vm_compute; reflexivity).
    assert (Hskip : forall start,
               start = len before ->
               list_slice ((before ++ window) ++ [count; sentinel]) start
                 (len (before ++ window)) = window).
    { intros start ->. rewrite list_slice_prefix by apply len_nonneg.
      unfold len. rewrite Nat2Z.id, skipn_app, skipn_all, Nat.sub_diag.
      reflexivity. }
    pose proof (len_nonneg before) as Hb.
    assert (Hd : len (before ++ window) - len window = len before)
      by (rewrite len_app; lia).
    rewrite app_assoc.
    split.
    + rewrite app_process_logs_run, Hs, Hn, Hd.
      rewrite (Hskip (Z.max 0 (len before))) by lia. reflexivity.
    + intros He. rewrite (cl_process_logs_eq _ _ _ _ He), Hs, Hn, Hd.
      replace (len before <? 0) with false
        by (symmetry; apply Z.ltb_ge; lia).
      rewrite (Hskip (len before)) by reflexivity. reflexivity.
Qed.

(** X5 at a file of three bytes that are no UTF-8, then a trailer of one
    Number line. *)
Lemma X5_trailer_behind_noise_witness :
  Forall plain_line [lit "d|Number|Number:0912"] /\
  plain_line (lit "1") /\
  py_int (strip (lit "1")) = Ok (len [lit "d|Number|Number:0912"]) /\
  encodable (lit "a.wav") = true /\
  App.process_logs
    (splitlines (utf8_decode_ignore ([0xFF; 0xE2; 0x82] ++ [0x0A]))%N
     ++ [lit "d|Number|Number:0912"] ++ [lit "1"; sentinel]) (lit "a.wav") =
  App.assemble (lit "a.wav") [lit "d|Number|Number:0912"] /\
  CallLogs.process_logs
    (splitlines (utf8_decode_ignore ([0xFF; 0xE2; 0x82] ++ [0x0A]))%N
     ++ [lit "d|Number|Number:0912"] ++ [lit "1"; sentinel]) (lit "a.wav") =
  CallLogs.assemble (lit "a.wav") [lit "d|Number|Number:0912"].
Proof.
  assert (H1 : Forall plain_line [lit "d|Number|Number:0912"])
    by (repeat constructor).
  assert (H2 : plain_line (lit "1")) by (repeat constructor).
  assert (H3 : py_int (strip (lit "1")) = Ok (len [lit "d|Number|Number:0912"]))
    by (vm_compute; reflexivity).
  assert (H4 : encodable (lit "a.wav") = true) by (vm_compute; reflexivity).
  split; [exact H1 |]. split; [exact H2 |]. split; [exact H3 |].
  split; [exact H4 |].
  destruct (X5_trailer_behind_noise [0xFF; 0xE2; 0x82]%N
              [lit "d|Number|Number:0912"] (lit "1") (lit "files/a.wav")
              (lit "a.wav") H1 H2 H3) as (_ & Ha & _ & Hc).
  split; [exact Ha | exact (Hc H4)].
Defined.

(* ================================================================== *)
(** * Persian digits *)
(* ================================================================== *)

Lemma to_decimal_range (c : char) (d : Z) :
  to_decimal c = Some d -> 0 <= d <= 9.
Proof.
  unfold to_decimal.
  destruct (find (fun b => (b <=? c) && (c <? b + 10))%N decimal_blocks)
    as [b|] eqn:E; [|discriminate].
  apply find_some in E as [_ E]. apply andb_true_iff in E as [E1 E2].
  apply N.leb_le in E1. apply N.ltb_lt in E2.
  intros H. inversion H. lia.
Qed.

(** White space and the two signs are no decimal digits. *)
Lemma to_decimal_not_space (c : char) (d : Z) :
  to_decimal c = Some d ->
  is_space c = false /\ c <> 0x2D%N /\ c <> 0x2B%N.
Proof.
  intros H.
  assert (Hn : forall x, In x [0x09; 0x0A; 0x0B; 0x0C; 0x0D; 0x1C; 0x1D; 0x1E;
                               0x1F; 0x20; 0x85; 0xA0; 0x1680; 0x2000; 0x2001;
                               0x2002; 0x2003; 0x2004; 0x2005; 0x2006; 0x2007;
                               0x2008; 0x2009; 0x200A; 0x2028; 0x2029; 0x202F;
                               0x205F; 0x3000; 0x2D; 0x2B]%N ->
                     to_decimal x = None).
  { intros x Hx. repeat (destruct Hx as [<-|Hx]; [reflexivity |]).
    destruct Hx. }
  split; [|split; intros ->; discriminate H].
  destruct (is_space c) eqn:Es; [|reflexivity].
  rewrite Hn in H; [discriminate |].
  unfold is_space in Es.
  repeat rewrite ?orb_true_iff, ?andb_true_iff, ?N.leb_le, ?N.eqb_eq in Es.
  assert (Hc : (c = 0x09 \/ c = 0x0A \/ c = 0x0B \/ c = 0x0C \/ c = 0x0D \/
                c = 0x1C \/ c = 0x1D \/ c = 0x1E \/ c = 0x1F \/ c = 0x20 \/
                c = 0x85 \/ c = 0xA0 \/ c = 0x1680 \/ c = 0x2000 \/
                c = 0x2001 \/ c = 0x2002 \/ c = 0x2003 \/ c = 0x2004 \/
                c = 0x2005 \/ c = 0x2006 \/ c = 0x2007 \/ c = 0x2008 \/
                c = 0x2009 \/ c = 0x200A \/ c = 0x2028 \/ c = 0x2029 \/
                c = 0x202F \/ c = 0x205F \/ c = 0x3000)%N) by lia.
  cbn [In]. repeat (destruct Hc as [Hc|Hc]; [subst c; tauto |]).
  subst c. tauto.
Qed.

Lemma strip_with_one (p : char -> bool) (c : char) :
  strip_with p [c] = if p c then [] else [c].
Proof.
  unfold strip_with. cbn [drop_while]. destruct (p c) eqn:E; [reflexivity |].
  cbn [rev app drop_while]. now rewrite E.
Qed.

(** [int(c)] of a decimal digit is its value. *)
Lemma py_int_decimal (c : char) (d : Z) :
  to_decimal c = Some d -> py_int [c] = Ok d.
Proof.
  intros H. destruct (to_decimal_not_space c d H) as (Hs & Hm & Hp).
  unfold py_int. rewrite strip_with_one.
  unfold int_space. rewrite Hs. cbn [andb].
  rewrite (proj2 (N.eqb_neq c 0x2D) Hm), (proj2 (N.eqb_neq c 0x2B) Hp).
  cbn [int_digits]. rewrite H. cbn [option_map fold_left].
  change (int_max_str_digits <? len [d]) with false. cbn iota.
  reflexivity.
Qed.

(** [int(c)] of any other character raises. *)
Lemma py_int_not_decimal (c : char) :
  to_decimal c = None -> py_int [c] = Raise ValueError.
Proof.
  intros H. unfold py_int. rewrite strip_with_one.
  destruct (int_space c); [reflexivity |].
  destruct (c =? 0x2D)%N; [reflexivity |].
  destruct (c =? 0x2B)%N; [reflexivity |].
  cbn [int_digits]. rewrite H. now rewrite andb_false_r.
Qed.

Lemma persian_digits_getitem (d : Z) :
  0 <= d <= 9 -> list_getitem persian_digits d = Ok (0x6F0 + Z.to_N d)%N.
Proof.
  intros H.
  assert (Hd : d = 0 \/ d = 1 \/ d = 2 \/ d = 3 \/ d = 4 \/ d = 5 \/ d = 6 \/
               d = 7 \/ d = 8 \/ d = 9) by lia.
  repeat (destruct Hd as [->|Hd]; [reflexivity |]). subst d. reflexivity.
Qed.

Lemma persian_char_eq (c : char) :
  persian_char c =
  if is_digit c && match to_decimal c with None => true | _ => false end
  then Raise ValueError else Ok (persian_of c).
Proof.
  unfold persian_char, persian_of, is_digit.
  destruct (to_decimal c) as [d|] eqn:E.
  - rewrite (py_int_decimal c d E). cbn [bind andb].
    apply persian_digits_getitem. exact (to_decimal_range c d E).
  - destruct (is_other_digit c); [|reflexivity].
    now rewrite (py_int_not_decimal c E).
Qed.

Lemma to_persian_numbers_ok (text : pystr) :
  (forall c, In c text -> is_digit c = true -> to_decimal c <> None) ->
  to_persian_numbers text = Ok (List.map persian_of text).
Proof.
  unfold to_persian_numbers.
  induction text as [|c text IH]; intros H; [reflexivity |].
  cbn [map_res List.map]. rewrite persian_char_eq.
  destruct (is_digit c) eqn:Ed.
  - destruct (to_decimal c) eqn:E.
    + cbn [andb bind]. rewrite IH; [reflexivity |].
      intros x Hx. apply H. now right.
    + exfalso. apply (H c (or_introl eq_refl) Ed E).
  - cbn [andb bind]. rewrite IH; [reflexivity |].
    intros x Hx. apply H. now right.
Qed.

Lemma to_persian_numbers_raises (text : pystr) :
  (exists c, In c text /\ is_digit c = true /\ to_decimal c = None) ->
  to_persian_numbers text = Raise ValueError.
Proof.
  unfold to_persian_numbers. intros (c & Hin & Hd & Hn).
  induction text as [|x text IH]; [destruct Hin |].
  cbn [map_res]. rewrite persian_char_eq.
  destruct Hin as [->|Hin].
  - now rewrite Hd, Hn.
  - destruct (is_digit x && match to_decimal x with
                            | None => true | _ => false end);
      [reflexivity |].
    cbn [bind]. now rewrite (IH Hin).
Qed.

(** X6.  [to_persian_numbers] on a text: when every digit character of the
    text is a decimal digit, it returns a text of the same length in which
    each decimal digit, of whatever script, is the Persian digit of the same
    value and every other character is kept; when the text holds a digit
    character that is no decimal digit (a superscript two, a circled one),
    it raises [ValueError], since [int] rejects that character. *)
Theorem X6_to_persian_numbers (text : pystr) :
  ((forall c, In c text -> is_digit c = true -> to_decimal c <> None) ->
   to_persian_numbers text = Ok (List.map persian_of text)) /\
  ((exists c, In c text /\ is_digit c = true /\ to_decimal c = None) ->
   to_persian_numbers text = Raise ValueError).
Proof.
  split; [apply to_persian_numbers_ok | apply to_persian_numbers_raises].
Qed.

(** X6 at a text with a superscript two: [ValueError]. *)
Lemma X6_to_persian_numbers_witness :
  (exists c, In c [0x78; 0xB2]%N /\ is_digit c = true /\ to_decimal c = None) /\
  to_persian_numbers [0x78; 0xB2]%N = Raise ValueError.
Proof.
  assert (H : exists c, In c [0x78; 0xB2]%N /\ is_digit c = true /\
                        to_decimal c = None).
  { exists 0xB2%N. split; [right; left; reflexivity |].
    split; reflexivity. }
  split; [exact H | exact (proj2 (X6_to_persian_numbers _) H)].
Defined.

Lemma fold_digits_app (l : list Z) (d a : Z) :
  fold_left (fun acc x => 10 * acc + x) (l ++ [d]) a =
  10 * fold_left (fun acc x => 10 * acc + x) l a + d.
Proof. now rewrite fold_left_app. Qed.

(** With fuel for the bits of [n], [digits_of] gives the decimal digits of
    [n]: each in [0 .. 9], at least one, and their value is [n]. *)
Lemma digits_of_spec (fuel : nat) (n : Z) :
  (0 < fuel)%nat ->
  0 <= n < 2 ^ Z.of_nat fuel ->
  Forall (fun d => 0 <= d <= 9) (digits_of fuel n) /\
  digits_of fuel n <> [] /\
  fold_left (fun acc x => 10 * acc + x) (digits_of fuel n) 0 = n.
Proof.
  revert n. induction fuel as [|f IH]; intros n Hf Hn; [lia |].
  cbn [digits_of]. destruct (Z.ltb_spec n 10) as [Hlt|Hge].
  - split; [repeat constructor; lia |]. split; [discriminate |].
    cbn [fold_left]. lia.
  - assert (Hq : 1 <= n / 10 < 2 ^ Z.of_nat f).
    { rewrite Nat2Z.inj_succ, Z.pow_succ_r in Hn by lia.
      split; [apply Z.div_le_lower_bound; lia |].
      apply Z.div_lt_upper_bound; lia. }
    assert (Hf' : (0 < f)%nat).
    { destruct f; [simpl in Hq; lia | lia]. }
    destruct (IH (n / 10) Hf' ltac:(lia)) as (Hd & Hne & Hv).
    split; [|split].
    + apply Forall_app. split; [exact Hd |].
      repeat constructor; pose proof (Z.mod_pos_bound n 10); lia.
    + destruct (digits_of f (n / 10)); [congruence | discriminate].
    + rewrite fold_digits_app, Hv.
      pose proof (Z.div_mod n 10). lia.
Qed.

Lemma log2_fuel (n : Z) :
  0 <= n -> 0 <= n < 2 ^ Z.of_nat (S (Z.to_nat (Z.log2 n))).
Proof.
  intros Hn. split; [exact Hn |].
  rewrite Nat2Z.inj_succ, Z2Nat.id by apply Z.log2_nonneg.
  destruct (Z.eq_dec n 0) as [->|Hz]; [reflexivity |].
  apply Z.log2_spec. lia.
Qed.

(** A string of which no character satisfies [p] is left as it is. *)
Lemma strip_with_none (p : char -> bool) (s : pystr) :
  Forall (fun c => p c = false) s -> strip_with p s = s.
Proof.
  intros H.
  assert (Hd : forall t, Forall (fun c => p c = false) t -> drop_while p t = t).
  { intros t Ht. destruct Ht as [|c t Hc Ht]; [reflexivity |].
    cbn [drop_while]. now rewrite Hc. }
  unfold strip_with. rewrite (Hd s H).
  rewrite (Hd (rev s)) by (apply Forall_rev; exact H).
  apply rev_involutive.
Qed.

Lemma to_decimal_ascii (d : Z) :
  0 <= d <= 9 -> to_decimal (0x30 + Z.to_N d)%N = Some d.
Proof.
  intros H.
  assert (Hd : d = 0 \/ d = 1 \/ d = 2 \/ d = 3 \/ d = 4 \/ d = 5 \/ d = 6 \/
               d = 7 \/ d = 8 \/ d = 9) by lia.
  repeat (destruct Hd as [->|Hd]; [reflexivity |]). subst d. reflexivity.
Qed.

Lemma to_decimal_persian (d : Z) :
  0 <= d <= 9 -> to_decimal (0x6F0 + Z.to_N d)%N = Some d.
Proof.
  intros H.
  assert (Hd : d = 0 \/ d = 1 \/ d = 2 \/ d = 3 \/ d = 4 \/ d = 5 \/ d = 6 \/
               d = 7 \/ d = 8 \/ d = 9) by lia.
  repeat (destruct Hd as [->|Hd]; [reflexivity |]). subst d. reflexivity.
Qed.

Lemma int_digits_persian (ds : list Z) :
  Forall (fun d => 0 <= d <= 9) ds ->
  ds <> [] ->
  forall prev,
    int_digits prev (List.map (fun d => (0x6F0 + Z.to_N d)%N) ds) = Some ds.
Proof.
  induction 1 as [|d ds Hd Hds IH]; intros Hne prev; [congruence |].
  cbn [List.map int_digits]. rewrite (to_decimal_persian d Hd).
  destruct ds as [|d' ds']; [reflexivity |].
  now rewrite IH by discriminate.
Qed.

(** [int] reads a sign and Persian digits as the number they write. *)
Lemma py_int_persian (neg : bool) (ds : list Z) :
  Forall (fun d => 0 <= d <= 9) ds ->
  ds <> [] ->
  len ds <= int_max_str_digits ->
  py_int ((if neg then [0x2D%N] else [])
          ++ List.map (fun d => (0x6F0 + Z.to_N d)%N) ds) =
  Ok (if neg then - fold_left (fun acc x => 10 * acc + x) ds 0
      else fold_left (fun acc x => 10 * acc + x) ds 0).
Proof.
  intros Hd Hne Hlen.
  assert (Hsp : Forall (fun c => int_space c = false)
                  ((if neg then [0x2D%N] else [])
                   ++ List.map (fun d => (0x6F0 + Z.to_N d)%N) ds)).
  { apply Forall_app. split; [destruct neg; repeat constructor |].
    apply Forall_map. revert Hd. apply Forall_impl. intros d H.
    unfold int_space.
    now rewrite (proj1 (to_decimal_not_space _ _ (to_decimal_persian d H))). }
  unfold py_int. rewrite (strip_with_none _ _ Hsp).
  destruct neg; cbn [app].
  - change (0x2D =? 0x2D)%N with true. cbv beta iota.
    rewrite (int_digits_persian ds Hd Hne).
    replace (int_max_str_digits <? len ds) with false
      by (symmetry; apply Z.ltb_ge; lia).
    reflexivity.
  - destruct ds as [|d ds'] eqn:Eds; [congruence |]. cbn [List.map].
    inversion Hd as [|? ? Hd0 _]; subst.
    destruct (to_decimal_not_space _ _ (to_decimal_persian d Hd0))
      as (_ & Hm & Hp).
    rewrite (proj2 (N.eqb_neq _ _) Hm), (proj2 (N.eqb_neq _ _) Hp).
    cbv beta iota.
    change ((0x6F0 + Z.to_N d)%N
            :: List.map (fun d => (0x6F0 + Z.to_N d)%N) ds')
      with (List.map (fun d => (0x6F0 + Z.to_N d)%N) (d :: ds')).
    rewrite (int_digits_persian (d :: ds') Hd Hne).
    replace (int_max_str_digits <? len (d :: ds')) with false
      by (symmetry; apply Z.ltb_ge; lia).
    reflexivity.
Qed.

(** X7.  The row number of the web page.  For every int [z] that [str]
    can print, [to_persian_numbers] of its text does not raise and gives a
    text of the same length that [int] reads back as [z]: the Persian
    digits write the same number. *)
Theorem X7_persian_number_reads_back (z : Z) (text : pystr) :
  str_of_int z = Ok text ->
  exists p,
    to_persian_numbers text = Ok p /\
    List.length p = List.length text /\
    py_int p = Ok z.
Proof.
  unfold str_of_int. cbv zeta.
  set (ds := digits_of (S (Z.to_nat (Z.log2 (Z.abs z)))) (Z.abs z)).
  destruct (digits_of_spec _ _ (Nat.lt_0_succ _)
              (log2_fuel (Z.abs z) (Z.abs_nonneg z)))
    as (Hd & Hne & Hv). fold ds in Hd, Hne, Hv.
  destruct (Z.ltb_spec int_max_str_digits (len ds)) as [|Hlen]; [discriminate |].
  intros E.
  assert (Et : (if z <? 0 then [0x2D%N] else [])
               ++ List.map (fun d => (0x30 + Z.to_N d)%N) ds = text)
    by congruence.
  clear E. subst text.
  exists ((if z <? 0 then [0x2D%N] else [])
          ++ List.map (fun d => (0x6F0 + Z.to_N d)%N) ds).
  split; [|split].
  - rewrite to_persian_numbers_ok.
    + f_equal. rewrite map_app. f_equal; [destruct (z <? 0); reflexivity |].
      rewrite map_map. apply map_ext_in. intros d Hin.
      unfold persian_of. cbv beta. rewrite to_decimal_ascii; [reflexivity |].
      rewrite Forall_forall in Hd. now apply Hd.
    + intros c Hin Hdig. apply in_app_or in Hin as [Hin|Hin].
      * destruct (z <? 0); [|destruct Hin].
        destruct Hin as [<-|[]]. vm_compute in Hdig. discriminate Hdig.
      * apply in_map_iff in Hin as (d & <- & Hin).
        rewrite Forall_forall in Hd.
        rewrite (to_decimal_ascii d (Hd d Hin)). discriminate.
  - now rewrite !length_app, !length_map.
  - rewrite (py_int_persian (z <? 0) ds Hd Hne Hlen), Hv. f_equal.
    destruct (Z.ltb_spec z 0); lia.
Qed.

(** X7 at the row number 120. *)
Lemma X7_persian_number_reads_back_witness :
  str_of_int 120 = Ok (lit "120") /\
  exists p,
    to_persian_numbers (lit "120") = Ok p /\
    List.length p = List.length (lit "120") /\
    py_int p = Ok 120.
Proof.
  assert (H : str_of_int 120 = Ok (lit "120")) by (vm_compute; reflexivity).
  split; [exact H | exact (X7_persian_number_reads_back 120 (lit "120") H)].
Defined.

(* ================================================================== *)
(** * White space around the lines *)
(* ================================================================== *)

Lemma drop_while_head (p : char -> bool) (s : pystr) (c : char) (r : pystr) :
  drop_while p s = c :: r -> p c = false.
Proof.
  induction s as [|x s IH]; cbn [drop_while]; [discriminate |].
  destruct (p x) eqn:E; [exact IH |]. intros H. inversion H; subst. exact E.
Qed.

Lemma drop_while_fixed (p : char -> bool) (c : char) (r : pystr) :
  p c = false -> drop_while p (c :: r) = c :: r.
Proof. intros H. cbn [drop_while]. now rewrite H. Qed.

(** What is left of a string that ends in a kept character ends in that
    character. *)
Lemma drop_while_last (p : char -> bool) (s : pystr) (c : char) :
  p c = false -> exists w, drop_while p (s ++ [c]) = w ++ [c].
Proof.
  intros H. induction s as [|x s IH]; cbn [app drop_while].
  - rewrite H. now exists [].
  - destruct (p x); [exact IH |]. now exists (x :: s).
Qed.

(** A trimmed string is empty, or starts and ends with a character that is
    kept. *)
Lemma strip_with_shape (p : char -> bool) (s : pystr) :
  strip_with p s = [] \/
  exists c r w y,
    strip_with p s = c :: r /\ p c = false /\
    strip_with p s = w ++ [y] /\ p y = false.
Proof.
  unfold strip_with.
  destruct (drop_while p s) as [|c r] eqn:Eu; [now left |].
  pose proof (drop_while_head p s c r Eu) as Hc.
  cbn [rev].
  destruct (drop_while_last p (rev r) c Hc) as (w & Hw).
  destruct (drop_while p (rev r ++ [c])) as [|y z] eqn:Ev.
  { destruct w; discriminate. }
  pose proof (drop_while_head p _ y z Ev) as Hy.
  right. exists c, (rev w), (rev z), y.
  split; [rewrite Hw, rev_app_distr; reflexivity |].
  split; [exact Hc |]. split; [reflexivity | exact Hy].
Qed.

(** Trimming twice is trimming once. *)
Lemma strip_with_idempotent (p : char -> bool) (s : pystr) :
  strip_with p (strip_with p s) = strip_with p s.
Proof.
  destruct (strip_with_shape p s) as [E|(c & r & w & y & E1 & Hc & E2 & Hy)].
  - rewrite E. reflexivity.
  - unfold strip_with at 1. rewrite E1 at 1.
    rewrite (drop_while_fixed p c r Hc). rewrite <- E1, E2.
    rewrite rev_app_distr. cbn [rev app].
    rewrite (drop_while_fixed p y (rev w) Hy).
    cbn [rev]. now rewrite rev_involutive.
Qed.

Lemma strip_idempotent (s : pystr) : strip (strip s) = strip s.
Proof. apply strip_with_idempotent. Qed.

Lemma app_process_line_strip (e : dict) (l : pystr) :
  App.process_line e (strip l) = App.process_line e l.
Proof. unfold App.process_line. now rewrite strip_idempotent. Qed.

Lemma cl_process_line_strip (e : dict) (l : pystr) :
  CallLogs.process_line e (strip l) = CallLogs.process_line e l.
Proof. unfold CallLogs.process_line. now rewrite strip_idempotent. Qed.

Lemma for_each_map {S A} (body : S -> A -> res S) (f : A -> A) (l : list A) :
  (forall s x, body s (f x) = body s x) ->
  forall s, for_each body (List.map f l) s = for_each body l s.
Proof.
  intros H. induction l as [|x l IH]; intros s; [reflexivity |].
  cbn [List.map for_each]. rewrite H.
  destruct (body s x); cbn [bind]; [apply IH | reflexivity].
Qed.

Lemma assemble_strip (file_name : pystr) (w : list pystr) :
  App.assemble file_name (List.map strip w) = App.assemble file_name w /\
  CallLogs.assemble file_name (List.map strip w) =
  CallLogs.assemble file_name w.
Proof.
  unfold App.assemble, CallLogs.assemble.
  now rewrite (for_each_map _ strip w app_process_line_strip),
              (for_each_map _ strip w cl_process_line_strip).
Qed.

Lemma len_map {A B} (f : A -> B) (l : list A) : len (List.map f l) = len l.
Proof. unfold len. now rewrite length_map. Qed.

(** [process_logs] on the trimmed lines is [process_logs] on the lines. *)
Lemma process_logs_strip (lines : list pystr) (file_name : pystr) :
  App.process_logs (List.map strip lines) file_name =
  App.process_logs lines file_name /\
  CallLogs.process_logs (List.map strip lines) file_name =
  CallLogs.process_logs lines file_name.
Proof.
  destruct (Nat.ltb_spec (List.length lines) 2) as [Hs|Hl].
  - rewrite !app_process_logs_short, !cl_process_logs_short_run;
      rewrite ?length_map; auto.
  - destruct (two_or_more_split _ Hl) as (pre & c & x & ->).
    rewrite map_app. cbn [List.map].
    rewrite !app_process_logs_run, !cl_process_logs_run.
    rewrite !strip_idempotent, !len_map.
    destruct (str_eqb (strip x) sentinel); [|auto].
    destruct (py_int (strip c)) as [n|]; [|auto].
    pose proof (len_nonneg pre) as Hp.
    assert (Hw : forall start, 0 <= start ->
               list_slice (List.map strip pre ++ [strip c; strip x]) start
                 (len pre) =
               List.map strip (list_slice (pre ++ [c; x]) start (len pre))).
    { intros start Hs.
      rewrite <- (len_map strip pre) at 1.
      rewrite !list_slice_prefix by assumption. apply skipn_map. }
    split.
    + rewrite Hw by lia. apply assemble_strip.
    + destruct (print file_name); cbn [bind]; [|reflexivity].
      destruct (Z.ltb_spec (len pre - n) 0); [reflexivity |].
      rewrite Hw by lia. apply assemble_strip.
Qed.

(** X8.  White space around the lines does not count: two line lists with
    the same trimmed lines give the same result of [process_logs], in both
    modules. *)
Theorem X8_process_logs_trimmed (lines lines' : list pystr)
    (file_name : pystr) :
  List.map strip lines = List.map strip lines' ->
  App.process_logs lines file_name = App.process_logs lines' file_name /\
  CallLogs.process_logs lines file_name =
  CallLogs.process_logs lines' file_name.
Proof.
  intros H.
  destruct (process_logs_strip lines file_name) as [A1 C1].
  destruct (process_logs_strip lines' file_name) as [A2 C2].
  rewrite <- A1, <- C1, <- A2, <- C2, H. split; reflexivity.
Qed.

(** X8 at a trailer with and without blanks and tabs around its lines. *)
Lemma X8_process_logs_trimmed_witness :
  List.map strip [lit "  d|Number|Number:0912 "; lit " 1"; lit "Telsa64  "] =
  List.map strip [lit "d|Number|Number:0912"; lit "1"; lit "Telsa64"] /\
  App.process_logs
    [lit "  d|Number|Number:0912 "; lit " 1"; lit "Telsa64  "] (lit "a.wav") =
  App.process_logs
    [lit "d|Number|Number:0912"; lit "1"; lit "Telsa64"] (lit "a.wav").
Proof.
  assert (H : List.map strip
                [lit "  d|Number|Number:0912 "; lit " 1"; lit "Telsa64  "] =
              List.map strip
                [lit "d|Number|Number:0912"; lit "1"; lit "Telsa64"])
    by (vm_compute; reflexivity).
  split; [exact H |].
  exact (proj1 (X8_process_logs_trimmed _ _ (lit "a.wav") H)).
Defined.

(* ================================================================== *)
(** * The store of app.py *)
(* ================================================================== *)

(** X9.  [save_to_json] of [app.py] on a store that already holds an entry
    with the file name of the new entry: the store file is left as it is
    and [None] is returned, whatever the other stored items are and whether
    or not the file system fails. *)
Theorem X9_app_save_duplicate (io : faults) (db_entry : pyval)
    (name : pystr) (items : list pyval) :
  py_get db_entry k_FileName = Ok (PyStr name) ->
  (exists item, In item items /\ py_get item k_FileName = Ok (PyStr name)) ->
  App.save_to_json io db_entry (Json (PyList items)) =
  (Json (PyList items), Ok PyNone).
Proof. apply app_save_duplicate_unchanged. Qed.

(** X9 at a store that holds the entry itself. *)
Lemma X9_app_save_duplicate_witness :
  py_get (PyDict (App.new_entry (lit "a.wav"))) k_FileName =
    Ok (PyStr (lit "a.wav")) /\
  App.save_to_json no_faults (PyDict (App.new_entry (lit "a.wav")))
    (Json (PyList [PyDict (App.new_entry (lit "a.wav"))])) =
  (Json (PyList [PyDict (App.new_entry (lit "a.wav"))]), Ok PyNone).
Proof.
  assert (H : py_get (PyDict (App.new_entry (lit "a.wav"))) k_FileName =
              Ok (PyStr (lit "a.wav"))) by reflexivity.
  split; [exact H |].
  apply (X9_app_save_duplicate no_faults _ (lit "a.wav")); [exact H |].
  exists (PyDict (App.new_entry (lit "a.wav"))).
  split; [left; reflexivity | exact H].
Defined.

Lemma app_save_first (db_entry : pyval) :
  App.save_to_json no_faults db_entry Missing =
  (if has_surrogate (PyList [db_entry]) then Garbage
   else Json (PyList [db_entry]), Ok PyNone).
Proof.
  now rewrite app_save_returns, app_save_body_first, dump_json_no_faults.
Qed.

Lemma app_save_next (db_entry : pyval) (name : pystr) (items : list pyval) :
  py_get db_entry k_FileName = Ok (PyStr name) ->
  Forall (fun item => is_dict item = true) items ->
  entries_named name items = [] ->
  App.save_to_json no_faults db_entry (Json (PyList items)) =
  (if has_surrogate (PyList (items ++ [db_entry])) then Garbage
   else Json (PyList (items ++ [db_entry])), Ok PyNone).
Proof.
  intros Hn Hd He.
  rewrite app_save_returns, (app_save_body_fresh _ _ name) by assumption.
  cbn [no_faults open_read_fails]. now rewrite dump_json_no_faults.
Qed.

(** X10.  [process_file] of [app.py], with no failure of the file system,
    when [process_logs] builds an entry for the file.  If no string of the
    entry and of the store holds a surrogate, the entry is what the store
    gets: a store that does not exist becomes the list of that one entry; a
    store that is a list of dicts, none with this file name, gets the entry
    at its end and keeps the others in their order.  If there is a
    surrogate, as in the name that [os.listdir] gives for a file name that
    is not UTF-8, the write fails after the file was truncated: the store is
    left cut off, and [process_file] returns as if nothing had happened. *)
Theorem X10_process_file_appends (lines : list pystr) (file_name : pystr)
    (e : dict) :
  App.process_logs lines file_name = Ok (PyDict e) ->
  App.process_file no_faults lines file_name Missing =
  (if has_surrogate (PyList [PyDict e]) then Garbage
   else Json (PyList [PyDict e]), Ok PyNone) /\
  (forall items,
     Forall (fun item => is_dict item = true) items ->
     entries_named file_name items = [] ->
     App.process_file no_faults lines file_name (Json (PyList items)) =
     (if has_surrogate (PyList (items ++ [PyDict e])) then Garbage
      else Json (PyList (items ++ [PyDict e])), Ok PyNone)).
Proof.
  intros He.
  destruct (app_entry_file_name _ _ _ He) as [Hf Ht].
  unfold App.process_file, fs_bind, fs_lift. rewrite He, Ht. split.
  - now rewrite app_save_first.
  - intros items Hd Hn.
    now rewrite (app_save_next (PyDict e) file_name items).
Qed.

(** X10 at a trailer of one Number line and a store that does not exist. *)
Lemma X10_process_file_appends_witness :
  App.process_logs [lit "d|Number|Number:0912"; lit "1"; lit "Telsa64"]
    (lit "a.wav") =
  Ok (PyDict (app_entry (PyStr (lit "a.wav")) PyNone PyNone
                (PyDict [(lit "Number", PyStr (lit "0912"))]) PyNone)) /\
  App.process_file no_faults
    [lit "d|Number|Number:0912"; lit "1"; lit "Telsa64"] (lit "a.wav")
    Missing =
  (Json (PyList
           [PyDict (app_entry (PyStr (lit "a.wav")) PyNone PyNone
                      (PyDict [(lit "Number", PyStr (lit "0912"))]) PyNone)]),
   Ok PyNone).
Proof.
  assert (H : App.process_logs
                [lit "d|Number|Number:0912"; lit "1"; lit "Telsa64"]
                (lit "a.wav") =
              Ok (PyDict (app_entry (PyStr (lit "a.wav")) PyNone PyNone
                            (PyDict [(lit "Number", PyStr (lit "0912"))])
                            PyNone)))
    by (vm_compute; reflexivity).
  split; [exact H | exact (proj1 (X10_process_file_appends _ _ _ H))].
Defined.

(** The search for a duplicate never says no when an item of the store is
    no dict: it raises at that item, or has found the name before it. *)
Lemma any_same_file_not_dict (db_entry : pyval) (items : list pyval) :
  Exists (fun item => is_dict item = false) items ->
  App.any_same_file db_entry items <> Ok false.
Proof.
  induction 1 as [x items Hx|x items Hex IH]; cbn [App.any_same_file].
  - destruct x; discriminate.
  - destruct (py_get x k_FileName) as [v|]; cbn [bind]; [|discriminate].
    destruct (py_get db_entry k_FileName) as [w|]; cbn [bind]; [|discriminate].
    destruct (py_eq v w); [discriminate | exact IH].
Qed.

(** X11.  [save_to_json] of [app.py] never writes to a store that is not a
    list of dicts.  When the stored document is no list (an object, a
    string, a number), or is a list with an item that is no dict, the
    exception this causes is caught: the new entry is dropped, the file is
    left as it is, and [None] is returned. *)
Theorem X11_app_save_malformed_store (io : faults) (db_entry db : pyval) :
  (forall items, db = PyList items ->
                 Exists (fun item => is_dict item = false) items) ->
  App.save_to_json io db_entry (Json db) = (Json db, Ok PyNone).
Proof.
  intros H. rewrite app_save_returns. f_equal.
  unfold App.save_body, fs_bind, fs_lift, load_json. cbn [path_exists].
  destruct (open_read_fails io); [reflexivity |].
  destruct db as [| | | |s|items|d]; try reflexivity.
  - cbn [py_iter bind].
    destruct (App.any_same_file db_entry (List.map (fun c => PyStr [c]) s))
      as [[|]|]; reflexivity.
  - cbn [py_iter bind].
    pose proof (any_same_file_not_dict db_entry items (H items eq_refl)).
    destruct (App.any_same_file db_entry items) as [[|]|];
      try reflexivity. congruence.
  - cbn [py_iter bind].
    destruct (App.any_same_file db_entry
                (List.map (fun kv => PyStr (fst kv)) d)) as [[|]|];
      reflexivity.
Qed.

(** X11 at a store that holds an empty JSON object. *)
Lemma X11_app_save_malformed_store_witness :
  (forall items, PyDict [] = PyList items ->
                 Exists (fun item => is_dict item = false) items) /\
  App.save_to_json no_faults (PyDict (App.new_entry (lit "a.wav")))
    (Json (PyDict [])) =
  (Json (PyDict []), Ok PyNone).
Proof.
  assert (H : forall items, PyDict [] = PyList items ->
                            Exists (fun item => is_dict item = false) items)
    by (intros items E; discriminate E).
  split; [exact H | exact (X11_app_save_malformed_store _ _ _ H)].
Defined.

(* ================================================================== *)
(** * The web page helpers *)
(* ================================================================== *)




(** [convert_info_line_to_shamsi] on a string: the two texts of the
    calendar library, or, after the handler has printed the string, two
    empty texts. *)
Lemma convert_info_line_str
    (fromgregorian : Z -> Z -> Z -> Z -> Z -> Z -> res (pystr * pystr))
    (str_other : pyval -> res pystr) (s : pystr) :
  (exists r y m d h mi sec,
     fromgregorian y m d h mi sec = Ok r /\
     convert_info_line_to_shamsi fromgregorian str_other (PyStr s) = Ok r) \/
  convert_info_line_to_shamsi fromgregorian str_other (PyStr s) =
  (if encodable s then Ok ([], []) else Raise UnicodeEncodeError).
Proof.
  unfold convert_info_line_to_shamsi.
  destruct (truthy (PyStr s)) eqn:Ht; cbn [negb].
  2:{ right. destruct s; [reflexivity | discriminate Ht]. }
  match goal with
  | |- (exists r y m d h mi sec, _ /\ try_except ?c ?handler = Ok r) \/ _ =>
      destruct c as [r|e] eqn:E
  end.
  - left. exists r.
    destruct (py_split (PyStr s) pipe) as [parts|]; [|discriminate E].
    cbn [bind] in E.
    destruct (list_getitem parts 0) as [head|]; [|discriminate E].
    cbn [bind] in E.
    destruct (unpack2 (str_split space (-1) head)) as [dt|];
      [|discriminate E].
    cbn [bind] in E.
    destruct (three_ints (fst dt) slash) as [ymd|]; [|discriminate E].
    cbn [bind] in E.
    destruct (three_ints (snd dt) colon) as [hms|]; [|discriminate E].
    cbn [bind] in E. eexists _, _, _, _, _, _. split; [exact E | reflexivity].
  - right. cbn [try_except py_str bind]. unfold print_error.
    rewrite print_around. unfold print.
    destruct (encodable s); reflexivity.
Qed.

(** On [None] and on a string that the standard output can encode,
    [convert_info_line_to_shamsi] does not raise. *)
Lemma convert_info_line_total
    (fromgregorian : Z -> Z -> Z -> Z -> Z -> Z -> res (pystr * pystr))
    (str_other : pyval -> res pystr) (line : pyval) :
  line = PyNone \/ (exists s, line = PyStr s /\ encodable s = true) ->
  exists r,
    convert_info_line_to_shamsi fromgregorian str_other line = Ok r /\
    (r = ([], []) \/
     exists y m d h mi s, fromgregorian y m d h mi s = Ok r).
Proof.
  intros [->|(s & -> & Hs)].
  - exists ([], []). split; [reflexivity | now left].
  - destruct (convert_info_line_str fromgregorian str_other s)
      as [(r & y & m & d & h & mi & sec & Hr & Hc)|Hc].
    + exists r. split; [exact Hc |]. right. eauto 10.
    + exists ([], []). rewrite Hc, Hs. split; [reflexivity | now left].
Qed.



Lemma parse_fields_values (fields : list pystr) (parsed : dict) :
  Forall (fun kv => exists s, snd kv = PyStr s) parsed ->
  Forall (fun kv => exists s, snd kv = PyStr s) (parse_fields fields parsed).
Proof.
  revert parsed. induction fields as [|f fs IH]; intros parsed H;
    [exact H |].
  unfold parse_fields in *. cbn [fold_left]. apply IH.
  destruct (cut_at colon f) as [[k v]|]; [|exact H].
  clear - H. induction parsed as [|[k' v'] d IHd]; cbn [dict_set].
  - constructor; [now exists v | constructor].
  - inversion H; subst.
    destruct (str_eqb k k'); constructor; auto. now exists v.
Qed.

Lemma dict_lookup_value (P : pyval -> Prop) (d : dict) (k : pystr) (v : pyval) :
  Forall (fun kv => P (snd kv)) d -> dict_lookup k d = Some v -> P v.
Proof.
  induction 1 as [|[k' v'] d Hkv Hd IH]; cbn [dict_lookup]; [discriminate |].
  destruct (str_eqb k k'); [|exact IH].
  intros E. inversion E; subst. exact Hkv.
Qed.

(** The value under a key of a FieldMap, or the default: a string. *)
Lemma fields_get_str (d : dict) (k default : pystr) :
  Forall (fun kv => exists s, snd kv = PyStr s) d ->
  exists s, py_get_default (PyDict d) k (PyStr default) = Ok (PyStr s).
Proof.
  intros H. cbn [py_get_default].
  destruct (dict_lookup k d) as [v|] eqn:E; [|now exists default].
  destruct (dict_lookup_value (fun v => exists s, v = PyStr s) d k v H E)
    as (s & ->).
  now exists s.
Qed.

Lemma line_fields_values (l : pystr) :
  Forall (fun kv => exists s, snd kv = PyStr s) (line_fields l).
Proof. apply parse_fields_values. constructor. Qed.

(** The text of an int is a minus sign and ASCII digits. *)
Lemma str_of_int_chars (z : Z) (text : pystr) :
  str_of_int z = Ok text ->
  forall c, In c text ->
            c = 0x2D%N \/ exists d, 0 <= d <= 9 /\ c = (0x30 + Z.to_N d)%N.
Proof.
  unfold str_of_int. cbv zeta.
  set (ds := digits_of (S (Z.to_nat (Z.log2 (Z.abs z)))) (Z.abs z)).
  destruct (digits_of_spec _ _ (Nat.lt_0_succ _)
              (log2_fuel (Z.abs z) (Z.abs_nonneg z))) as (Hd & _).
  fold ds in Hd.
  destruct (int_max_str_digits <? len ds); [discriminate |].
  intros E c Hin.
  assert (Et : (if z <? 0 then [0x2D%N] else [])
               ++ List.map (fun d => (0x30 + Z.to_N d)%N) ds = text)
    by congruence.
  clear E. subst text.
  apply in_app_or in Hin as [Hin|Hin].
  - destruct (z <? 0); [|destruct Hin]. destruct Hin as [<-|[]]. now left.
  - apply in_map_iff in Hin as (d & <- & Hin). right. exists d.
    rewrite Forall_forall in Hd. split; [now apply Hd | reflexivity].
Qed.

(** [to_persian_numbers] of the text of an int never raises. *)
Lemma to_persian_numbers_int (z : Z) (text : pystr) :
  str_of_int z = Ok text ->
  to_persian_numbers text = Ok (List.map persian_of text).
Proof.
  intros H. apply to_persian_numbers_ok. intros c Hin Hdig.
  destruct (str_of_int_chars z text H c Hin) as [->|(d & Hd & ->)].
  - vm_compute in Hdig. discriminate Hdig.
  - rewrite (to_decimal_ascii d Hd). discriminate.
Qed.

(** [get_call_type_farsi] does not raise on [None], nor on a dict whose
    values are strings. *)
Lemma get_call_type_farsi_ok (lower : pystr -> pystr) (callwindow : pyval) :
  callwindow = PyNone \/
  (exists d, callwindow = PyDict d /\
             Forall (fun kv => exists s, snd kv = PyStr s) d) ->
  exists text, get_call_type_farsi lower callwindow = Ok text.
Proof.
  intros [->|(d & -> & Hd)]; [now exists [] |].
  unfold get_call_type_farsi.
  destruct (truthy (PyDict d)); cbn [negb]; [|now exists []].
  destruct (fields_get_str d k_Call_Type [] Hd) as (s & Hs).
  rewrite Hs. cbn [bind py_lower]. eexists. reflexivity.
Qed.

(** The entry of [app.py], value by value. *)
Lemma app_record_values (file_name : pystr) (w : list pystr) :
  exists info info_line number call_window,
    app_record file_name w =
    app_entry (PyStr file_name) info info_line (PyDict number) call_window /\
    (info_line = PyNone \/ exists l, info_line = PyStr l) /\
    Forall (fun kv => exists s, snd kv = PyStr s) number /\
    (call_window = PyNone \/
     exists d, call_window = PyDict d /\
               Forall (fun kv => exists s, snd kv = PyStr s) d).
Proof.
  unfold app_record, fed.
  exists (match last_fed (lit "Info") w with
          | Some l => PyDict (line_fields l)
          | None => PyNone
          end),
         (match last_fed (lit "Info") w with
          | Some l => PyStr (strip l)
          | None => PyNone
          end),
         (match last_fed (lit "Number") w with
          | Some l => line_fields l
          | None => [(k_Number, PyStr App.unknown_marker)]
          end),
         (match last_fed (lit "CallWindow") w with
          | Some l => PyDict (line_fields l)
          | None => PyNone
          end).
  split; [destruct (last_fed (lit "Number") w); reflexivity |].
  split; [destruct (last_fed (lit "Info") w); eauto |].
  split.
  - destruct (last_fed (lit "Number") w); [apply line_fields_values |].
    constructor; [eexists; reflexivity | constructor].
  - destruct (last_fed (lit "CallWindow") w) as [l|]; [right | now left].
    exists (line_fields l). split; [reflexivity | apply line_fields_values].
Qed.

(** The Info line of an entry without a surrogate is encodable. *)
Lemma app_entry_info_line (name info info_line number cw : pyval) :
  has_surrogate (PyDict (app_entry name info info_line number cw)) = false ->
  has_surrogate info_line = false.
Proof.
  unfold app_entry. cbn [has_surrogate existsb]. intros H.
  apply orb_false_iff in H as [_ H]. apply orb_false_iff in H as [_ H].
  apply orb_false_iff in H as [H _]. now apply orb_false_iff in H as [_ H].
Qed.

(** The row of an entry without a surrogate that [process_logs] of
    [app.py] built: only the two texts that go through
    [to_persian_numbers] can make [parse_entry] raise. *)
Lemma parse_entry_shape
    (lower : pystr -> pystr)
    (fromgregorian : Z -> Z -> Z -> Z -> Z -> Z -> res (pystr * pystr))
    (str_other : pyval -> res pystr)
    (lines : list pystr) (file_name : pystr) (e : dict) :
  App.process_logs lines file_name = Ok (PyDict e) ->
  has_surrogate (PyDict e) = false ->
  exists s call_type date time audio,
    number_value (PyDict e) = Ok (PyStr s) /\
    forall i,
      parse_entry lower fromgregorian str_other (PyDict e) (PyInt i) =
      (index_text <- to_persian_numbers_of str_other (PyInt i) ;;
       number_text <- to_persian_numbers s ;;
       Ok (row_html index_text number_text call_type date time audio)).
Proof.
  intros He Hsur.
  destruct (app_process_logs_cases lines file_name)
    as [H|[(start & stop & H)|[_ H]]]; [congruence | | congruence].
  rewrite H in He. inversion He as [He']. clear He H. subst e.
  destruct (app_record_values file_name (list_slice lines start stop))
    as (info & info_line & number & cw & Hrec & Hil & Hnum & Hcw).
  rewrite Hrec in *. clear Hrec.
  destruct (fields_get_str number k_Number App.unknown_marker Hnum)
    as (s & Hs).
  assert (Hline : info_line = PyNone \/
                  exists l, info_line = PyStr l /\ encodable l = true).
  { destruct Hil as [->|(l & ->)]; [now left | right].
    exists l. split; [reflexivity |].
    apply app_entry_info_line in Hsur. cbn [has_surrogate] in Hsur.
    unfold encodable. now rewrite Hsur. }
  destruct (convert_info_line_total fromgregorian str_other info_line Hline)
    as (dt & Hdt & _).
  destruct (get_call_type_farsi_ok lower cw Hcw) as (ct & Hct).
  exists s, ct, (fst dt), (snd dt),
    (if nonempty (if truthy (PyStr file_name)
                  then lit "/files/" ++ file_name else [])
     then audio_tag (if truthy (PyStr file_name)
                     then lit "/files/" ++ file_name else [])
     else no_file_text).
  unfold number_value.
  change (py_get_default
            (PyDict (app_entry (PyStr file_name) info info_line
                       (PyDict number) cw)) k_Number (PyDict []))
    with (Ok (PyDict number) : res pyval).
  cbn [bind]. split; [exact Hs |].
  intros i. unfold parse_entry.
  change (py_get_default
            (PyDict (app_entry (PyStr file_name) info info_line
                       (PyDict number) cw)) k_Number (PyDict []))
    with (Ok (PyDict number) : res pyval).
  cbn [bind]. rewrite Hs. cbn [bind].
  change (py_get
            (PyDict (app_entry (PyStr file_name) info info_line
                       (PyDict number) cw)) k_Info_line)
    with (Ok info_line : res pyval).
  cbn [bind]. rewrite Hdt. cbn [bind].
  change (py_get
            (PyDict (app_entry (PyStr file_name) info info_line
                       (PyDict number) cw)) k_CallWindow)
    with (Ok cw : res pyval).
  cbn [bind]. rewrite Hct. cbn [bind].
  change (py_get_default
            (PyDict (app_entry (PyStr file_name) info info_line
                       (PyDict number) cw)) k_FileName (PyStr []))
    with (Ok (PyStr file_name) : res pyval).
  cbn [bind].
  change (to_persian_numbers_of str_other (PyStr s))
    with (to_persian_numbers s).
  destruct (truthy (PyStr file_name)); reflexivity.
Qed.

(** X13.  The table row of an entry that [process_logs] of [app.py] built
    and that holds no surrogate, as every entry that reached the store, with
    a row number that [str] can print.  The number shown is the value
    of ["Number"] in the entry's Number dict, or the unknown marker when
    that key is missing: a string [s].  When every digit character of [s]
    is a decimal digit, [parse_entry] returns the row, with the row number
    and [s] in Persian digits; when [s] holds a digit character that is no
    decimal digit, [parse_entry] raises [ValueError].  Nothing else in such
    an entry can make it raise. *)
Theorem X13_parse_entry_of_entry
    (lower : pystr -> pystr)
    (fromgregorian : Z -> Z -> Z -> Z -> Z -> Z -> res (pystr * pystr))
    (str_other : pyval -> res pystr)
    (lines : list pystr) (file_name : pystr) (e : dict)
    (i : Z) (index_text : pystr) :
  App.process_logs lines file_name = Ok (PyDict e) ->
  has_surrogate (PyDict e) = false ->
  str_of_int i = Ok index_text ->
  exists s,
    (number <- py_get_default (PyDict e) k_Number (PyDict []) ;;
     py_get_default number k_Number (PyStr App.unknown_marker)) =
    Ok (PyStr s) /\
    ((forall c, In c s -> is_digit c = true -> to_decimal c <> None) ->
     exists call_type date time audio,
       parse_entry lower fromgregorian str_other (PyDict e) (PyInt i) =
       Ok (row_html (List.map persian_of index_text) (List.map persian_of s)
             call_type date time audio)) /\
    ((exists c, In c s /\ is_digit c = true /\ to_decimal c = None) ->
     parse_entry lower fromgregorian str_other (PyDict e) (PyInt i) =
     Raise ValueError).
Proof.
  intros He Hsur Hi.
  destruct (parse_entry_shape lower fromgregorian str_other _ _ _ He Hsur)
    as (s & ct & date & time & audio & Hs & Hrow).
  exists s. split; [exact Hs |].
  assert (Hidx : to_persian_numbers_of str_other (PyInt i) =
                 Ok (List.map persian_of index_text)).
  { unfold to_persian_numbers_of. cbn [py_str]. rewrite Hi. cbn [bind].
    exact (to_persian_numbers_int i index_text Hi). }
  rewrite Hrow, Hidx. cbn [bind]. split.
  - intros Hok. rewrite (to_persian_numbers_ok s Hok). cbn [bind].
    eexists _, _, _, _. reflexivity.
  - intros Hbad. rewrite (to_persian_numbers_raises s Hbad). reflexivity.
Qed.

(** X13 at the entry of a trailer of one Number line, as row 1, with a
    lower-casing that changes nothing, a calendar that refuses every date
    and no text for floats, lists and dicts. *)
Lemma X13_parse_entry_of_entry_witness :
  App.process_logs [lit "d|Number|Number:0912"; lit "1"; lit "Telsa64"]
    (lit "a.wav") =
  Ok (PyDict (app_entry (PyStr (lit "a.wav")) PyNone PyNone
                (PyDict [(lit "Number", PyStr (lit "0912"))]) PyNone)) /\
  has_surrogate
    (PyDict (app_entry (PyStr (lit "a.wav")) PyNone PyNone
               (PyDict [(lit "Number", PyStr (lit "0912"))]) PyNone)) =
  false /\
  str_of_int 1 = Ok (lit "1") /\
  exists s,
    (number <- py_get_default
                 (PyDict (app_entry (PyStr (lit "a.wav")) PyNone PyNone
                            (PyDict [(lit "Number", PyStr (lit "0912"))])
                            PyNone)) k_Number (PyDict []) ;;
     py_get_default number k_Number (PyStr App.unknown_marker)) =
    Ok (PyStr s).
Proof.
  assert (H1 : App.process_logs
                 [lit "d|Number|Number:0912"; lit "1"; lit "Telsa64"]
                 (lit "a.wav") =
               Ok (PyDict (app_entry (PyStr (lit "a.wav")) PyNone PyNone
                             (PyDict [(lit "Number", PyStr (lit "0912"))])
                             PyNone)))
    by (vm_compute; reflexivity).
  assert (H2 : str_of_int 1 = Ok (lit "1")) by (vm_compute; reflexivity).
  assert (H3 : has_surrogate
                 (PyDict (app_entry (PyStr (lit "a.wav")) PyNone PyNone
                            (PyDict [(lit "Number", PyStr (lit "0912"))])
                            PyNone)) = false)
    by (vm_compute; reflexivity).
  split; [exact H1 |]. split; [exact H3 |]. split; [exact H2 |].
  destruct (X13_parse_entry_of_entry (fun s => s)
              (fun _ _ _ _ _ _ => Raise ValueError) (fun _ => Ok [])
              _ _ _ 1 (lit "1") H1 H3 H2) as (s & Hs & _).
  exists s. exact Hs.
Defined.

(* ================================================================== *)
(** * The directory scan of call_logs.py *)
(* ================================================================== *)







(* ================================================================== *)
(** * The page of app.py *)
(* ================================================================== *)

(** A number below [10 ^ k] has at most [k] decimal digits. *)
Lemma digits_of_length (fuel : nat) (n k : Z) :
  1 <= k -> 0 <= n < 10 ^ k -> len (digits_of fuel n) <= k.
Proof.
  revert n k. induction fuel as [|f IH]; intros n k Hk Hn.
  - cbn [digits_of]. change (len (@nil Z)) with 0. lia.
  - cbn [digits_of]. destruct (Z.ltb_spec n 10) as [Hlt|Hge].
    + change (len [n]) with 1. lia.
    + assert (Hk2 : 2 <= k).
      { destruct (Z.eq_dec k 1) as [->|]; [|lia].
        rewrite Z.pow_1_r in Hn. lia. }
      assert (Hp : 10 ^ k = 10 * 10 ^ (k - 1)).
      { rewrite <- Z.pow_succ_r by lia. f_equal. lia. }
      assert (Hq : 0 <= n / 10 < 10 ^ (k - 1)).
      { split; [apply Z.div_pos; lia |].
        apply Z.div_lt_upper_bound; lia. }
      pose proof (IH (n / 10) (k - 1) ltac:(lia) Hq) as Hlen.
      unfold len in *. rewrite length_app. cbn [List.length]. lia.
Qed.

(** [str] prints every row number below [10 ^ 4300]. *)
Lemma str_of_int_small (z : Z) :
  0 <= z < 10 ^ int_max_str_digits -> exists text, str_of_int z = Ok text.
Proof.
  intros Hz. unfold str_of_int. cbv zeta.
  rewrite Z.abs_eq by lia.
  pose proof (digits_of_length (S (Z.to_nat (Z.log2 z))) z
                int_max_str_digits ltac:(unfold int_max_str_digits; lia) Hz)
    as Hlen.
  destruct (Z.ltb_spec int_max_str_digits
              (len (digits_of (S (Z.to_nat (Z.log2 z))) z))) as [H|H];
    [lia |].
  eexists. reflexivity.
Qed.

Lemma all_decimal_true (s : pystr) :
  all_decimal s = true ->
  forall c, In c s -> is_digit c = true -> to_decimal c <> None.
Proof.
  unfold all_decimal. rewrite forallb_forall. intros H c Hin Hdig.
  specialize (H c Hin). rewrite Hdig in H. cbn [negb orb] in H.
  destruct (to_decimal c); [discriminate | discriminate H].
Qed.

Lemma all_decimal_false (s : pystr) :
  all_decimal s = false ->
  exists c, In c s /\ is_digit c = true /\ to_decimal c = None.
Proof.
  unfold all_decimal. induction s as [|c s IH]; cbn [forallb];
    [discriminate |].
  intros H. apply andb_false_iff in H. destruct H as [H|H].
  - exists c. apply orb_false_iff in H. destruct H as [H1 H2].
    split; [now left |]. split; [now destruct (is_digit c) |].
    destruct (to_decimal c); [discriminate H2 | reflexivity].
  - destruct (IH H) as (c' & Hin & Hc'). exists c'.
    split; [now right | exact Hc'].
Qed.

Lemma has_surrogate_cons (x : pyval) (rest : list pyval) :
  has_surrogate (PyList (x :: rest)) = false ->
  has_surrogate x = false /\ has_surrogate (PyList rest) = false.
Proof.
  cbn [has_surrogate existsb]. intros H.
  now apply orb_false_iff in H.
Qed.

(** The rows of a store that holds what [process_file] saves. *)
Lemma rows_from_stored
    (lower : pystr -> pystr)
    (fromgregorian : Z -> Z -> Z -> Z -> Z -> Z -> res (pystr * pystr))
    (str_other : pyval -> res pystr) (entries : list pyval) :
  Forall stored_by_app entries ->
  has_surrogate (PyList entries) = false ->
  forall idx rows_html,
    0 <= idx -> idx + len entries <= 10 ^ int_max_str_digits ->
    if forallb number_prints entries
    then exists rows,
        rows_from lower fromgregorian str_other idx entries rows_html =
        Ok rows
    else rows_from lower fromgregorian str_other idx entries rows_html =
         Raise ValueError.
Proof.
  induction 1 as [|entry rest (lines & file_name & He & Ht) Hrest IH];
    intros Hsur idx rows_html Hidx Hlen.
  - cbn [forallb rows_from]. eexists. reflexivity.
  - assert (Hl : len (entry :: rest) = 1 + len rest)
      by (unfold len; cbn [List.length]; lia).
    rewrite Hl in Hlen.
    assert (Hpos : 0 <= len rest) by (unfold len; lia).
    apply has_surrogate_cons in Hsur as [Hsur Hsur'].
    destruct (app_process_logs_cases lines file_name)
      as [H|[(start & stop & H)|[_ H]]];
      rewrite H in He; inversion He; subst entry; [discriminate Ht |].
    destruct (parse_entry_shape lower fromgregorian str_other _ _ _ H Hsur)
      as (s & ct & date & time & audio & Hs & Hrow).
    destruct (str_of_int_small idx ltac:(lia)) as (text & Htext).
    assert (Hi : to_persian_numbers_of str_other (PyInt idx) =
                 Ok (List.map persian_of text)).
    { unfold to_persian_numbers_of. cbn [py_str]. rewrite Htext.
      cbn [bind]. exact (to_persian_numbers_int idx text Htext). }
    cbn [forallb rows_from]. rewrite Hrow, Hi. cbn [bind].
    unfold number_prints at 1. rewrite Hs.
    destruct (all_decimal s) eqn:Hdec; cbn [andb].
    + rewrite (to_persian_numbers_ok s (all_decimal_true s Hdec)).
      cbn [bind]. apply IH; [exact Hsur' | lia | lia].
    + rewrite (to_persian_numbers_raises s (all_decimal_false s Hdec)).
      reflexivity.
Qed.

(** X15.  The page over a store that holds what [process_file] of
    [app.py] saves, without a surrogate in any string, as [save_to_json]
    leaves it, and fewer than [10 ^ 4300] entries, read without a failure
    of the file system.  When the number of every entry has only decimal
    digits for digit characters, [index] returns the page: its head, the
    rows, its tail.  When one entry has a number with a digit character
    that is no decimal digit, [index] raises [ValueError] and no page is
    shown, whatever the other entries are. *)
Theorem X15_index_of_store
    (lower : pystr -> pystr)
    (fromgregorian : Z -> Z -> Z -> Z -> Z -> Z -> res (pystr * pystr))
    (str_other : pyval -> res pystr) (page_head page_tail : pystr)
    (io : faults) (entries : list pyval) :
  open_read_fails io = false ->
  Forall stored_by_app entries ->
  has_surrogate (PyList entries) = false ->
  len entries < 10 ^ int_max_str_digits ->
  (forallb number_prints entries = true ->
   exists rows,
     rows_from lower fromgregorian str_other 1 entries [] = Ok rows /\
     index lower fromgregorian str_other page_head page_tail io
       (Json (PyList entries)) =
     Ok (page_head ++ rows ++ page_tail)) /\
  (forallb number_prints entries = false ->
   index lower fromgregorian str_other page_head page_tail io
     (Json (PyList entries)) =
   Raise ValueError).
Proof.
  intros Hio Hst Hsur Hlen.
  pose proof (rows_from_stored lower fromgregorian str_other entries Hst
                Hsur 1 [] ltac:(lia) ltac:(lia)) as Hrows.
  unfold index, load_json. cbn [path_exists]. rewrite Hio.
  cbn [bind py_iter].
  split; intros Hp; rewrite Hp in Hrows.
  - destruct Hrows as (rows & Hrows). exists rows.
    split; [exact Hrows |]. rewrite Hrows. reflexivity.
  - rewrite Hrows. reflexivity.
Qed.

(** X15 at a store of one entry with the number 0912, with a lower-casing
    that changes nothing, a calendar that refuses every date, no text for
    floats, lists and dicts, and an empty page around the rows. *)
Lemma X15_index_of_store_witness :
  open_read_fails no_faults = false /\
  Forall stored_by_app
    [PyDict (app_entry (PyStr (lit "a.wav")) PyNone PyNone
               (PyDict [(lit "Number", PyStr (lit "0912"))]) PyNone)] /\
  has_surrogate
    (PyList
       [PyDict (app_entry (PyStr (lit "a.wav")) PyNone PyNone
                  (PyDict [(lit "Number", PyStr (lit "0912"))]) PyNone)]) =
  false /\
  len [PyDict (app_entry (PyStr (lit "a.wav")) PyNone PyNone
                 (PyDict [(lit "Number", PyStr (lit "0912"))]) PyNone)]
  < 10 ^ int_max_str_digits /\
  forallb number_prints
    [PyDict (app_entry (PyStr (lit "a.wav")) PyNone PyNone
               (PyDict [(lit "Number", PyStr (lit "0912"))]) PyNone)] =
  true /\
  exists rows,
    index (fun s => s) (fun _ _ _ _ _ _ => Raise ValueError)
      (fun _ => Ok []) [] [] no_faults
      (Json (PyList
               [PyDict (app_entry (PyStr (lit "a.wav")) PyNone PyNone
                          (PyDict [(lit "Number", PyStr (lit "0912"))])
                          PyNone)])) =
    Ok ([] ++ rows ++ []).
Proof.
  assert (H1 : open_read_fails no_faults = false) by reflexivity.
  assert (H2 : Forall stored_by_app
                 [PyDict (app_entry (PyStr (lit "a.wav")) PyNone PyNone
                            (PyDict [(lit "Number", PyStr (lit "0912"))])
                            PyNone)]).
  { constructor; [|constructor].
    exists [lit "d|Number|Number:0912"; lit "1"; lit "Telsa64"],
           (lit "a.wav").
    split; vm_compute; reflexivity. }
  assert (H3 : len [PyDict (app_entry (PyStr (lit "a.wav")) PyNone PyNone
                              (PyDict [(lit "Number", PyStr (lit "0912"))])
                              PyNone)]
               < 10 ^ int_max_str_digits)
    by (vm_compute; reflexivity).
  assert (H4 : forallb number_prints
                 [PyDict (app_entry (PyStr (lit "a.wav")) PyNone PyNone
                            (PyDict [(lit "Number", PyStr (lit "0912"))])
                            PyNone)] = true)
    by (vm_compute; reflexivity).
  assert (H5 : has_surrogate
                 (PyList
                    [PyDict (app_entry (PyStr (lit "a.wav")) PyNone PyNone
                               (PyDict [(lit "Number", PyStr (lit "0912"))])
                               PyNone)]) = false)
    by (vm_compute; reflexivity).
  split; [exact H1 |]. split; [exact H2 |]. split; [exact H5 |].
  split; [exact H3 |]. split; [exact H4 |].
  destruct (proj1 (X15_index_of_store (fun s => s)
                     (fun _ _ _ _ _ _ => Raise ValueError) (fun _ => Ok [])
                     [] [] no_faults _ H1 H2 H5 H3) H4) as (rows & _ & Hidx).
  exists rows. exact Hidx.
Defined.


(* ================================================================== *)
(** * The store over a run of app.py *)
(* ================================================================== *)

Lemma stored_by_app_dict (entry : pyval) :
  stored_by_app entry -> is_dict entry = true.
Proof.
  intros (lines & file_name & He & Ht).
  destruct (app_process_logs_cases lines file_name)
    as [H|[(start & stop & H)|[_ H]]];
    rewrite H in He; inversion He; subst entry;
    [discriminate Ht | reflexivity].
Qed.

Lemma entries_named_found (name : pystr) (items : list pyval) :
  entries_named name items <> [] ->
  exists item, In item items /\ py_get item k_FileName = Ok (PyStr name).
Proof.
  intros Hne. destruct (entries_named name items) as [|item rest] eqn:E;
    [congruence |].
  assert (Hin : In item (entries_named name items))
    by (rewrite E; now left).
  unfold entries_named in Hin. apply filter_In in Hin.
  destruct Hin as [Hin Hp]. exists item. split; [exact Hin |].
  destruct item as [| | | | | |d]; try discriminate Hp.
  cbn [py_get].
  destruct (dict_lookup k_FileName d) as [[| | | |s| |]|];
    try discriminate Hp.
  apply str_eqb_eq in Hp. now subst s.
Qed.

Lemma entries_named_snoc (name file_name : pystr) (d : dict)
    (items : list pyval) :
  dict_lookup k_FileName d = Some (PyStr file_name) ->
  entries_named name (items ++ [PyDict d]) =
  entries_named name items
  ++ (if str_eqb file_name name then [PyDict d] else []).
Proof.
  intros Hd. unfold entries_named. rewrite filter_app. cbn [filter].
  now rewrite Hd.
Qed.

(** One [save_to_json] of [app.py] with a fresh name, whatever the file
    system does: the store is left as it was, is cut off, or gets the
    entry at its end, and then holds no surrogate. *)
Lemma app_save_outcomes (io : faults) (db_entry : pyval) (name : pystr)
    (items : list pyval) (disk : file_state) :
  py_get db_entry k_FileName = Ok (PyStr name) ->
  disk = Missing /\ items = [] \/
  disk = Json (PyList items) /\
  Forall (fun item => is_dict item = true) items /\
  entries_named name items = [] ->
  fst (App.save_to_json io db_entry disk) = disk \/
  fst (App.save_to_json io db_entry disk) = Garbage \/
  (fst (App.save_to_json io db_entry disk) =
   Json (PyList (items ++ [db_entry])) /\
   has_surrogate (PyList (items ++ [db_entry])) = false).
Proof.
  intros Hn Hdisk. rewrite app_save_returns. cbn [fst].
  assert (Hdump : forall old,
             fst (dump_json false io old (PyList (items ++ [db_entry]))) = old \/
             fst (dump_json false io old (PyList (items ++ [db_entry]))) =
             Garbage \/
             (fst (dump_json false io old (PyList (items ++ [db_entry]))) =
              Json (PyList (items ++ [db_entry])) /\
              has_surrogate (PyList (items ++ [db_entry])) = false)).
  { intros old. unfold dump_json.
    destruct (open_write_fails io); [now left |].
    destruct (dump_fails io); [right; now left |].
    cbn [negb andb].
    destruct (has_surrogate (PyList (items ++ [db_entry])));
      [right; now left | right; right; now split]. }
  destruct Hdisk as [(-> & ->)|(-> & Hd & He)].
  - rewrite app_save_body_first. apply (Hdump Missing).
  - rewrite (app_save_body_fresh _ _ name) by assumption.
    destruct (open_read_fails io); [now left | apply Hdump].
Qed.

(** A store that cannot be parsed is left as it is. *)
Lemma app_save_garbage (io : faults) (db_entry : pyval) :
  fst (App.save_to_json io db_entry Garbage) = Garbage.
Proof.
  rewrite app_save_returns. cbn [fst].
  unfold App.save_body, fs_bind, fs_lift, load_json. cbn [path_exists].
  destruct (open_read_fails io); reflexivity.
Qed.

(** The store after [process_file], by what [process_logs] returns. *)
Lemma process_file_store (io : faults) (lines : list pystr)
    (base_name : pystr) (disk : file_state) :
  fst (App.process_file io lines base_name disk) =
  match App.process_logs lines base_name with
  | Ok (PyDict e) => fst (App.save_to_json io (PyDict e) disk)
  | _ => disk
  end.
Proof.
  unfold App.process_file, fs_bind, fs_lift.
  destruct (app_process_logs_cases lines base_name)
    as [H|[(start & stop & H)|[_ H]]]; rewrite H; try reflexivity.
  set (e := app_record base_name (list_slice lines start stop)).
  change (truthy (PyDict e)) with true. cbv iota beta.
  destruct (App.save_to_json io (PyDict e) disk) as [disk' [v|x]];
    reflexivity.
Qed.

(** One call of [process_file] keeps the store as [store_ok] has it. *)
Lemma process_file_store_ok (io : faults) (lines : list pystr)
    (base_name : pystr) (disk : file_state) :
  store_ok disk -> store_ok (fst (App.process_file io lines base_name disk)).
Proof.
  intros Hok. rewrite process_file_store.
  destruct (App.process_logs lines base_name) as [[| | | | | |e]|] eqn:H;
    try exact Hok.
  destruct (app_entry_file_name _ _ _ H) as [Hn Ht].
  assert (Hs : stored_by_app (PyDict e))
    by (exists lines, base_name; split; [exact H | exact Ht]).
  assert (Hlook : dict_lookup k_FileName e = Some (PyStr base_name)).
  { cbn [py_get] in Hn.
    destruct (dict_lookup k_FileName e); [|discriminate Hn].
    now inversion Hn. }
  destruct disk as [|db|].
  - destruct (app_save_outcomes io (PyDict e) base_name [] Missing Hn
                ltac:(left; split; reflexivity)) as [->|[->|[-> Hsur]]];
      [exact I | exact I |].
    exists [PyDict e]. split; [reflexivity |].
    split; [constructor; [exact Hs | constructor] |].
    split; [exact Hsur |].
    intros name. unfold entries_named. cbn [app filter].
    match goal with |- context [if ?b then _ else _] => destruct b end;
      cbn [List.length]; lia.
  - destruct Hok as (items & -> & Hst & Hclean & Hdist).
    assert (Hd : Forall (fun item => is_dict item = true) items).
    { apply Forall_forall. intros x Hx. apply stored_by_app_dict.
      now apply (proj1 (Forall_forall _ _) Hst). }
    destruct (entries_named base_name items) as [|x rest] eqn:E.
    + destruct (app_save_outcomes io (PyDict e) base_name items
                  (Json (PyList items)) Hn
                  ltac:(right; split; [reflexivity | split; assumption]))
        as [->|[->|[-> Hsur]]].
      * exists items. split; [reflexivity |]. split; [assumption |].
        split; assumption.
      * exact I.
      * exists (items ++ [PyDict e]). split; [reflexivity |].
        split; [apply Forall_app; split;
                [exact Hst | constructor; [exact Hs | constructor]] |].
        split; [exact Hsur |].
        intros name.
        rewrite (entries_named_snoc name base_name e items Hlook).
        rewrite length_app.
        destruct (str_eqb base_name name) eqn:Eq; cbn [List.length].
        -- apply str_eqb_eq in Eq. subst name. rewrite E.
           cbn [List.length]. lia.
        -- specialize (Hdist name). lia.
    + rewrite (app_save_duplicate_unchanged io (PyDict e) base_name items Hn).
      * exists items. split; [reflexivity |]. split; [assumption |].
        split; assumption.
      * apply entries_named_found. rewrite E. discriminate.
  - rewrite app_save_garbage. exact I.
Qed.

(** ** Strings without a surrogate *)

Lemma encodable_cons (c : char) (s : pystr) :
  encodable (c :: s) = negb (is_surrogate c) && encodable s.
Proof. unfold encodable. cbn [existsb]. apply negb_orb. Qed.

Lemma drop_while_incl (p : char -> bool) (s : pystr) :
  incl (drop_while p s) s.
Proof.
  induction s as [|c s IH]; cbn [drop_while]; [apply incl_refl |].
  destruct (p c); [now apply incl_tl | apply incl_refl].
Qed.

Lemma strip_incl (s : pystr) : incl (strip s) s.
Proof.
  unfold strip, strip_with. intros c Hc.
  apply in_rev in Hc. apply drop_while_incl in Hc.
  apply in_rev in Hc. now apply drop_while_incl in Hc.
Qed.

Lemma encodable_strip (s : pystr) :
  encodable s = true -> encodable (strip s) = true.
Proof. apply encodable_incl, strip_incl. Qed.

(** The segments of an encodable text are encodable. *)
Lemma encodable_str_split (sep : char) (s : pystr) :
  encodable s = true ->
  forall m, Forall (fun seg => encodable seg = true) (str_split sep m s).
Proof.
  induction s as [|c s IH]; intros Hs m; cbn [str_split].
  - repeat constructor.
  - rewrite encodable_cons in Hs. apply andb_true_iff in Hs as [Hc Hs].
    destruct ((c =? sep)%N && negb (m =? 0)).
    + constructor; [reflexivity | now apply IH].
    + specialize (IH Hs m).
      destruct (str_split sep m s) as [|seg segs].
      * constructor; [|constructor].
        rewrite encodable_cons, Hc. reflexivity.
      * inversion IH; subst. constructor; [|assumption].
        now rewrite encodable_cons, Hc.
Qed.

Lemma dict_set_clean (k : pystr) (v : pyval) (d : dict) :
  encodable k = true -> has_surrogate v = false ->
  has_surrogate (PyDict d) = false ->
  has_surrogate (PyDict (dict_set k v d)) = false.
Proof.
  intros Hk Hv. unfold encodable in Hk. apply negb_true_iff in Hk.
  induction d as [|[k' v'] d IH]; cbn [dict_set]; intros Hd.
  - cbn [has_surrogate existsb]. now rewrite Hk, Hv.
  - cbn [has_surrogate existsb] in Hd.
    apply orb_false_iff in Hd as [Hkv Hd].
    destruct (str_eqb k k') eqn:E.
    + apply str_eqb_eq in E. subst k'.
      cbn [has_surrogate existsb]. rewrite Hk, Hv. exact Hd.
    + cbn [has_surrogate existsb]. rewrite Hkv. cbn [orb].
      exact (IH Hd).
Qed.

Lemma parse_fields_clean (fields : list pystr) (parsed : dict) :
  Forall (fun f => encodable f = true) fields ->
  has_surrogate (PyDict parsed) = false ->
  has_surrogate (PyDict (parse_fields fields parsed)) = false.
Proof.
  unfold parse_fields. intros Hf. revert parsed.
  induction Hf as [|f fields Hf Hfs IH]; intros parsed Hp; [exact Hp |].
  cbn [fold_left]. apply IH.
  destruct (cut_at colon f) as [[k v]|] eqn:E; [|exact Hp].
  apply cut_at_Some in E as [-> _].
  rewrite encodable_app, encodable_cons in Hf.
  apply andb_true_iff in Hf as [Hk Hv].
  apply andb_true_iff in Hv as [_ Hv].
  apply dict_set_clean; [exact Hk | | exact Hp].
  cbn [has_surrogate]. unfold encodable in Hv.
  now apply negb_true_iff in Hv.
Qed.

Lemma line_fields_clean (l : pystr) :
  encodable l = true -> has_surrogate (PyDict (line_fields l)) = false.
Proof.
  intros Hl. unfold line_fields. apply parse_fields_clean; [|reflexivity].
  pose proof (encodable_str_split pipe (strip l) (encodable_strip l Hl) (-1))
    as H.
  rewrite Forall_forall in H. apply Forall_forall. intros f Hin.
  apply H. rewrite <- (firstn_skipn 2 (str_split pipe (-1) (strip l))).
  apply in_or_app. now right.
Qed.

Lemma last_fed_member (t : pystr) (w : list pystr) (l : pystr) :
  last_fed t w = Some l -> In l w.
Proof.
  induction w as [|x w IH]; cbn [last_fed]; [discriminate |].
  destruct (last_fed t w) as [y|].
  - intros E. inversion E; subst. right. now apply IH.
  - destruct (feeds t x); [|discriminate].
    intros E. inversion E. now left.
Qed.

(** The entry that [app.py] assembles from encodable lines under an
    encodable name holds no surrogate. *)
Lemma app_record_clean (file_name : pystr) (w : list pystr) :
  encodable file_name = true ->
  Forall (fun l => encodable l = true) w ->
  has_surrogate (PyDict (app_record file_name w)) = false.
Proof.
  intros Hn Hw. rewrite Forall_forall in Hw.
  assert (Hfed : forall t before,
             has_surrogate before = false ->
             has_surrogate (fed t w before) = false).
  { intros t before Hb. unfold fed.
    destruct (last_fed t w) as [l|] eqn:E; [|exact Hb].
    apply line_fields_clean, Hw. now apply (last_fed_member t). }
  unfold app_record, app_entry. cbn [has_surrogate existsb].
  rewrite !Hfed by reflexivity.
  unfold encodable in Hn. apply negb_true_iff in Hn. rewrite Hn.
  destruct (last_fed (lit "Info") w) as [l|] eqn:E; [|reflexivity].
  pose proof (encodable_strip l (Hw l (last_fed_member _ _ _ E))) as Hl.
  unfold encodable in Hl. apply negb_true_iff in Hl.
  cbn [has_surrogate]. rewrite Hl. reflexivity.
Qed.

Lemma has_surrogate_app (a b : list pyval) :
  has_surrogate (PyList (a ++ b)) =
  has_surrogate (PyList a) || has_surrogate (PyList b).
Proof. cbn [has_surrogate]. apply existsb_app. Qed.

(** With no failure of the file system, encodable lines and an encodable
    name, a store that is not cut off is not cut off after
    [process_file]. *)
Lemma process_file_no_garbage (lines : list pystr) (base_name : pystr)
    (disk : file_state) :
  encodable base_name = true ->
  Forall (fun l => encodable l = true) lines ->
  store_ok disk -> disk <> Garbage ->
  fst (App.process_file no_faults lines base_name disk) <> Garbage.
Proof.
  intros Hname Hlines Hok Hg. rewrite process_file_store.
  destruct (app_process_logs_cases lines base_name)
    as [H|[(start & stop & H)|[_ H]]]; rewrite H; try exact Hg.
  set (e := app_record base_name (list_slice lines start stop)).
  assert (Hclean : has_surrogate (PyDict e) = false).
  { apply app_record_clean; [exact Hname |].
    rewrite Forall_forall in Hlines. apply Forall_forall.
    intros l Hl. apply Hlines. exact (list_slice_In _ _ _ _ Hl). }
  assert (Hn : py_get (PyDict e) k_FileName = Ok (PyStr base_name))
    by reflexivity.
  destruct disk as [|db|]; [| |congruence].
  - rewrite app_save_first. cbn [fst].
    replace (has_surrogate (PyList [PyDict e])) with false; [discriminate |].
    symmetry. cbn [has_surrogate existsb] in *. now rewrite Hclean.
  - destruct Hok as (items & -> & Hst & Hsur & _).
    destruct (entries_named base_name items) as [|x rest] eqn:E.
    + rewrite (app_save_next (PyDict e) base_name items Hn); [|  | exact E].
      * cbn [fst]. rewrite has_surrogate_app, Hsur.
        replace (has_surrogate (PyList [PyDict e])) with false;
          [discriminate |].
        symmetry. cbn [has_surrogate existsb] in *. now rewrite Hclean.
      * apply Forall_forall. intros y Hy. apply stored_by_app_dict.
        now apply (proj1 (Forall_forall _ _) Hst).
    + rewrite (app_save_duplicate_unchanged no_faults (PyDict e) base_name
                 items Hn); [discriminate |].
      apply entries_named_found. rewrite E. discriminate.
Qed.

(** X16.  The store of [app.py] over a whole run, from a store that does
    not exist: after any number of calls of [process_file], for any files
    in any order and whatever the file system does during each call, the
    store is missing, cut off, or a list of entries that [process_logs]
    built, without a surrogate in any string, in which no file name occurs
    twice.  When the file system never fails and the lines and the name of
    each file are texts that UTF-8 can encode, the store is never cut off.
    A store that is cut off stays cut off: no later call repairs it. *)
Theorem X16_app_store_invariant
    (calls : list (faults * list pystr * pystr)) :
  match app_runs calls Missing with
  | Json db =>
      exists items,
        db = PyList items /\ Forall stored_by_app items /\
        has_surrogate db = false /\
        forall name, (List.length (entries_named name items) <= 1)%nat
  | _ => True
  end /\
  (Forall (fun call =>
             fst (fst call) = no_faults /\
             Forall (fun l => encodable l = true) (snd (fst call)) /\
             encodable (snd call) = true) calls ->
   app_runs calls Missing <> Garbage) /\
  app_runs calls Garbage = Garbage.
Proof.
  assert (Hinv : forall disk, store_ok disk -> store_ok (app_runs calls disk)).
  { unfold app_runs. induction calls as [|[[io lines] base_name] rest IH];
      intros disk Hok; [exact Hok |].
    cbn [fold_left]. apply IH. now apply process_file_store_ok. }
  split; [exact (Hinv Missing I) |].
  split.
  - intros Hio.
    assert (Hng : forall disk, store_ok disk -> disk <> Garbage ->
                               app_runs calls disk <> Garbage).
    { clear Hinv. unfold app_runs.
      induction Hio as [|[[io lines] base_name] rest Hc Hio IH];
        intros disk Hok Hg; [exact Hg |].
      cbn [fst snd] in Hc. destruct Hc as (-> & Hlines & Hname).
      cbn [fold_left]. apply IH.
      - now apply process_file_store_ok.
      - now apply process_file_no_garbage. }
    apply Hng; [exact I | discriminate].
  - clear Hinv. unfold app_runs.
    induction calls as [|[[io lines] base_name] rest IH]; [reflexivity |].
    cbn [fold_left]. rewrite process_file_store.
    destruct (App.process_logs lines base_name) as [[| | | | | |e]|];
      try exact IH.
    rewrite app_save_garbage. exact IH.
Qed.

(** X16 at a run of two calls for the same file. *)
Lemma X16_app_store_invariant_witness :
  Forall (fun call =>
            fst (fst call) = no_faults /\
            Forall (fun l => encodable l = true) (snd (fst call)) /\
            encodable (snd call) = true)
    [(no_faults, [lit "d|Number|Number:0912"; lit "1"; lit "Telsa64"],
      lit "a.wav");
     (no_faults, [lit "d|Number|Number:0912"; lit "1"; lit "Telsa64"],
      lit "a.wav")] /\
  app_runs
    [(no_faults, [lit "d|Number|Number:0912"; lit "1"; lit "Telsa64"],
      lit "a.wav");
     (no_faults, [lit "d|Number|Number:0912"; lit "1"; lit "Telsa64"],
      lit "a.wav")] Missing <> Garbage.
Proof.
  assert (H : Forall (fun call =>
                        fst (fst call) = no_faults /\
                        Forall (fun l => encodable l = true) (snd (fst call)) /\
                        encodable (snd call) = true)
                [(no_faults,
                  [lit "d|Number|Number:0912"; lit "1"; lit "Telsa64"],
                  lit "a.wav");
                 (no_faults,
                  [lit "d|Number|Number:0912"; lit "1"; lit "Telsa64"],
                  lit "a.wav")])
    by (repeat constructor).
  split; [exact H |].
  exact (proj1 (proj2 (X16_app_store_invariant _)) H).
Defined.
